(** * The web-editor project manager (class [Project]) *)

(** A shallow embedding of the [Project] class: the loaded bundle, the
    identity-keyed table of per-file data, the monaco models it creates and
    the emit pipeline.  JavaScript objects that are mutated in place (the
    project files, the per-file data, the monaco models) live in an explicit
    store that every operation threads; a thrown [Error] keeps the store as
    it was at the point of the throw. *)

From stdpp Require Import base option list gmap strings.
From Stdlib Require Import String Ascii.

Set Default Proof Using "Type".
Local Open Scope string_scope.
Local Open Scope list_scope.

(** ** Exceptions and the store-passing monad *)

(** [new Error(message)]. *)
Inductive Exception : Type :=
  | Error (message : string).

(** How a call completes: it returns a value or throws. *)
Inductive Completion (A : Type) : Type :=
  | Return (a : A)
  | Throw (e : Exception).
Arguments Return {A} a.
Arguments Throw {A} e.

(** A computation over a store [S].  The store that comes back with a
    [Throw] holds every write made before the exception. *)
Definition Js (S A : Type) : Type := S → Completion A * S.

Definition ret {S A} (a : A) : Js S A := λ s, (Return a, s).

Definition throw {S A} (e : Exception) : Js S A := λ s, (Throw e, s).

Definition bind {S A B} (m : Js S A) (k : A → Js S B) : Js S B :=
  λ s, match m s with
       | (Return a, s') => k a s'
       | (Throw e, s') => (Throw e, s')
       end.

Definition gets {S A} (f : S → A) : Js S A := λ s, (Return (f s), s).

Definition modify {S} (f : S → S) : Js S unit := λ s, (Return tt, f s).

Notation "'let*' x ':=' m 'in' k" := (bind m (λ x, k))
  (at level 10, x pattern, m at level 100, k at level 200).
Notation "m1 '>>' m2" := (bind m1 (λ _, m2))
  (at level 61, left associativity).

(** [array.forEach(callback)]. *)
Fixpoint forEach {S A} (l : list A) (callback : A → Js S unit) : Js S unit :=
  match l with
  | [] => ret tt
  | x :: l' => callback x >> forEach l' callback
  end.

(** [array.filter(callback)] with a callback that reads and writes the store. *)
Fixpoint filterJs {S A} (l : list A) (callback : A → Js S bool) : Js S (list A) :=
  match l with
  | [] => ret []
  | x :: l' =>
      let* keep := callback x in
      let* rest := filterJs l' callback in
      ret (if keep : bool then x :: rest else rest)
  end.

(** [array.map(callback)] with a callback that reads and writes the store. *)
Fixpoint mapJs {S A B} (l : list A) (callback : A → Js S B) : Js S (list B) :=
  match l with
  | [] => ret []
  | x :: l' =>
      let* y := callback x in
      let* rest := mapJs l' callback in
      ret (y :: rest)
  end.

(** ** Strings *)

(** The double-quote character of the error messages. *)
Definition dquote : string := String "034"%char EmptyString.

(** [Some rest] when [s] is [pattern] followed by [rest]. *)
Fixpoint strip_prefix (pattern s : string) : option string :=
  match pattern, s with
  | EmptyString, _ => Some s
  | String a pattern', String b s' =>
      if Ascii.eqb a b then strip_prefix pattern' s' else None
  | String _ _, EmptyString => None
  end.

(** [s.replace(pattern, replacement)] for a literal pattern (a string, or a
    regular expression without flags that matches one fixed text): the
    leftmost occurrence is replaced, later ones stay. *)
Fixpoint replace (pattern replacement s : string) : string :=
  match strip_prefix pattern s with
  | Some rest => replacement +:+ rest
  | None =>
      match s with
      | EmptyString => EmptyString
      | String c s' => String c (replace pattern replacement s')
      end
  end.

(** [pattern] occurs somewhere in [s]. *)
Fixpoint occurs (pattern s : string) : bool :=
  match strip_prefix pattern s with
  | Some _ => true
  | None =>
      match s with
      | EmptyString => false
      | String _ s' => occurs pattern s'
      end
  end.

(** ** The project bundle ([@dojo/cli-emit-editor/interfaces/editor]) *)

Inductive ProjectFileType : Type :=
  | Definition_
  | TypeScript
  | Lib
  | HTML
  | JavaScript
  | Markdown
  | CSS
  | JSON
  | PlainText
  | XML.

Global Instance ProjectFileType_eq_dec : EqDecision ProjectFileType.
Proof. solve_decision. Defined.

Record ProjectFile : Type := mkProjectFile {
  name : string;
  text : string;
  type : ProjectFileType
}.

(** A JSON value of a compiler option, or a missing property. *)
Inductive JsValue : Type :=
  | undefined
  | JsBool (b : bool)
  | JsNumber (n : Z)
  | JsString (s : string)
  | JsStrings (l : list string).

Abbreviation CompilerOptions := (gmap string JsValue).

Record TsConfig : Type := mkTsConfig {
  compilerOptions : option CompilerOptions
}.

Record ProjectBundle : Type := mkProjectBundle {
  files : list ProjectFile;
  environmentFiles : list ProjectFile;
  tsconfig : TsConfig
}.

(** [file.text = v] on the file object at index [i] of [bundle.files]. *)
Definition set_text (v : string) (f : ProjectFile) : ProjectFile :=
  {| name := name f; text := v; type := type f |}.

Definition write_file_text (i : nat) (v : string) (b : ProjectBundle) : ProjectBundle :=
  {| files := alter (set_text v) i (files b);
     environmentFiles := environmentFiles b;
     tsconfig := tsconfig b |}.

(** ** Emitted files ([./interfaces], [typescript]) *)

Module OutputFile.

Record t : Type := mk {
  name : string;
  writeByteOrderMark : bool;
  text : string
}.

End OutputFile.

Module EmitFile.

Record t : Type := mk {
  name : string;
  text : string
}.

End EmitFile.

Record EmitOutput : Type := mkEmitOutput {
  outputFiles : list OutputFile.t;
  emitSkipped : bool
}.

(** ** The collaborators *)

(** Modelled from the spec: the monaco-editor API the class calls, which is
    not part of this repository.  [Uri] is the type of [monaco.Uri] values
    with [Uri.file], [toString()] and [fsPath]; [LanguageServiceDefaults] is
    the state behind [monaco.languages.typescript.typescriptDefaults], with
    its two setters, either of which may throw; the three enumeration
    members are the values the class forces into the compiler options. *)
Class Monaco : Type := {
  Uri : Type;
  Uri_file : string → Uri;
  Uri_toString : Uri → string;
  Uri_fsPath : Uri → string;
  LanguageServiceDefaults : Type;
  setCompilerOptions :
    CompilerOptions → LanguageServiceDefaults → Completion LanguageServiceDefaults;
  addExtraLib :
    string → string → LanguageServiceDefaults → Completion LanguageServiceDefaults;
  ScriptTarget_ES5 : JsValue;
  ModuleKind_UMD : JsValue;
  ModuleResolutionKind_NodeJs : JsValue
}.

(** Modelled from the spec: the bundle fetch, [request(filename)] followed by
    [text()], and [JSON.parse] at the type of a bundle.  Either may throw. *)
Class Request : Type := {
  request_text : string → Completion string;
  JSON_parse : string → Completion ProjectBundle
}.

Section Store.
Context {monaco : Monaco}.

(** Modelled from the spec: a monaco text model, as
    [monaco.editor.createModel(value, language, uri)] makes it.  The editing
    surface rewrites [value]; [uri] and [language] stay. *)
Record IModel : Type := mkIModel {
  uri : Uri;
  language : string;
  value : string
}.

(** [ProjectFileData]: both properties are optional. *)
Record ProjectFileData : Type := mkProjectFileData {
  dirty : option bool;
  model : option nat
}.

(** The fields of a [Project] instance.  A project file object is identified
    by its index in [bundle.files], an array the class never resizes; the
    [WeakMap] keyed by file objects is a map keyed by these indices. *)
Record Project : Type := mkProject {
  _project : option ProjectBundle;
  _fileMap : gmap nat ProjectFileData
}.

(** The store: the instance, the models monaco holds (a model handle is its
    index in [models]) and the TypeScript language defaults. *)
Record World : Type := mkWorld {
  this : Project;
  models : list IModel;
  typescriptDefaults : LanguageServiceDefaults
}.

End Store.

(** Modelled from the spec: the TypeScript worker.  [getTypeScriptWorker]
    stands for [monaco.languages.typescript.getTypeScriptWorker()] followed by
    [worker(...uris)], on the models monaco holds at that time;
    [getEmitOutput] is the client's request for one file.  Either may
    reject. *)
Class TypeScriptWorker {monaco : Monaco} : Type := {
  WorkerClient : Type;
  getTypeScriptWorker : list IModel → list Uri → Completion WorkerClient;
  getEmitOutput : WorkerClient → list IModel → string → Completion EmitOutput
}.

(** ** The class *)

Section Class.
Context {monaco : Monaco} {request : Request} {worker : TypeScriptWorker}.

(** *** Store accessors *)

Definition set_this (f : Project → Project) (w : World) : World :=
  {| this := f (this w);
     models := models w;
     typescriptDefaults := typescriptDefaults w |}.

Definition set_project (b : option ProjectBundle) (p : Project) : Project :=
  {| _project := b; _fileMap := _fileMap p |}.

Definition set_fileMap (m : gmap nat ProjectFileData) (p : Project) : Project :=
  {| _project := _project p; _fileMap := m |}.

Definition set_models (l : list IModel) (w : World) : World :=
  {| this := this w; models := l; typescriptDefaults := typescriptDefaults w |}.

Definition set_typescriptDefaults (d : LanguageServiceDefaults) (w : World) : World :=
  {| this := this w; models := models w; typescriptDefaults := d |}.

Definition set_dirty (v : bool) (d : ProjectFileData) : ProjectFileData :=
  {| dirty := Some v; model := model d |}.

Definition set_model (h : nat) (d : ProjectFileData) : ProjectFileData :=
  {| dirty := dirty d; model := Some h |}.

(** A write to a property of the data object the map holds for [file]. *)
Definition write_data (file : nat) (f : ProjectFileData → ProjectFileData) : Js World unit :=
  modify (set_this (λ p, set_fileMap (alter f file (_fileMap p)) p)).

(** [Boolean(v)] of an optional boolean. *)
Definition truthy (v : option bool) : bool := default false v.

(** A collaborator call that may throw. *)
Definition call {A} (c : Completion A) : Js World A := λ w, (c, w).

(** A call to a setter of [typescriptDefaults]. *)
Definition defaults_call
    (f : LanguageServiceDefaults → Completion LanguageServiceDefaults) : Js World unit :=
  λ w, match f (typescriptDefaults w) with
       | Return d => (Return tt, set_typescriptDefaults d w)
       | Throw e => (Throw e, w)
       end.

(** The [TypeError] of a property read on [undefined]. *)
Definition TypeError : Exception := Error "Cannot read property of undefined".

(** *** The errors the class throws *)

Definition NotLoadedError : Exception := Error "Project not loaded.".

Definition AlreadyLoadedError : Exception := Error "Project is already loaded.".

Definition UnknownFileError (filename : string) : Exception :=
  Error ("File " +:+ dquote +:+ filename +:+ dquote +:+ " is not part of the project.").

(** *** Monaco models *)

(** Modelled from the spec: the model service of monaco, which is not part
    of this repository.  It keeps its models by [uri.toString()]: two URIs
    name the same model when they print alike. *)
Definition same_uri (u1 u2 : Uri) : bool :=
  String.eqb (Uri_toString u1) (Uri_toString u2).

(** Monaco holds a model under the URI [u]. *)
Definition model_exists (u : Uri) (ms : list IModel) : bool :=
  existsb (λ m, same_uri (uri m) u) ms.

(** The error of [createModel] for a URI that has a model. *)
Definition ModelExistsError : Exception :=
  Error "ModelService: Cannot add model because it already exists!".

(** [monaco.editor.createModel(value, language, uri)]: it throws when monaco
    holds a model under that URI; otherwise it makes a new model, with a
    handle no earlier model has. *)
Definition createModel (v l : string) (u : Uri) : Js World nat :=
  λ w, if model_exists u (models w)
       then (Throw ModelExistsError, w)
       else (Return (List.length (models w)),
             set_models (models w ++ [{| uri := u; language := l; value := v |}]) w).

(** [model.getValue()]. *)
Definition getValue (h : nat) : Js World string :=
  λ w, match models w !! h with
       | Some m => (Return (value m), w)
       | None => (Throw TypeError, w)
       end.

(** [model.uri]. *)
Definition model_uri (h : nat) : Js World Uri :=
  λ w, match models w !! h with
       | Some m => (Return (uri m), w)
       | None => (Throw TypeError, w)
       end.

(** [model.setValue(v)], what the editing surface does to a buffer. *)
Definition setValue (h : nat) (v : string) : Js World unit :=
  modify (λ w, set_models
    (alter (λ m, {| uri := uri m; language := language m; value := v |}) h (models w)) w).

Definition getLanguageFromType (type : ProjectFileType) : string :=
  match type with
  | Definition_ | TypeScript | Lib => "typescript"
  | HTML => "html"
  | JavaScript => "javascript"
  | Markdown => "markdown"
  | CSS => "css"
  | JSON => "json"
  | PlainText => "plaintext"
  | XML => "xml"
  end.

Definition createMonacoModel (file : ProjectFile) : Js World nat :=
  createModel (text file) (getLanguageFromType (type file)) (Uri_file (name file)).

(** *** Private methods *)

Definition _loadBundle (filename : string) : Js World unit :=
  let* response := call (request_text filename) in
  let* bundle := call (JSON_parse response) in
  modify (set_this (set_project (Some bundle))).

Definition _getProjectFileData (file : nat) : Js World ProjectFileData :=
  let* has := gets (λ w, bool_decide (is_Some (_fileMap (this w) !! file))) in
  (if negb has
   then modify (set_this (λ p, set_fileMap (<[file := mkProjectFileData None None]> (_fileMap p)) p))
   else ret tt) >>
  gets (λ w, default (mkProjectFileData None None) (_fileMap (this w) !! file)).

(** [find(this._project.files, ({ name }) => name === filename)]: the first
    file of that name, as its index and its fields at the time of the call. *)
Definition getFile (filename : string) : Js World (option (nat * ProjectFile)) :=
  let* project := gets (λ w, _project (this w)) in
  match project with
  | None => throw NotLoadedError
  | Some bundle => ret (list_find (λ f, name f = filename) (files bundle))
  end.

Definition getFileModel (filename : string) : Js World nat :=
  let* file := getFile filename in
  match file with
  | None => throw (UnknownFileError filename)
  | Some (i, f) =>
      let* fileData := _getProjectFileData i in
      match model fileData with
      | Some h => ret h
      | None =>
          let* h := createMonacoModel f in
          write_data i (set_model h) >> ret h
      end
  end.

Definition isFileDirty (filename : string) : Js World bool :=
  let* file := getFile filename in
  match file with
  | None => ret false
  | Some (i, _) =>
      let* fileData := _getProjectFileData i in
      ret (truthy (dirty fileData))
  end.

Definition setFileDirty (filename : string) (reset : option bool) : Js World unit :=
  let* file := getFile filename in
  match file with
  | None => throw (UnknownFileError filename)
  | Some (i, _) =>
      _getProjectFileData i >> write_data i (set_dirty (negb (truthy reset)))
  end.

(** The callback of [forEach] in [_updateBundle], on the file object [i]. *)
Definition flush_file (file : nat * ProjectFile) : Js World unit :=
  let* m := getFileModel (name file.2) in
  let* v := getValue m in
  modify (set_this (λ p, set_project (write_file_text file.1 v <$> _project p) p)) >>
  setFileDirty (name file.2) (Some true).

Definition _updateBundle : Js World unit :=
  let* project := gets (λ w, _project (this w)) in
  match project with
  | None => ret tt
  | Some bundle =>
      let* dirtyFiles :=
        filterJs (imap pair (files bundle)) (λ file, isFileDirty (name file.2)) in
      forEach dirtyFiles flush_file
  end.

(** [this._project!]. *)
Definition project_bang : Js World ProjectBundle :=
  let* project := gets (λ w, _project (this w)) in
  match project with
  | None => throw TypeError
  | Some bundle => ret bundle
  end.

Definition _setEnvironmentFiles : Js World unit :=
  let* bundle := project_bang in
  forEach (environmentFiles bundle) (λ f,
    defaults_call (addExtraLib (text f)
      ((if decide (type f = Lib) then EmptyString else "file:///") +:+ name f))).

Definition isTypeScriptFile (f : ProjectFile) : bool :=
  bool_decide (type f = Definition_) || bool_decide (type f = TypeScript).

Definition _setProjectFiles : Js World unit :=
  let* bundle := project_bang in
  forEach (files bundle) (λ f,
    if bool_decide (type f = TypeScript) || bool_decide (type f = Definition_)
    then defaults_call (addExtraLib (text f) ("file:///" +:+ name f))
    else ret tt).

(** [assign(target, source)]: the properties of [source] win. *)
Definition assign (target source : CompilerOptions) : CompilerOptions := source ∪ target.

Definition copied_options : list string :=
  ["lib"; "noImplicitAny"; "noImplicitThis"; "noImplicitReturns"; "noLib";
   "noUnusedLocals"; "noUnusedParameters"; "strictNullChecks"; "types"].

Definition _setTypeScriptEnvironment : Js World unit :=
  let* bundle := project_bang in
  let compilerOptions := default ∅ (compilerOptions (tsconfig bundle)) in
  let options : CompilerOptions := ∅ in
  let options :=
    assign options
      (list_to_map ((λ k, (k, default undefined (compilerOptions !! k))) <$> copied_options)) in
  let options :=
    assign options
      (list_to_map [("allowNonTsExtensions", JsBool true);
                    ("target", ScriptTarget_ES5);
                    ("module", ModuleKind_UMD);
                    ("moduleResolution", ModuleResolutionKind_NodeJs)]) in
  defaults_call (setCompilerOptions options).

(** *** Public methods *)

(** [includes(array, value)] of [@dojo/shim/array]. *)
Definition array_includes {A} `{EqDecision A} (l : list A) (x : A) : bool :=
  bool_decide (x ∈ l).

(** The [reduce] callback of [emit]: the output files of the results the
    worker did not skip. *)
Definition emitted_typescript (output : list EmitOutput) : list OutputFile.t :=
  fold_left
    (λ previous output,
       if emitSkipped output then previous else previous ++ outputFiles output)
    output [].

(** Conform an output file to the emitted file format. *)
Definition conform (o : OutputFile.t) : EmitFile.t :=
  {| EmitFile.text := OutputFile.text o;
     EmitFile.name := replace "file://" EmptyString (OutputFile.name o) |}.

(** The emitted file of a model of a project file that is not compiled. *)
Definition emit_model (m : nat) : Js World EmitFile.t :=
  let* u := model_uri m in
  let* v := getValue m in
  ret {| EmitFile.name := replace "/./" "/" (Uri_fsPath u); EmitFile.text := v |}.

(** [const typescriptFileUris = ...]: the URIs of the models of the compiled
    files. *)
Definition typescriptFileUris (bundle : ProjectBundle) : Js World (list Uri) :=
  mapJs (List.filter isTypeScriptFile (files bundle))
        (λ f, let* m := getFileModel (name f) in model_uri m).

(** The worker session over [uris] and the emit output of each of them, in
    the order of [uris] ([Promise.all] keeps the order of its argument). *)
Definition emit_output (uris : list Uri) : Js World (list EmitOutput) :=
  let* client := (λ w, call (getTypeScriptWorker (models w) uris) w) in
  mapJs uris (λ file w, call (getEmitOutput client (models w) (Uri_toString file)) w).

(** The three awaits of [emit] run one after the other with nothing between
    them: no other call on the instance or on the models is interleaved. *)
Definition emit : Js World (list EmitFile.t) :=
  let* project := gets (λ w, _project (this w)) in
  match project with
  | None => throw NotLoadedError
  | Some bundle =>
      let* uris := typescriptFileUris bundle in
      let* output := emit_output uris in
      let* others :=
        mapJs (List.filter (λ f, negb (isTypeScriptFile f)) (files bundle))
              (λ f, getFileModel (name f)) in
      let* others := mapJs others emit_model in
      ret ((conform <$> emitted_typescript output) ++ others)
  end.

Definition get : Js World (option ProjectBundle) :=
  _updateBundle >> gets (λ w, _project (this w)).

Definition getFiles (types : list ProjectFileType) : Js World (list string) :=
  let* project := gets (λ w, _project (this w)) in
  match project with
  | None => throw NotLoadedError
  | Some bundle =>
      ret (name <$>
           List.filter
             (λ f, if bool_decide (List.length types = 0)
                   then true else array_includes types (type f))
             (files bundle))
  end.

Definition includes (filename : string) : Js World bool :=
  let* project := gets (λ w, _project (this w)) in
  match project with
  | None => ret false
  | Some _ =>
      let* names := getFiles [] in
      ret (array_includes names filename)
  end.

Definition isLoaded : Js World bool :=
  gets (λ w, bool_decide (is_Some (_project (this w)))).

(** The fetch of the bundle is the one await of [load]; it runs with no other
    call on the instance interleaved. *)
Definition load (filename : string) : Js World unit :=
  let* project := gets (λ w, _project (this w)) in
  match project with
  | Some _ => throw AlreadyLoadedError
  | None =>
      _loadBundle filename >>
      _setTypeScriptEnvironment >>
      _setEnvironmentFiles >>
      _setProjectFiles
  end.

(** [this.getFileModel(filename).getValue()]: the current content of the
    buffer of a file. *)
Definition buffer_value (filename : string) : Js World string :=
  let* m := getFileModel filename in
  getValue m.

(** An edit of the editing surface: the buffer of a file gets a new content. *)
Definition edit (filename v : string) : Js World unit :=
  let* m := getFileModel filename in
  setValue m v.

(** The round trip of an edit: the editing surface marks the file dirty and
    rewrites its buffer, then the bundle is read back with [get], and after
    that the dirty flag and the buffer of the file are read. *)
Definition round_trip (filename v : string) :
    Js World (option ProjectBundle * bool * string) :=
  setFileDirty filename None >>
  (let* m := getFileModel filename in setValue m v) >>
  let* bundle := get in
  let* dirty := isFileDirty filename in
  let* current := buffer_value filename in
  ret (bundle, dirty, current).

(** What happens to an instance during a session: a call of a method of the
    class, or the editing surface rewriting a model. *)
Inductive Call : Type :=
  | Call_load (filename : string)
  | Call_get
  | Call_getFile (filename : string)
  | Call_getFileModel (filename : string)
  | Call_getFiles (types : list ProjectFileType)
  | Call_includes (filename : string)
  | Call_isFileDirty (filename : string)
  | Call_setFileDirty (filename : string) (reset : option bool)
  | Call_isLoaded
  | Call_emit
  | Call_setValue (h : nat) (v : string).

(** The store a call leaves, whether it returns or throws. *)
Definition after (c : Call) (w : World) : World :=
  match c with
  | Call_load filename => (load filename w).2
  | Call_get => (get w).2
  | Call_getFile filename => (getFile filename w).2
  | Call_getFileModel filename => (getFileModel filename w).2
  | Call_getFiles types => (getFiles types w).2
  | Call_includes filename => (includes filename w).2
  | Call_isFileDirty filename => (isFileDirty filename w).2
  | Call_setFileDirty filename reset => (setFileDirty filename reset w).2
  | Call_isLoaded => (isLoaded w).2
  | Call_emit => (emit w).2
  | Call_setValue h v => (setValue h v w).2
  end.

Definition after_all (cs : list Call) (w : World) : World :=
  foldl (λ w c, after c w) w cs.

(** A new instance, in a monaco without models. *)
Definition new_Project : Project := {| _project := None; _fileMap := ∅ |}.

Definition new_World (d : LanguageServiceDefaults) : World :=
  {| this := new_Project; models := []; typescriptDefaults := d |}.

End Class.

(** ** A concrete set of collaborators *)

Module Sample.

(** File URIs as monaco builds them from a path: the path gets a leading
    slash when it has none, [fsPath] is that path and [toString()] puts the
    scheme in front.  The language defaults record the options and the extra
    libraries they were given. *)
Definition monaco : Monaco :=
  {| Uri := string;
     Uri_file := λ path,
       match path with
       | String "/" _ => path
       | _ => "/" +:+ path
       end;
     Uri_toString := λ u, "file://" +:+ u;
     Uri_fsPath := λ u, u;
     LanguageServiceDefaults := option CompilerOptions * list (string * string);
     setCompilerOptions := λ options d, Return (Some options, d.2);
     addExtraLib := λ content filePath d, Return (d.1, d.2 ++ [(content, filePath)]);
     ScriptTarget_ES5 := JsNumber 1;
     ModuleKind_UMD := JsNumber 3;
     ModuleResolutionKind_NodeJs := JsNumber 2 |}.

(** The same monaco, except that [addExtraLib] throws. *)
Definition broken_monaco : Monaco :=
  {| Uri := string;
     Uri_file := @Uri_file monaco;
     Uri_toString := @Uri_toString monaco;
     Uri_fsPath := @Uri_fsPath monaco;
     LanguageServiceDefaults := option CompilerOptions * list (string * string);
     setCompilerOptions := λ options d, Return (Some options, d.2);
     addExtraLib := λ _ _ _, Throw (Error "addExtraLib failed");
     ScriptTarget_ES5 := JsNumber 1;
     ModuleKind_UMD := JsNumber 3;
     ModuleResolutionKind_NodeJs := JsNumber 2 |}.

Definition bundle : ProjectBundle :=
  {| files :=
       [ {| name := "src/main.ts"; text := "let x=1;"; type := TypeScript |};
         {| name := "./docs/./readme.md"; text := "hello"; type := Markdown |};
         {| name := "src/broken.ts"; text := "let = ;"; type := TypeScript |};
         {| name := "./index.html"; text := "<html/>"; type := HTML |} ];
     environmentFiles :=
       [ {| name := "lib.d.ts"; text := "declare var window: any;"; type := Lib |} ];
     tsconfig := {| compilerOptions := Some {[ "noImplicitAny" := JsBool true ]} |} |}.

(** Every locator answers with the text that parses to [bundle]. *)
Definition request : Request :=
  {| request_text := λ _, Return "bundle";
     JSON_parse := λ _, Return bundle |}.

(** A worker that emits, for the model with the requested URI, one file with
    the text of the model, and skips a model whose text is ["let = ;"]. *)
Definition worker_of (monaco : Monaco)
    (model_of : list (@IModel monaco) → string → option (@IModel monaco)) :
    @TypeScriptWorker monaco :=
  {| WorkerClient := unit;
     getTypeScriptWorker := λ _ _, Return tt;
     getEmitOutput := λ _ models file,
       match model_of models file with
       | Some m =>
           if String.eqb (value m) "let = ;"
           then Return {| outputFiles := []; emitSkipped := true |}
           else Return {| outputFiles :=
                            [ {| OutputFile.name := file +:+ ".js";
                                 OutputFile.writeByteOrderMark := false;
                                 OutputFile.text := value m |} ];
                          emitSkipped := false |}
       | None => Throw (Error "Could not find file")
       end |}.

Definition worker : @TypeScriptWorker monaco :=
  worker_of monaco
    (λ models file,
       List.find (λ m, String.eqb (@Uri_toString monaco (uri m)) file) models).

(** The answers of [worker] for the two compiled files of [bundle]. *)
Definition outs : list EmitOutput :=
  [ {| outputFiles :=
         [ {| OutputFile.name := "file:///src/main.ts.js";
              OutputFile.writeByteOrderMark := false;
              OutputFile.text := "let x=1;" |} ];
       emitSkipped := false |};
    {| outputFiles := []; emitSkipped := true |} ].

(** A fetch that fails, and a worker whose session rejects. *)
Definition offline_request : Request :=
  {| request_text := λ _, Throw (Error "Network error");
     JSON_parse := λ _, Return bundle |}.

Definition failing_worker : @TypeScriptWorker monaco :=
  {| WorkerClient := unit;
     getTypeScriptWorker := λ _ _, Throw (Error "Worker failed");
     getEmitOutput := λ _ _ _, Throw (Error "Worker failed") |}.

(** A bundle with two names that give one URI. *)
Definition clash_bundle : ProjectBundle :=
  {| files :=
       [ {| name := "notes.md"; text := "one"; type := Markdown |};
         {| name := "/notes.md"; text := "two"; type := Markdown |} ];
     environmentFiles := [];
     tsconfig := {| compilerOptions := None |} |}.

Definition clash_request : Request :=
  {| request_text := λ _, Return "clash";
     JSON_parse := λ _, Return clash_bundle |}.

Definition new : @World monaco := @new_World monaco (None, []).

Definition broken_new : @World broken_monaco := @new_World broken_monaco (None, []).

(** The store after [load] of the bundle. *)
Definition loaded : @World monaco :=
  (@load monaco request "project.json" new).2.

(** The store after [load] of the bundle with the two names of one URI, and
    after both are marked dirty. *)
Definition clash_loaded : @World monaco :=
  (@load monaco clash_request "clash.json" new).2.

Definition clash_dirty : @World monaco :=
  (@setFileDirty monaco "/notes.md" None
     (@setFileDirty monaco "notes.md" None clash_loaded).2).2.

(** The store after the file [./index.html] of [loaded] is marked dirty and
    its buffer rewritten. *)
Definition edited : @World monaco :=
  (@edit monaco "./index.html" "<p/>"
     (@setFileDirty monaco "./index.html" None loaded).2).2.

End Sample.

(** * Observations of the store *)

Section Observations.
Context {monaco : Monaco}.

(** The data the table holds for the file object [i]; an object the table
    does not hold yet reads like the empty object it would be given. *)
Definition file_data (i : nat) (w : World) : ProjectFileData :=
  default (mkProjectFileData None None) (_fileMap (this w) !! i).

Definition dirty_at (i : nat) (w : World) : bool := truthy (dirty (file_data i w)).

Definition model_at (i : nat) (w : World) : option nat := model (file_data i w).

(** The first file of a bundle with a given name. *)
Definition find_file (filename : string) (b : ProjectBundle) : option (nat * ProjectFile) :=
  list_find (λ f, name f = filename) (files b).

(** The dirty flag [isFileDirty] reads for a name. *)
Definition dirty_name (w : World) (b : ProjectBundle) (filename : string) : bool :=
  match find_file filename b with
  | Some (i, _) => dirty_at i w
  | None => false
  end.

(** The content of the buffer of a name: the value of its model, or the
    stored text the model will be created with. *)
Definition buffer_content (w : World) (b : ProjectBundle) (filename : string) : option string :=
  match find_file filename b with
  | Some (i, f) =>
      match model_at i w with
      | Some h => value <$> models w !! h
      | None => Some (text f)
      end
  | None => None
  end.

(** The files that are compiled and the files that go through as they are. *)
Definition compiled_files (b : ProjectBundle) : list ProjectFile :=
  List.filter isTypeScriptFile (files b).

Definition other_files (b : ProjectBundle) : list ProjectFile :=
  List.filter (λ f, negb (isTypeScriptFile f)) (files b).

(** What one emit output adds to the emitted files. *)
Definition contribution (o : EmitOutput) : list EmitFile.t :=
  if emitSkipped o then [] else conform <$> outputFiles o.

(** Two bundles that differ in the stored text of their files at most. *)
Definition same_shape (b b' : ProjectBundle) : Prop :=
  name <$> files b = name <$> files b' ∧
  type <$> files b = type <$> files b' ∧
  environmentFiles b = environmentFiles b' ∧
  tsconfig b = tsconfig b'.

(** The invariant of the table: a model the table holds for a file object
    is a model of monaco made for the name of that file, and an instance
    without a bundle holds no model. *)
Definition cached_live (w : World) : Prop :=
  match _project (this w) with
  | Some b =>
      ∀ i h, model_at i w = Some h →
        ∃ f m, files b !! i = Some f ∧ models w !! h = Some m ∧
               uri m = Uri_file (name f)
  | None => ∀ i, model_at i w = None
  end.

(** Monaco accepts every model the class asks for: two files of the bundle
    whose names give the same URI have the same name, and a model monaco
    holds under the URI of a file of the bundle is the model the table holds
    for the first file of that name. *)
Definition accepts (w : World) : Prop :=
  match _project (this w) with
  | Some b =>
      (∀ f g, f ∈ files b → g ∈ files b →
         same_uri (Uri_file (name f)) (Uri_file (name g)) = true → name f = name g) ∧
      (∀ h m f, models w !! h = Some m → f ∈ files b →
         same_uri (uri m) (Uri_file (name f)) = true →
         ∃ i fi, find_file (name f) b = Some (i, fi) ∧ model_at i w = Some h)
  | None => True
  end.

(** The stores the properties below are about: the table is sound and no
    request for a model is refused. *)
Definition wf (w : World) : Prop := cached_live w ∧ accepts w.

(** A computation that touches the TypeScript defaults only. *)
Definition configures (m : Js World unit) : Prop :=
  ∀ (w : World) r w', m w = (r, w') → this w' = this w ∧ models w' = models w.

(** A step of the instance that keeps the bundle [b] as it is. *)
Definition extends (b : ProjectBundle) (w w' : World) : Prop :=
  _project (this w') = Some b ∧
  wf w' ∧
  typescriptDefaults w' = typescriptDefaults w ∧
  (∀ n, buffer_content w' b n = buffer_content w b n) ∧
  (∃ extra, models w' = models w ++ extra) ∧
  (∀ j h, model_at j w = Some h → model_at j w' = Some h) ∧
  (∀ j, dirty_at j w' = dirty_at j w).


End Observations.

Section WorkerAnswers.
Context {monaco : Monaco} {worker : TypeScriptWorker}.

(** The worker, asked for a session over [uris] on the models [ms], gives a
    client that answers the request for each URI with the output at the same
    place of [outs]. *)
Definition worker_answers (ms : list IModel) (uris : list Uri) (outs : list EmitOutput) : Prop :=
  ∃ client,
    getTypeScriptWorker ms uris = Return client ∧
    Forall2 (λ u o, getEmitOutput client ms (Uri_toString u) = Return o) uris outs.

End WorkerAnswers.

(** * The configuration of the environment, as lists of calls *)

Section Configuration.
Context {monaco : Monaco}.

(** [addExtraLib] called for each library of a list, in order, up to the
    first call that throws; the defaults that come back are those the last
    call that returned has left. *)
Fixpoint addExtraLibs (libs : list (string * string)) (d : LanguageServiceDefaults) :
    Completion unit * LanguageServiceDefaults :=
  match libs with
  | [] => (Return tt, d)
  | lib :: libs' =>
      match addExtraLib lib.1 lib.2 d with
      | Return d' => addExtraLibs libs' d'
      | Throw e => (Throw e, d)
      end
  end.

(** The content and the path of the library an environment file is. *)
Definition environment_lib (f : ProjectFile) : string * string :=
  (text f, (if decide (type f = Lib) then EmptyString else "file:///") +:+ name f).

(** The content and the path of the library a compiled project file is. *)
Definition project_lib (f : ProjectFile) : string * string :=
  (text f, "file:///" +:+ name f).

(** No two file objects share a model. *)
Definition distinct_models (w : World) : Prop :=
  ∀ i j h, model_at i w = Some h → model_at j w = Some h → i = j.

(** The stores of a loaded instance whose bundle has the shape of [b0] and
    whose table is sound. *)
Definition tracked (b0 : ProjectBundle) (w : World) : Prop :=
  cached_live w ∧ ∃ b, _project (this w) = Some b ∧ same_shape b0 b.

(** Those of them in which no two file objects share a model. *)
Definition isolated (b0 : ProjectBundle) (w : World) : Prop :=
  tracked b0 w ∧ distinct_models w.

(** A computation that keeps [I], whether it returns or throws. *)
Definition preserves {A} (I : World → Prop) (m : Js World A) : Prop :=
  ∀ w, I w → I (m w).2.

(** The names of the options the class forces. *)
Definition forced_options : list string :=
  ["allowNonTsExtensions"; "target"; "module"; "moduleResolution"].

End Configuration.

(** * The build configuration ([webpack.config.ts]) *)

Module Webpack.

(** [\w] of a regular expression: a letter, a digit or an underscore. *)
Definition is_word (c : ascii) : bool :=
  let n := nat_of_ascii c in
  (Nat.leb 97 n && Nat.leb n 122) ||
  (Nat.leb 65 n && Nat.leb n 90) ||
  (Nat.leb 48 n && Nat.leb n 57) ||
  Nat.eqb n 95.

(** [id.charAt(0)]: the first character, or the empty string. *)
Definition charAt0 (id : string) : string :=
  match id with
  | EmptyString => EmptyString
  | String c _ => String c EmptyString
  end.

(** [/^\W/.test(id)]: the string starts with a character that is not a word
    character. *)
Definition test_starts_nonword (id : string) : bool :=
  match id with
  | EmptyString => false
  | String c _ => negb (is_word c)
  end.

Definition isRelative (id : string) : bool :=
  let first := charAt0 id in
  negb (String.eqb first "/") && negb (String.eqb first "@") && test_starts_nonword id.

(** [s.replace(/<pattern>$/, replacement)] for a literal pattern: the
    pattern is replaced where it ends the string, and nowhere else. *)
Fixpoint replace_at_end (pattern replacement s : string) : string :=
  if String.eqb s pattern then replacement
  else match s with
       | EmptyString => EmptyString
       | String c s' => String c (replace_at_end pattern replacement s')
       end.

(** Modelled from the spec: what the callback of the module replacement
    takes from Node: [isAbsolute] and [resolve] of [path], [existsSync] of
    [fs], and the directory of the configuration file. *)
Class Node : Type := {
  isAbsolute : string → bool;
  resolve : list string → string;
  existsSync : string → bool;
  basePath : string
}.

(** The part of a resolve request the callback reads and writes. *)
Record ResolveData : Type := mkResolveData {
  request : string;
  context : string
}.

(** The callback given to [NormalModuleReplacementPlugin] for [/\.m\.css$/]:
    it writes [result.request] or leaves the request as it is. *)
Definition replace_css_module {node : Node} (result : ResolveData) : ResolveData :=
  if isAbsolute (request result) then result
  else
    let requestFileName :=
      if isRelative (request result)
      then resolve [context result; request result]
      else resolve [basePath; "node_modules"; request result] in
    let jsFileName := requestFileName +:+ ".js" in
    if existsSync jsFileName
    then {| request := replace_at_end ".m.css" ".m.css.js" (request result);
            context := context result |}
    else result.

(** The file whose existence the callback tests. *)
Definition js_file {node : Node} (result : ResolveData) : string :=
  (if isRelative (request result)
   then resolve [context result; request result]
   else resolve [basePath; "node_modules"; request result]) +:+ ".js".

(** A file system with one compiled style sheet, for the examples. *)
Definition sample_node : Node :=
  {| isAbsolute := λ p, match p with String "/" _ => true | _ => false end;
     resolve := λ parts, String.concat "/" parts;
     existsSync := λ p, String.eqb p "/app/src/widgets/./button.m.css.js";
     basePath := "/app" |}.

End Webpack.

(** * Properties *)

Section Basics.
Context {monaco : Monaco}.

Lemma bind_Return {S A B} (m : Js S A) (k : A → Js S B) s a s' :
  m s = (Return a, s') → bind m k s = k a s'.
Proof. intros E. unfold bind. by rewrite E. Qed.

Lemma bind_Throw {S A B} (m : Js S A) (k : A → Js S B) s e s' :
  m s = (Throw e, s') → bind m k s = (Throw e, s').
Proof. intros E. unfold bind. by rewrite E. Qed.

Lemma file_data_insert_empty i j (w : World) :
  _fileMap (this w) !! i = None →
  default (mkProjectFileData None None)
    (<[i := mkProjectFileData None None]> (_fileMap (this w)) !! j) = file_data j w.
Proof.
  intros E. unfold file_data. destruct (decide (i = j)) as [->|Hne].
  - by rewrite lookup_insert_eq, E.
  - by rewrite lookup_insert_ne.
Qed.

(** [_getProjectFileData] returns the data of the file and changes nothing
    that can be observed. *)
Lemma _getProjectFileData_spec i (w : World) :
  ∃ w', _getProjectFileData i w = (Return (file_data i w), w') ∧
        is_Some (_fileMap (this w') !! i) ∧
        _project (this w') = _project (this w) ∧
        models w' = models w ∧
        typescriptDefaults w' = typescriptDefaults w ∧
        ∀ j, file_data j w' = file_data j w.
Proof.
  unfold _getProjectFileData, bind, gets, modify, ret. simpl.
  destruct (_fileMap (this w) !! i) as [d|] eqn:E.
  - rewrite bool_decide_eq_true_2 by eauto. simpl.
    exists w. unfold file_data. rewrite E. eauto 10.
  - rewrite bool_decide_eq_false_2 by (intros [? ?]; congruence). simpl.
    eexists. split.
    + unfold file_data at 1. by rewrite lookup_insert_eq, E.
    + simpl. rewrite lookup_insert_eq. split; [eauto|].
      repeat split; auto. intros j. by apply file_data_insert_empty.
Qed.

Lemma write_data_spec i f (w : World) :
  is_Some (_fileMap (this w) !! i) →
  ∃ w', write_data i f w = (Return tt, w') ∧
        is_Some (_fileMap (this w') !! i) ∧
        _project (this w') = _project (this w) ∧
        models w' = models w ∧
        typescriptDefaults w' = typescriptDefaults w ∧
        ∀ j, file_data j w' = if decide (j = i) then f (file_data i w) else file_data j w.
Proof.
  intros [d E]. unfold write_data, modify. eexists. split; [reflexivity|].
  simpl. split; [rewrite lookup_alter_eq, E; eauto|].
  repeat split; auto. intros j. unfold file_data. simpl.
  destruct (decide (j = i)) as [->|Hne].
  - by rewrite lookup_alter_eq, E.
  - by rewrite lookup_alter_ne.
Qed.


Lemma getFile_loaded filename (w : World) b :
  _project (this w) = Some b →
  getFile filename w = (Return (find_file filename b), w).
Proof. intros E. unfold getFile, bind, gets. simpl. by rewrite E. Qed.

Lemma getFile_not_loaded filename (w : World) :
  _project (this w) = None →
  getFile filename w = (Throw NotLoadedError, w).
Proof. intros E. unfold getFile, bind, gets. simpl. by rewrite E. Qed.

End Basics.

Section Tracker.
Context {monaco : Monaco}.

Lemma isFileDirty_spec filename (w : World) b :
  _project (this w) = Some b →
  ∃ w', isFileDirty filename w = (Return (dirty_name w b filename), w') ∧
        _project (this w') = Some b ∧
        models w' = models w ∧
        typescriptDefaults w' = typescriptDefaults w ∧
        ∀ j, file_data j w' = file_data j w.
Proof.
  intros Hb. unfold isFileDirty, dirty_name.
  rewrite (bind_Return _ _ _ _ _ (getFile_loaded filename w b Hb)).
  destruct (find_file filename b) as [[i f]|].
  - destruct (_getProjectFileData_spec i w) as (w' & E & _ & Hp & Hm & Hd & Hf).
    rewrite (bind_Return _ _ _ _ _ E). exists w'. unfold ret, dirty_at.
    rewrite Hp. eauto 10.
  - exists w. unfold ret. eauto 10.
Qed.

Lemma setFileDirty_spec filename reset (w : World) b i f :
  _project (this w) = Some b →
  find_file filename b = Some (i, f) →
  ∃ w', setFileDirty filename reset w = (Return tt, w') ∧
        _project (this w') = Some b ∧
        models w' = models w ∧
        typescriptDefaults w' = typescriptDefaults w ∧
        ∀ j, file_data j w' =
             if decide (j = i) then set_dirty (negb (truthy reset)) (file_data i w)
             else file_data j w.
Proof.
  intros Hb Hf. unfold setFileDirty.
  rewrite (bind_Return _ _ _ _ _ (getFile_loaded filename w b Hb)), Hf.
  destruct (_getProjectFileData_spec i w) as (w1 & E & Hin & Hp & Hm & Hd & Hfd).
  rewrite (bind_Return _ _ _ _ _ E).
  destruct (write_data_spec i (set_dirty (negb (truthy reset))) w1 Hin)
    as (w' & E' & _ & Hp' & Hm' & Hd' & Hfd').
  exists w'. rewrite E'. rewrite Hp', Hm', Hd'. repeat split; auto; try congruence.
  intros j. rewrite Hfd'. case_decide; by rewrite Hfd.
Qed.

Lemma setFileDirty_unknown filename reset (w : World) b :
  _project (this w) = Some b →
  find_file filename b = None →
  setFileDirty filename reset w = (Throw (UnknownFileError filename), w).
Proof.
  intros Hb Hf. unfold setFileDirty.
  by rewrite (bind_Return _ _ _ _ _ (getFile_loaded filename w b Hb)), Hf.
Qed.

(** [getFileModel] returns the model the table holds for the file, after it
    has made one from the stored text when the table held none. *)
Lemma getFileModel_spec filename (w : World) b i f :
  _project (this w) = Some b →
  find_file filename b = Some (i, f) →
  (model_at i w = None → model_exists (Uri_file (name f)) (models w) = false) →
  ∃ h w', getFileModel filename w = (Return h, w') ∧
        is_Some (_fileMap (this w') !! i) ∧
        _project (this w') = Some b ∧
        typescriptDefaults w' = typescriptDefaults w ∧
        (∀ j, file_data j w' =
              if decide (j = i) then set_model h (file_data i w) else file_data j w) ∧
        match model_at i w with
        | Some h0 => h = h0 ∧ models w' = models w
        | None =>
            h = List.length (models w) ∧
            models w' = models w ++
              [ {| uri := Uri_file (name f);
                   language := getLanguageFromType (type f);
                   value := text f |} ]
        end.
Proof.
  intros Hb Hf Hacc. unfold getFileModel.
  rewrite (bind_Return _ _ _ _ _ (getFile_loaded filename w b Hb)), Hf.
  destruct (_getProjectFileData_spec i w) as (w1 & E & Hin & Hp & Hm & Hd & Hfd).
  rewrite (bind_Return _ _ _ _ _ E). unfold model_at in *.
  destruct (model (file_data i w)) as [h0|] eqn:Emod.
  - exists h0, w1. unfold ret. rewrite Hp, Hd. split; [done|]. split; [done|].
    repeat split; auto.
    intros j. rewrite Hfd. case_decide; [subst j|done].
    destruct (file_data i w); simpl in *; by subst.
  - unfold createMonacoModel, createModel, bind at 1.
    assert (Hex : model_exists (Uri_file (name f)) (models w1) = false)
      by (rewrite Hm; auto).
    cbv beta. rewrite Hex.
    set (w2 := set_models _ w1).
    assert (Hin2 : is_Some (_fileMap (this w2) !! i)) by done.
    destruct (write_data_spec i (set_model (List.length (models w1))) w2 Hin2)
      as (w' & E' & Hin' & Hp' & Hm' & Hd' & Hfd').
    rewrite (bind_Return _ _ _ _ _ E'). unfold ret.
    exists (List.length (models w1)), w'. split; [done|].
    assert (Hw2 : ∀ j, file_data j w2 = file_data j w) by (intros j; apply Hfd).
    split; [done|].
    split; [by rewrite Hp', <- Hb, <- Hp|].
    split; [by rewrite Hd', <- Hd|].
    split; [|by rewrite Hm', <- Hm].
    intros j. rewrite Hfd', !Hw2, Hm. done.
Qed.

(** Monaco refuses the model when the table holds none for the file and
    monaco holds one under its URI: the call throws monaco's error, and
    nothing that can be observed has changed. *)
Lemma getFileModel_refused filename (w : World) b i f :
  _project (this w) = Some b →
  find_file filename b = Some (i, f) →
  model_at i w = None →
  model_exists (Uri_file (name f)) (models w) = true →
  ∃ w', getFileModel filename w = (Throw ModelExistsError, w') ∧
        _project (this w') = Some b ∧
        models w' = models w ∧
        typescriptDefaults w' = typescriptDefaults w ∧
        ∀ j, file_data j w' = file_data j w.
Proof.
  intros Hb Hf Hnone Hex. unfold getFileModel.
  rewrite (bind_Return _ _ _ _ _ (getFile_loaded filename w b Hb)), Hf.
  destruct (_getProjectFileData_spec i w) as (w1 & E & Hin & Hp & Hm & Hd & Hfd).
  rewrite (bind_Return _ _ _ _ _ E). unfold model_at in Hnone. rewrite Hnone.
  unfold createMonacoModel, createModel, bind at 1. cbv beta. rewrite Hm, Hex.
  exists w1. split; [done|]. rewrite Hp. auto.
Qed.

Lemma getFileModel_unknown filename (w : World) b :
  _project (this w) = Some b →
  find_file filename b = None →
  getFileModel filename w = (Throw (UnknownFileError filename), w).
Proof.
  intros Hb Hf. unfold getFileModel.
  by rewrite (bind_Return _ _ _ _ _ (getFile_loaded filename w b Hb)), Hf.
Qed.

End Tracker.

Section Invariant.
Context {monaco : Monaco}.

Lemma find_file_Some filename b i f :
  find_file filename b = Some (i, f) →
  files b !! i = Some f ∧ name f = filename.
Proof. intros E. apply list_find_Some in E. tauto. Qed.

Lemma find_file_name b i f :
  files b !! i = Some f → is_Some (find_file (name f) b).
Proof.
  intros E. unfold find_file.
  destruct (list_find (λ f0, name f0 = name f) (files b)) as [x|] eqn:Ef; [eauto|].
  apply list_find_None in Ef. rewrite Forall_forall in Ef.
  destruct (Ef f); [|done]. by apply list_elem_of_lookup_2 in E.
Qed.

Lemma find_file_elem filename b :
  filename ∈ name <$> files b → is_Some (find_file filename b).
Proof.
  intros (f & -> & Hin)%list_elem_of_fmap.
  apply list_elem_of_lookup in Hin as [i Hi]. by eapply find_file_name.
Qed.

Lemma list_find_alter_name (g : ProjectFile → ProjectFile) filename i l :
  (∀ f, name (g f) = name f) →
  list_find (λ f, name f = filename) (alter g i l) =
  (λ x, (x.1, if decide (x.1 = i) then g x.2 else x.2)) <$>
    list_find (λ f, name f = filename) l.
Proof.
  intros Hg. revert i. induction l as [|a l IH]; intros i; [done|].
  destruct i as [|i].
  - simpl. rewrite Hg. case_decide; [done|].
    by destruct (list_find _ l) as [[k x]|].
  - change (alter g (S i) (a :: l)) with (a :: alter g i l).
    cbn [list_find]. case_decide; [done|]. rewrite IH.
    destruct (list_find _ l) as [[k x]|]; simpl; [|done].
    repeat case_decide; done || lia.
Qed.

Lemma find_file_write i v b filename :
  find_file filename (write_file_text i v b) =
  (λ x, (x.1, if decide (x.1 = i) then set_text v x.2 else x.2)) <$> find_file filename b.
Proof. unfold find_file. simpl. by apply list_find_alter_name. Qed.

Lemma same_shape_refl b : same_shape b b.
Proof. by repeat split. Qed.

Lemma same_shape_trans b1 b2 b3 :
  same_shape b1 b2 → same_shape b2 b3 → same_shape b1 b3.
Proof. intros (?&?&?&?) (?&?&?&?). repeat split; congruence. Qed.

Lemma same_shape_write i v b : same_shape b (write_file_text i v b).
Proof.
  unfold same_shape. simpl. repeat split; auto.
  - rewrite (list_fmap_alter name (set_text v) id) by by apply Forall_true.
    symmetry. by apply list_alter_id.
  - rewrite (list_fmap_alter type (set_text v) id) by by apply Forall_true.
    symmetry. by apply list_alter_id.
Qed.

Lemma same_shape_lookup b b' k fk :
  same_shape b b' → files b' !! k = Some fk →
  ∃ f, files b !! k = Some f ∧ name f = name fk ∧ type f = type fk.
Proof.
  intros (Hn & Ht & _) Hk.
  assert (H1 : (name <$> files b) !! k = Some (name fk))
    by (rewrite Hn, list_lookup_fmap, Hk; done).
  assert (H2 : (type <$> files b) !! k = Some (type fk))
    by (rewrite Ht, list_lookup_fmap, Hk; done).
  rewrite list_lookup_fmap in H1. rewrite list_lookup_fmap in H2.
  destruct (files b !! k) as [f|]; simplify_eq/=. eauto.
Qed.

Lemma same_shape_find_file b b' n i f :
  same_shape b b' → find_file n b = Some (i, f) →
  ∃ f', find_file n b' = Some (i, f').
Proof.
  intros (Hn & _) Hf. unfold find_file in *.
  assert (H1 := list_find_fmap name (λ x, x = n) (files b)).
  assert (H2 := list_find_fmap name (λ x, x = n) (files b')).
  rewrite Hn, H2 in H1. unfold compose in H1. rewrite Hf in H1.
  destruct (list_find _ (files b')) as [[i' f']|]; simplify_eq/=. eauto.
Qed.

Lemma model_exists_true (u : Uri) (ms : list IModel) :
  model_exists u ms = true ↔ ∃ h m, ms !! h = Some m ∧ same_uri (uri m) u = true.
Proof.
  unfold model_exists. rewrite existsb_exists. split.
  - intros (m & Hin & Hu). apply list_elem_of_In, list_elem_of_lookup in Hin as [h Hh]. eauto.
  - intros (h & m & Hh & Hu). exists m. split; [|done].
    apply list_elem_of_In. by eapply list_elem_of_lookup_2.
Qed.

(** The table stays sound along a step that keeps the names of the files,
    the URIs of the models and the model of every file. *)
Lemma cached_live_transfer b b' (w w' : World) :
  _project (this w) = Some b →
  _project (this w') = Some b' →
  same_shape b b' →
  uri <$> models w' = uri <$> models w →
  (∀ j, model_at j w' = model_at j w) →
  cached_live w → cached_live w'.
Proof.
  intros Hb Hb' (Hn & _) Hu Hmod. unfold cached_live. rewrite Hb, Hb'. intros Hl i h Hi.
  rewrite Hmod in Hi. destruct (Hl i h Hi) as (f & m & Hf & Hm & Hum).
  assert (H1 : (name <$> files b') !! i = Some (name f))
    by (rewrite <- Hn, list_lookup_fmap, Hf; done).
  assert (H2 : (uri <$> models w') !! h = Some (uri m))
    by (rewrite Hu, list_lookup_fmap, Hm; done).
  rewrite list_lookup_fmap in H1. rewrite list_lookup_fmap in H2.
  destruct (files b' !! i) as [f'|]; [|done]. destruct (models w' !! h) as [m'|]; [|done].
  simplify_eq/=. exists f', m'. repeat split; congruence.
Qed.

Lemma accepts_transfer b b' (w w' : World) :
  _project (this w) = Some b →
  _project (this w') = Some b' →
  same_shape b b' →
  uri <$> models w' = uri <$> models w →
  (∀ j, model_at j w' = model_at j w) →
  accepts w → accepts w'.
Proof.
  intros Hb Hb' Hsh Hu Hmod. unfold accepts. rewrite Hb, Hb'. intros [Hinj Hcl].
  assert (Hin : ∀ f', f' ∈ files b' → ∃ f, f ∈ files b ∧ name f = name f').
  { intros f' [k Hk]%list_elem_of_lookup.
    destruct (same_shape_lookup b b' k f' Hsh Hk) as (f & Hf & Hn & _).
    exists f. split; [by eapply list_elem_of_lookup_2|done]. }
  split.
  - intros f' g' Hf' Hg' Hs.
    destruct (Hin f' Hf') as (f & Hf & Hnf). destruct (Hin g' Hg') as (g & Hg & Hng).
    rewrite <- Hnf, <- Hng in *. by apply Hinj.
  - intros h m' f' Hh Hf' Hs. destruct (Hin f' Hf') as (f & Hf & Hnf).
    assert (H2 : (uri <$> models w) !! h = Some (uri m'))
      by (rewrite <- Hu, list_lookup_fmap, Hh; done).
    rewrite list_lookup_fmap in H2. destruct (models w !! h) as [m|] eqn:Hm; [|done].
    simplify_eq/=. rewrite <- H2, <- Hnf in Hs.
    destruct (Hcl h m f Hm Hf Hs) as (i & fi & Hfind & Hi).
    destruct (same_shape_find_file b b' _ i fi Hsh Hfind) as [fi' Hfi'].
    exists i, fi'. by rewrite <- Hnf, Hmod.
Qed.

Lemma wf_transfer b b' (w w' : World) :
  _project (this w) = Some b →
  _project (this w') = Some b' →
  same_shape b b' →
  uri <$> models w' = uri <$> models w →
  (∀ j, model_at j w' = model_at j w) →
  wf w → wf w'.
Proof.
  intros Hb Hb' Hsh Hu Hmod [Hl Ha]. split.
  - by apply (cached_live_transfer b b' w w').
  - by apply (accepts_transfer b b' w w').
Qed.

(** What a step that leaves the bundle, the models and the model of every
    file alone preserves. *)
Lemma frame_same b (w w' : World) :
  _project (this w) = Some b →
  _project (this w') = Some b →
  models w' = models w →
  (∀ j, model_at j w' = model_at j w) →
  (wf w → wf w') ∧ ∀ n, buffer_content w' b n = buffer_content w b n.
Proof.
  intros Hb Hb' Hm Hd. split.
  - apply (wf_transfer b b); auto using same_shape_refl. by rewrite Hm.
  - intros n. unfold buffer_content. destruct (find_file n b) as [[i f]|]; [|done].
    by rewrite Hd, Hm.
Qed.

Lemma live_handle (w : World) b i h :
  cached_live w → _project (this w) = Some b → model_at i w = Some h →
  ∃ f m, files b !! i = Some f ∧ models w !! h = Some m ∧ uri m = Uri_file (name f).
Proof. unfold cached_live. intros Hl Hb. rewrite Hb in Hl. apply Hl. Qed.

Lemma wf_handle (w : World) b i h :
  wf w → _project (this w) = Some b → model_at i w = Some h →
  ∃ f m, files b !! i = Some f ∧ models w !! h = Some m ∧ uri m = Uri_file (name f).
Proof. intros [Hl _]. by apply live_handle. Qed.

(** On a store monaco accepts, monaco holds no model under the URI of a
    file the table holds no model for. *)
Lemma wf_fresh (w : World) b filename i f :
  wf w → _project (this w) = Some b → find_file filename b = Some (i, f) →
  model_at i w = None → model_exists (Uri_file (name f)) (models w) = false.
Proof.
  intros [_ Hacc] Hb Hf Hnone. unfold accepts in Hacc. rewrite Hb in Hacc.
  destruct Hacc as [_ Hcl].
  destruct (model_exists _ _) eqn:E; [|done].
  apply model_exists_true in E as (h & m & Hh & Hu).
  destruct (find_file_Some _ _ _ _ Hf) as [Hi Hn].
  destruct (Hcl h m f Hh (list_elem_of_lookup_2 _ _ _ Hi) Hu) as (i' & fi & Hfind & Hmod).
  rewrite Hn, Hf in Hfind. by simplify_eq.
Qed.

(** The full account of [getFileModel] on a name of the project. *)
Lemma getFileModel_wf filename (w : World) b i f :
  wf w →
  _project (this w) = Some b →
  find_file filename b = Some (i, f) →
  ∃ h w' m, getFileModel filename w = (Return h, w') ∧
        _project (this w') = Some b ∧
        wf w' ∧
        typescriptDefaults w' = typescriptDefaults w ∧
        model_at i w' = Some h ∧
        models w' !! h = Some m ∧
        uri m = Uri_file (name f) ∧
        buffer_content w b filename = Some (value m) ∧
        (∀ n, buffer_content w' b n = buffer_content w b n) ∧
        (∃ extra, models w' = models w ++ extra) ∧
        (∀ j h0, model_at j w = Some h0 → model_at j w' = Some h0) ∧
        (∀ j, dirty_at j w' = dirty_at j w).
Proof.
  intros Hwf Hb Hf.
  destruct (getFileModel_spec filename w b i f Hb Hf (wf_fresh w b filename i f Hwf Hb Hf))
    as (h & w' & E & _ & Hb' & Hd & Hfd & Hcase).
  assert (Hmodel : ∀ j, model_at j w' = if decide (j = i) then Some h else model_at j w).
  { intros j. unfold model_at. rewrite Hfd. by case_decide. }
  assert (Hdirty : ∀ j, dirty_at j w' = dirty_at j w).
  { intros j. unfold dirty_at. rewrite Hfd. case_decide; by subst. }
  destruct (find_file_Some _ _ _ _ Hf) as [Hi Hname].
  destruct (model_at i w) as [h0|] eqn:Eh0.
  - destruct Hcase as [-> Hm].
    destruct (wf_handle w b i h0 Hwf Hb Eh0) as (f' & m & Hi' & Hh & Hu).
    assert (f' = f) as -> by congruence.
    assert (Hsame : ∀ j, model_at j w' = model_at j w).
    { intros j. rewrite Hmodel. case_decide; by subst. }
    destruct (frame_same b w w' Hb Hb' Hm Hsame) as [Hwf' Hbc].
    exists h0, w', m. rewrite Hm, Hsame.
    split; [done|]. split; [done|]. split; [by apply Hwf'|].
    repeat split; auto.
    + unfold buffer_content. by rewrite Hf, Eh0, Hh.
    + exists []. by rewrite app_nil_r.
    + intros j h1. by rewrite Hsame.
  - destruct Hcase as [-> Hm].
    set (m := {| uri := Uri_file (name f); language := getLanguageFromType (type f);
                 value := text f |}) in *.
    assert (Hnew : models w' !! List.length (models w) = Some m).
    { rewrite Hm. by apply list_lookup_middle. }
    assert (Hold : ∀ j h0, model_at j w = Some h0 →
                   models w' !! h0 = models w !! h0).
    { intros j h0 Hj. destruct (wf_handle w b j h0 Hwf Hb Hj) as (? & ? & _ & Hh & _).
      rewrite Hm. apply lookup_app_l. by eapply lookup_lt_Some. }
    exists (List.length (models w)), w', m.
    split; [done|]. split; [done|]. split.
    { split.
      - unfold cached_live. rewrite Hb'. intros j h Hj. rewrite Hmodel in Hj.
        case_decide; simplify_eq.
        + exists f, m. eauto.
        + destruct (wf_handle w b j h Hwf Hb Hj) as (f' & m' & ? & Hh & ?).
          exists f', m'. rewrite (Hold j h Hj). eauto.
      - destruct Hwf as [_ Hacc]. unfold accepts in *. rewrite Hb in Hacc. rewrite Hb'.
        destruct Hacc as [Hinj Hcl]. split; [done|].
        intros h' m' g Hh' Hg Hs. rewrite Hm in Hh'.
        destruct (decide (h' < List.length (models w))%nat) as [Hlt|Hge].
        + rewrite lookup_app_l in Hh' by done.
          destruct (Hcl h' m' g Hh' Hg Hs) as (i' & fi & Hfind & Hi').
          exists i', fi. split; [done|]. rewrite Hmodel.
          case_decide; [subst; congruence|done].
        + rewrite lookup_app_r in Hh' by lia.
          apply list_lookup_singleton_Some in Hh' as [Hz <-].
          assert (h' = List.length (models w)) as -> by lia.
          assert (Hfg : name f = name g).
          { apply Hinj; [by eapply list_elem_of_lookup_2|done|done]. }
          exists i, f. rewrite <- Hfg, Hname. split; [done|].
          by rewrite Hmodel, decide_True. }
    split; [done|]. split; [by rewrite Hmodel, decide_True|].
    split; [done|]. split; [done|]. split.
    { unfold buffer_content. by rewrite Hf, Eh0. }
    split.
    { intros n. unfold buffer_content.
      destruct (find_file n b) as [[i' f']|] eqn:Ef'; [|done].
      rewrite Hmodel. case_decide.
      - subst i'. rewrite Eh0, Hnew.
        assert (f' = f) as ->.
        { destruct (find_file_Some _ _ _ _ Ef'). congruence. }
        done.
      - destruct (model_at i' w) as [h'|] eqn:Eh'; [|done].
        by rewrite (Hold i' h' Eh'). }
    split; [eauto|]. split; [|done].
    intros j h0 Hj. rewrite Hmodel. case_decide; [congruence|done].
Qed.

Lemma isFileDirty_wf filename (w : World) b :
  _project (this w) = Some b →
  ∃ w', isFileDirty filename w = (Return (dirty_name w b filename), w') ∧
        _project (this w') = Some b ∧
        models w' = models w ∧
        typescriptDefaults w' = typescriptDefaults w ∧
        (∀ j, file_data j w' = file_data j w) ∧
        (wf w → wf w') ∧
        (∀ n, buffer_content w' b n = buffer_content w b n) ∧
        (∀ n, dirty_name w' b n = dirty_name w b n).
Proof.
  intros Hb. destruct (isFileDirty_spec filename w b Hb) as (w' & E & Hb' & Hm & Hd & Hfd).
  assert (Hmod : ∀ j, model_at j w' = model_at j w).
  { intros j. unfold model_at. by rewrite Hfd. }
  destruct (frame_same b w w' Hb Hb' Hm Hmod) as [Hwf Hbc].
  exists w'. do 7 (split; [done|]).
  intros n. unfold dirty_name, dirty_at. destruct (find_file n b) as [[i f]|]; [|done].
  by rewrite Hfd.
Qed.

Lemma setFileDirty_wf filename reset (w : World) b i f :
  _project (this w) = Some b →
  find_file filename b = Some (i, f) →
  ∃ w', setFileDirty filename reset w = (Return tt, w') ∧
        _project (this w') = Some b ∧
        models w' = models w ∧
        typescriptDefaults w' = typescriptDefaults w ∧
        (∀ j, model_at j w' = model_at j w) ∧
        (∀ j, dirty_at j w' = if decide (j = i) then negb (truthy reset) else dirty_at j w) ∧
        (wf w → wf w') ∧
        (∀ n, buffer_content w' b n = buffer_content w b n).
Proof.
  intros Hb Hf.
  destruct (setFileDirty_spec filename reset w b i f Hb Hf) as (w' & E & Hb' & Hm & Hd & Hfd).
  assert (Hmodel : ∀ j, model_at j w' = model_at j w).
  { intros j. unfold model_at. rewrite Hfd. case_decide; by subst. }
  destruct (frame_same b w w' Hb Hb' Hm Hmodel) as [Hwf Hbc].
  exists w'. do 5 (split; [done|]). split; [|done].
  intros j. unfold dirty_at. rewrite Hfd. by case_decide.
Qed.

End Invariant.

Section Flush.
Context {monaco : Monaco}.

Lemma getValue_Some h (w : World) m :
  models w !! h = Some m → getValue h w = (Return (value m), w).
Proof. intros E. unfold getValue. by rewrite E. Qed.

Lemma model_uri_Some h (w : World) m :
  models w !! h = Some m → model_uri h w = (Return (uri m), w).
Proof. intros E. unfold model_uri. by rewrite E. Qed.

(** One round of the flush: the file object [i] takes the content of the
    buffer of its name, and the dirty flag of that name is reset. *)
Lemma flush_file_spec (w : World) b i f fi :
  wf w →
  _project (this w) = Some b →
  files b !! i = Some fi →
  name fi = name f →
  ∃ w' v j fj,
    flush_file (i, f) w = (Return tt, w') ∧
    buffer_content w b (name f) = Some v ∧
    find_file (name f) b = Some (j, fj) ∧
    _project (this w') = Some (write_file_text i v b) ∧
    wf w' ∧
    (∀ n, buffer_content w' (write_file_text i v b) n = buffer_content w b n) ∧
    typescriptDefaults w' = typescriptDefaults w ∧
    (∃ extra, models w' = models w ++ extra) ∧
    (∀ k h, model_at k w = Some h → model_at k w' = Some h) ∧
    (∀ k, dirty_at k w' = if decide (k = j) then false else dirty_at k w).
Proof.
  intros Hwf Hb Hi Hname.
  destruct (find_file_name b i fi Hi) as [[j fj] Hj]. rewrite Hname in Hj.
  destruct (getFileModel_wf (name f) w b j fj Hwf Hb Hj)
    as (h & w1 & m & E1 & Hb1 & Hwf1 & Hd1 & Hmod1 & Hh1 & Hu1 & Hbc & Hbc1 & Hext1 & Hkeep1 & Hdirty1).
  set (b2 := write_file_text i (value m) b).
  set (w2 := set_this (λ p, set_project (write_file_text i (value m) <$> _project p) p) w1).
  assert (Hb2 : _project (this w2) = Some b2) by (subst w2; simpl; by rewrite Hb1).
  assert (Hj2 : find_file (name f) b2 = Some (j, if decide (j = i) then set_text (value m) fj else fj)).
  { subst b2. by rewrite find_file_write, Hj. }
  destruct (setFileDirty_wf (name f) (Some true) w2 b2 j _ Hb2 Hj2)
    as (w' & E3 & Hb3 & Hm3 & Hd3 & Hmod3 & Hdirty3 & _ & Hbc3).
  assert (Hmodel2 : ∀ k, model_at k w2 = model_at k w1) by done.
  assert (Hwf2 : wf w2).
  { apply (wf_transfer b b2 w1 w2); auto. apply same_shape_write. }
  assert (Hbc2 : ∀ n, buffer_content w2 b2 n = buffer_content w1 b n).
  { intros n. unfold buffer_content. subst b2. rewrite find_file_write.
    destruct (find_file n b) as [[k fk]|] eqn:Ek; simpl; [|done].
    rewrite Hmodel2. destruct (model_at k w1) as [hk|] eqn:Ehk; [done|].
    destruct (decide (k = i)) as [->|]; [|done].
    destruct (find_file_Some _ _ _ _ Ek) as [Hfk Hn].
    assert (fk = fi) as -> by congruence.
    rewrite <- Hn, Hname in Ek. rewrite Ek in Hj. simplify_eq. }
  exists w', (value m), j, fj.
  split.
  { unfold flush_file. simpl.
    rewrite (bind_Return _ _ _ _ _ E1).
    rewrite (bind_Return _ _ _ _ _ (getValue_Some h w1 m Hh1)).
    unfold bind at 1, modify. fold w2. done. }
  split; [done|]. split; [done|]. split; [done|].
  split.
  { destruct (frame_same b2 w2 w' Hb2 Hb3 Hm3 Hmod3) as [Hw _]. by apply Hw. }
  split.
  { intros n. destruct (frame_same b2 w2 w' Hb2 Hb3 Hm3 Hmod3) as [_ Hw].
    by rewrite Hw, Hbc2, Hbc1. }
  split; [by rewrite Hd3|]. split; [by rewrite Hm3|]. split.
  { intros k h' Hk. rewrite Hmod3, Hmodel2. by apply Hkeep1. }
  intros k. rewrite Hdirty3. destruct (decide (k = j)); [done|].
  replace (dirty_at k w2) with (dirty_at k w1) by done. by rewrite Hdirty1.
Qed.

End Flush.

Section UpdateBundle.
Context {monaco : Monaco}.

Lemma dirty_name_same (w w' : World) b :
  (∀ j, file_data j w' = file_data j w) →
  ∀ n, dirty_name w' b n = dirty_name w b n.
Proof.
  intros Hfd n. unfold dirty_name, dirty_at.
  destruct (find_file n b) as [[i f]|]; [|done]. by rewrite Hfd.
Qed.

(** The filter of [_updateBundle] keeps the files whose name is dirty and
    changes nothing that can be observed. *)
Lemma filter_dirty_spec b (l : list (nat * ProjectFile)) :
  ∀ w : World,
  _project (this w) = Some b →
  ∃ w', filterJs l (λ file, isFileDirty (name file.2)) w =
          (Return (List.filter (λ file, dirty_name w b (name file.2)) l), w') ∧
        _project (this w') = Some b ∧
        models w' = models w ∧
        typescriptDefaults w' = typescriptDefaults w ∧
        (∀ j, file_data j w' = file_data j w).
Proof.
  induction l as [|x l IH]; intros w Hb.
  - exists w. by repeat split.
  - destruct (isFileDirty_wf (name x.2) w b Hb)
      as (w1 & E1 & Hb1 & Hm1 & Hd1 & Hfd1 & _ & _ & Hdn1).
    destruct (IH w1 Hb1) as (w' & E' & Hb' & Hm' & Hd' & Hfd').
    exists w'. split.
    + cbn [filterJs List.filter].
      rewrite (bind_Return _ _ _ _ _ E1), (bind_Return _ _ _ _ _ E').
      unfold ret. do 2 f_equal.
      rewrite (List.filter_ext _ (λ file, dirty_name w b (name file.2)))
        by (intros a; apply Hdn1).
      by destruct (dirty_name w b (name x.2)).
    + split; [done|]. split; [congruence|]. split; [congruence|].
      intros j. by rewrite Hfd', Hfd1.
Qed.

(** The [forEach] of [_updateBundle] over file objects [l]. *)
Lemma forEach_flush_spec (l : list (nat * ProjectFile)) :
  ∀ (w : World) b,
  wf w →
  _project (this w) = Some b →
  Forall (λ x, ∃ fi, files b !! x.1 = Some fi ∧ name fi = name x.2) l →
  ∃ w' b',
    forEach l flush_file w = (Return tt, w') ∧
    _project (this w') = Some b' ∧
    wf w' ∧
    same_shape b b' ∧
    (∀ n, buffer_content w' b' n = buffer_content w b n) ∧
    typescriptDefaults w' = typescriptDefaults w ∧
    (∃ extra, models w' = models w ++ extra) ∧
    (∀ k h, model_at k w = Some h → model_at k w' = Some h) ∧
    (∀ k fk, files b !! k = Some fk →
       files b' !! k =
         Some (if decide (k ∈ l.*1)
               then set_text (default (text fk) (buffer_content w b (name fk))) fk
               else fk)) ∧
    (∀ k, dirty_at k w' =
          if decide (Some k ∈ (λ x, fst <$> find_file (name x.2) b) <$> l)
          then false else dirty_at k w).
Proof.
  induction l as [|[i f] l IH]; intros w b Hwf Hb Hall.
  - exists w, b. split; [done|]. split; [done|]. split; [done|].
    split; [apply same_shape_refl|]. split; [done|]. split; [done|].
    split; [exists []; by rewrite app_nil_r|]. split; [done|].
    split; [intros k fk Hk; by rewrite decide_False by apply not_elem_of_nil|].
    intros k. by rewrite decide_False by apply not_elem_of_nil.
  - apply Forall_cons in Hall as [(fi & Hi & Hname) Hall]. simpl in Hi, Hname.
    destruct (flush_file_spec w b i f fi Hwf Hb Hi Hname)
      as (w1 & v & j & fj & E1 & Hv & Hj & Hb1 & Hwf1 & Hbc1 & Hd1 & [ex1 Hm1] & Hkeep1 & Hdirty1).
    set (b1 := write_file_text i v b) in *.
    assert (Hlook : ∀ k fk, files b !! k = Some fk →
              files b1 !! k = Some (if decide (k = i) then set_text v fk else fk)).
    { intros k fk Hk. subst b1. simpl. destruct (decide (k = i)) as [->|].
      - by rewrite list_lookup_alter_eq, Hk.
      - by rewrite list_lookup_alter_ne. }
    assert (Hall1 : Forall (λ x, ∃ fi, files b1 !! x.1 = Some fi ∧ name fi = name x.2) l).
    { eapply Forall_impl; [exact Hall|]. intros x (fx & Hx & Hnx).
      eexists. split; [by apply Hlook|]. by destruct (decide (x.1 = i)). }
    destruct (IH w1 b1 Hwf1 Hb1 Hall1)
      as (w' & b' & E' & Hb' & Hwf' & Hsh & Hbc' & Hd' & [ex' Hm'] & Hkeep' & Htext' & Hdirty').
    exists w', b'. split.
    { cbn [forEach]. by rewrite (bind_Return _ _ _ _ _ E1). }
    split; [done|]. split; [done|].
    split; [eapply same_shape_trans; [apply same_shape_write|exact Hsh]|].
    split; [intros n; by rewrite Hbc', Hbc1|].
    split; [congruence|].
    split; [exists (ex1 ++ ex'); by rewrite Hm', Hm1, app_assoc|].
    split; [intros k h Hk; apply Hkeep', Hkeep1, Hk|].
    split.
    + intros k fk Hk. rewrite (Htext' k _ (Hlook k fk Hk)). f_equal.
      assert (Hn : name (if decide (k = i) then set_text v fk else fk) = name fk)
        by by destruct (decide (k = i)).
      rewrite Hn, Hbc1.
      assert (Hmem : k ∈ ((i, f) :: l).*1 ↔ k = i ∨ k ∈ l.*1)
        by (rewrite fmap_cons; apply elem_of_cons).
      destruct (decide (k = i)) as [->|Hne].
      * assert (fk = fi) as -> by congruence.
        rewrite Hname, Hv.
        destruct (decide (i ∈ ((i, f) :: l).*1)) as [Hin0|Hnin0];
          destruct (decide (i ∈ l.*1)) as [Hin|Hnin];
          try done; exfalso; tauto.
      * destruct (decide (k ∈ ((i, f) :: l).*1)) as [Hin0|Hnin0];
          destruct (decide (k ∈ l.*1)) as [Hin|Hnin];
          try done; exfalso; tauto.
    + intros k. rewrite Hdirty', Hdirty1.
      assert (Hfind : (λ x : nat * ProjectFile, fst <$> find_file (name x.2) b1) <$> l =
                      (λ x : nat * ProjectFile, fst <$> find_file (name x.2) b) <$> l).
      { apply list_fmap_ext. intros ? x _. subst b1. rewrite find_file_write.
        by destruct (find_file (name x.2) b) as [[? ?]|]. }
      rewrite Hfind.
      assert (Hmem : Some k ∈ (λ x : nat * ProjectFile, fst <$> find_file (name x.2) b)
                       <$> ((i, f) :: l) ↔
                     k = j ∨
                     Some k ∈ (λ x : nat * ProjectFile, fst <$> find_file (name x.2) b) <$> l).
      { rewrite fmap_cons, elem_of_cons. simpl. rewrite Hj. simpl.
        split; (intros [Hx|Hx]; [left; congruence|by right]). }
      destruct (decide (Some k ∈ _ <$> ((i, f) :: l))) as [Hin0|Hnin0];
        destruct (decide (Some k ∈ _ <$> l)) as [Hin|Hnin];
        destruct (decide (k = j)) as [->|Hne];
        try done; exfalso; tauto.
Qed.

End UpdateBundle.

Section Get.
Context {monaco : Monaco}.

Lemma elem_of_filter_imap (g : nat * ProjectFile → bool) (l : list ProjectFile) x :
  x ∈ List.filter g (imap pair l) ↔ l !! x.1 = Some x.2 ∧ g x = true.
Proof.
  rewrite list_elem_of_In, filter_In, <- list_elem_of_In, elem_of_lookup_imap.
  split.
  - intros [(i & y & -> & Hi) Hg]. done.
  - intros [Hi Hg]. split; [|done]. exists x.1, x.2. by destruct x.
Qed.

Lemma buffer_content_is_Some (w : World) b k fk :
  wf w → _project (this w) = Some b → files b !! k = Some fk →
  is_Some (buffer_content w b (name fk)).
Proof.
  intros Hwf Hb Hk. unfold buffer_content.
  destruct (find_file_name b k fk Hk) as [[j fj] Hj]. rewrite Hj.
  destruct (model_at j w) as [h|] eqn:Eh; [|eauto].
  destruct (wf_handle w b j h Hwf Hb Eh) as (? & m & _ & -> & _). eauto.
Qed.

Lemma get_not_loaded (w : World) :
  _project (this w) = None → get w = (Return None, w).
Proof.
  intros Hb. unfold get, _updateBundle, bind, gets, ret. simpl. by rewrite !Hb.
Qed.

(** The account of [get] on a loaded project: every file whose name is dirty
    takes the content of the buffer of its name, and every dirty flag is
    reset. *)
Lemma get_loaded (w : World) b :
  wf w →
  _project (this w) = Some b →
  ∃ w' b',
    get w = (Return (Some b'), w') ∧
    _project (this w') = Some b' ∧
    wf w' ∧
    same_shape b b' ∧
    (∀ n, buffer_content w' b' n = buffer_content w b n) ∧
    typescriptDefaults w' = typescriptDefaults w ∧
    (∃ extra, models w' = models w ++ extra) ∧
    (∀ k h, model_at k w = Some h → model_at k w' = Some h) ∧
    (∀ k fk, files b !! k = Some fk →
       ∃ v, buffer_content w b (name fk) = Some v ∧
            files b' !! k =
              Some (if dirty_name w b (name fk) then set_text v fk else fk)) ∧
    (∀ k fk, files b !! k = Some fk → dirty_name w' b' (name fk) = false).
Proof.
  intros Hwf Hb.
  set (l := List.filter (λ file : nat * ProjectFile, dirty_name w b (name file.2))
                        (imap pair (files b))).
  destruct (filter_dirty_spec b (imap pair (files b)) w Hb)
    as (w0 & E0 & Hb0 & Hm0 & Hd0 & Hfd0). fold l in E0.
  assert (Hmodel0 : ∀ j, model_at j w0 = model_at j w).
  { intros j. unfold model_at. by rewrite Hfd0. }
  destruct (frame_same b w w0 Hb Hb0 Hm0 Hmodel0) as [Hwf0 Hbc0].
  assert (Hall : Forall (λ x, ∃ fi, files b !! x.1 = Some fi ∧ name fi = name x.2) l).
  { apply Forall_forall. intros x [Hx _]%elem_of_filter_imap. eauto. }
  destruct (forEach_flush_spec l w0 b (Hwf0 Hwf) Hb0 Hall)
    as (w' & b' & E' & Hb' & Hwf' & Hsh & Hbc' & Hd' & [ex Hm'] & Hkeep' & Htext' & Hdirty').
  assert (Hmem : ∀ k fk, files b !! k = Some fk →
            (k ∈ l.*1 ↔ dirty_name w b (name fk) = true)).
  { intros k fk Hk. rewrite list_elem_of_fmap. split.
    - intros ([k' f'] & -> & [Hx Hg]%elem_of_filter_imap). simpl in *. congruence.
    - intros Hg. exists (k, fk). split; [done|]. by apply elem_of_filter_imap. }
  exists w', b'. split.
  { unfold get, _updateBundle.
    rewrite (bind_Return _ (λ _, gets _) w tt w'); [unfold gets; by rewrite Hb'|].
    unfold bind at 1, gets at 1. rewrite Hb.
    by rewrite (bind_Return _ _ _ _ _ E0). }
  split; [done|]. split; [done|]. split; [done|].
  split; [intros n; by rewrite Hbc', Hbc0|].
  split; [congruence|]. split; [exists ex; congruence|].
  split; [intros k h Hk; apply Hkeep'; by rewrite Hmodel0|].
  split.
  - intros k fk Hk.
    destruct (buffer_content_is_Some w b k fk Hwf Hb Hk) as [v Hv].
    exists v. split; [done|]. rewrite (Htext' k fk Hk), Hbc0, Hv. simpl.
    destruct (decide (k ∈ l.*1)) as [Hin|Hnin].
    + apply (Hmem k fk Hk) in Hin. by rewrite Hin.
    + destruct (dirty_name w b (name fk)) eqn:Ed; [|done].
      destruct Hnin. by apply (Hmem k fk Hk).
  - intros k fk Hk. unfold dirty_name.
    destruct (find_file_name b k fk Hk) as [[j fj] Hj].
    assert (Hj' : fst <$> find_file (name fk) b' = Some j).
    { destruct Hsh as (Hnames & _). unfold find_file in *.
      assert (Hf := list_find_fmap name (λ n, n = name fk) (files b')).
      assert (Hf0 := list_find_fmap name (λ n, n = name fk) (files b)).
      rewrite <- Hnames, Hf0 in Hf.
      unfold compose in Hf. rewrite Hj in Hf. simpl in Hf.
      destruct (list_find _ (files b')) as [[j' fj']|]; simpl in *; congruence. }
    destruct (find_file (name fk) b') as [[j' fj']|]; simplify_eq/=.
    rewrite Hdirty'.
    destruct (decide (Some j ∈ _ <$> l)) as [Hin|Hnin]; [done|].
    replace (dirty_at j w0) with (dirty_at j w) by (unfold dirty_at; by rewrite Hfd0).
    destruct (dirty_at j w) eqn:Ed; [|done]. destruct Hnin.
    apply list_elem_of_fmap. exists (k, fk). simpl. rewrite Hj. split; [done|].
    apply elem_of_filter_imap. split; [done|]. simpl. unfold dirty_name. by rewrite Hj.
Qed.

End Get.

Section Emit.
Context {monaco : Monaco} {worker : TypeScriptWorker}.

Lemma extends_refl b (w : World) :
  wf w → _project (this w) = Some b → extends b w w.
Proof.
  intros Hwf Hb. split; [done|]. split; [done|].
  repeat split; auto. exists []. by rewrite app_nil_r.
Qed.

Lemma extends_trans b (w1 w2 w3 : World) :
  extends b w1 w2 → extends b w2 w3 → extends b w1 w3.
Proof.
  intros (Hb2 & Hwf2 & Hd2 & Hbc2 & [ex2 Hm2] & Hk2 & Hdi2)
         (Hb3 & Hwf3 & Hd3 & Hbc3 & [ex3 Hm3] & Hk3 & Hdi3).
  split; [done|]. split; [done|]. split; [congruence|].
  split; [intros n; by rewrite Hbc3|].
  split; [exists (ex2 ++ ex3); by rewrite Hm3, Hm2, app_assoc|].
  split; [intros j h Hj; by apply Hk3, Hk2|].
  intros j. by rewrite Hdi3.
Qed.

Lemma extends_lookup b (w w' : World) h m :
  extends b w w' → models w !! h = Some m → models w' !! h = Some m.
Proof.
  intros (_ & _ & _ & _ & [ex Hm] & _) Hh. rewrite Hm. by apply lookup_app_l_Some.
Qed.

Lemma getFileModel_extends filename (w : World) b i f :
  wf w →
  _project (this w) = Some b →
  find_file filename b = Some (i, f) →
  ∃ h w' m, getFileModel filename w = (Return h, w') ∧
        extends b w w' ∧
        model_at i w' = Some h ∧
        models w' !! h = Some m ∧
        uri m = Uri_file filename ∧
        buffer_content w b filename = Some (value m).
Proof.
  intros Hwf Hb Hf.
  destruct (getFileModel_wf filename w b i f Hwf Hb Hf)
    as (h & w' & m & E & Hb' & Hwf' & Hd & Hmod & Hh & Hu & Hbc & Hbc' & Hext & Hkeep & Hdirty).
  exists h, w', m. destruct (find_file_Some _ _ _ _ Hf) as [_ <-].
  split; [done|]. split; [|done]. split; [done|]. split; [done|]. by repeat split.
Qed.

(** The models of a list of files of the project, in the order of the list. *)
Lemma mapJs_getFileModel b (l : list ProjectFile) :
  ∀ w : World,
  wf w →
  _project (this w) = Some b →
  Forall (λ f, f ∈ files b) l →
  ∃ hs w',
    mapJs l (λ f, getFileModel (name f)) w = (Return hs, w') ∧
    extends b w w' ∧
    Forall2 (λ f h, ∃ m, models w' !! h = Some m ∧
                         uri m = Uri_file (name f) ∧
                         buffer_content w b (name f) = Some (value m)) l hs.
Proof.
  induction l as [|f l IH]; intros w Hwf Hb Hall.
  - exists [], w. split; [done|]. split; [by apply extends_refl|]. constructor.
  - apply Forall_cons in Hall as [Hf Hall].
    apply list_elem_of_lookup in Hf as [k Hk].
    destruct (find_file_name b k f Hk) as [[j fj] Hj].
    destruct (getFileModel_extends (name f) w b j fj Hwf Hb Hj)
      as (h & w1 & m & E1 & Hext1 & _ & Hh & Hu & Hbc).
    destruct (Hext1) as (Hb1 & Hwf1 & Hrest1).
    destruct (IH w1 Hwf1 Hb1 Hall) as (hs & w' & E' & Hext' & Hall').
    exists (h :: hs), w'. split.
    { cbn [mapJs]. by rewrite (bind_Return _ _ _ _ _ E1), (bind_Return _ _ _ _ _ E'). }
    split; [by eapply extends_trans|].
    constructor.
    + exists m. split; [by eapply extends_lookup|]. done.
    + eapply Forall2_impl; [exact Hall'|]. intros f' h' (m' & ? & ? & Hbc').
      exists m'. destruct Hrest1 as (_ & Hbc1 & _). by rewrite <- Hbc1.
Qed.

Lemma typescriptFileUris_spec b (w : World) :
  wf w →
  _project (this w) = Some b →
  ∃ w', typescriptFileUris b w =
          (Return ((λ f, Uri_file (name f)) <$> compiled_files b), w') ∧
        extends b w w'.
Proof.
  intros Hwf Hb. unfold typescriptFileUris. fold (compiled_files b).
  assert (Hall : Forall (λ f, f ∈ files b) (compiled_files b)).
  { apply Forall_forall. intros f Hf. unfold compiled_files in Hf.
    apply list_elem_of_In, filter_In in Hf as [Hf _]. by apply list_elem_of_In. }
  revert w Hwf Hb Hall. induction (compiled_files b) as [|f l IH]; intros w Hwf Hb Hall.
  - exists w. split; [done|]. by apply extends_refl.
  - apply Forall_cons in Hall as [Hf Hall].
    apply list_elem_of_lookup in Hf as [k Hk].
    destruct (find_file_name b k f Hk) as [[j fj] Hj].
    destruct (getFileModel_extends (name f) w b j fj Hwf Hb Hj)
      as (h & w1 & m & E1 & Hext1 & _ & Hh & Hu & Hbc).
    destruct (Hext1) as (Hb1 & Hwf1 & _).
    destruct (IH w1 Hwf1 Hb1 Hall) as (w' & E' & Hext').
    exists w'. split; [|by eapply extends_trans].
    cbn [mapJs]. rewrite (bind_Return _ _ w (uri m) w1).
    + rewrite (bind_Return _ _ _ _ _ E'). unfold ret. by rewrite Hu.
    + rewrite (bind_Return _ _ _ _ _ E1). by apply model_uri_Some.
Qed.

Lemma emit_output_spec (uris : list Uri) outs (w : World) :
  worker_answers (models w) uris outs →
  emit_output uris w = (Return outs, w).
Proof.
  intros (client & Hc & Hall). unfold emit_output, bind at 1, call. rewrite Hc.
  clear Hc. induction Hall as [|u o uris outs Ho Hall IH]; [done|].
  cbn [mapJs]. unfold bind at 1. rewrite Ho.
  by rewrite (bind_Return _ _ _ _ _ IH).
Qed.

Lemma mapJs_emit_model b (w0 w : World) (l : list ProjectFile) hs :
  Forall2 (λ f h, ∃ m, models w !! h = Some m ∧
                       uri m = Uri_file (name f) ∧
                       buffer_content w0 b (name f) = Some (value m)) l hs →
  ∃ es, mapJs hs emit_model w = (Return es, w) ∧
        Forall2 (λ f e,
          EmitFile.name e = replace "/./" "/" (Uri_fsPath (Uri_file (name f))) ∧
          buffer_content w0 b (name f) = Some (EmitFile.text e)) l es.
Proof.
  induction 1 as [|f h l hs (m & Hh & Hu & Hbc) Hall (es & E & IH)].
  - exists []. split; [done|constructor].
  - exists ({| EmitFile.name := replace "/./" "/" (Uri_fsPath (uri m));
               EmitFile.text := value m |} :: es). split.
    + cbn [mapJs]. unfold emit_model.
      rewrite (bind_Return _ _ w {| EmitFile.name := replace "/./" "/" (Uri_fsPath (uri m));
               EmitFile.text := value m |} w); [by rewrite (bind_Return _ _ _ _ _ E)|].
      rewrite (bind_Return _ _ _ _ _ (model_uri_Some h w m Hh)).
      by rewrite (bind_Return _ _ _ _ _ (getValue_Some h w m Hh)).
    + constructor; [|done]. simpl. by rewrite Hu.
Qed.

Lemma fold_left_emitted (outs : list EmitOutput) (acc : list OutputFile.t) :
  fold_left
    (λ previous output,
       if emitSkipped output then previous else previous ++ outputFiles output)
    outs acc =
  acc ++ List.concat ((λ o, if emitSkipped o then [] else outputFiles o) <$> outs).
Proof.
  revert acc. induction outs as [|o outs IH]; intros acc; simpl.
  - by rewrite app_nil_r.
  - rewrite IH. destruct (emitSkipped o); [done|]. by rewrite app_assoc.
Qed.

Lemma emitted_typescript_contribution (outs : list EmitOutput) :
  conform <$> emitted_typescript outs = List.concat (contribution <$> outs).
Proof.
  unfold emitted_typescript. rewrite fold_left_emitted, app_nil_l.
  induction outs as [|o outs IH]; [done|].
  rewrite !fmap_cons. cbn [List.concat]. rewrite fmap_app, IH.
  unfold contribution at 2. by destruct (emitSkipped o).
Qed.

(** The account of [emit] on a loaded project whose worker answers. *)
Lemma emit_spec (w : World) b outs :
  wf w →
  _project (this w) = Some b →
  worker_answers (models (typescriptFileUris b w).2)
                 ((λ f, Uri_file (name f)) <$> compiled_files b) outs →
  ∃ others w',
    emit w = (Return (List.concat (contribution <$> outs) ++ others), w') ∧
    extends b w w' ∧
    Forall2 (λ f e,
      EmitFile.name e = replace "/./" "/" (Uri_fsPath (Uri_file (name f))) ∧
      buffer_content w b (name f) = Some (EmitFile.text e)) (other_files b) others.
Proof.
  intros Hwf Hb Hans.
  destruct (typescriptFileUris_spec b w Hwf Hb) as (w1 & E1 & Hext1).
  rewrite E1 in Hans. simpl in Hans.
  assert (E2 := emit_output_spec _ _ _ Hans).
  destruct (Hext1) as (Hb1 & Hwf1 & Hrest1).
  assert (Hall : Forall (λ f, f ∈ files b) (other_files b)).
  { apply Forall_forall. intros f Hf. unfold other_files in Hf.
    apply list_elem_of_In, filter_In in Hf as [Hf _]. by apply list_elem_of_In. }
  destruct (mapJs_getFileModel b (other_files b) w1 Hwf1 Hb1 Hall)
    as (hs & w' & E3 & Hext3 & Hall3).
  destruct (mapJs_emit_model b w1 w' (other_files b) hs Hall3) as (es & E4 & Hall4).
  exists es, w'. split.
  { unfold emit, bind at 1, gets at 1. rewrite Hb.
    rewrite (bind_Return _ _ _ _ _ E1), (bind_Return _ _ _ _ _ E2).
    fold (other_files b).
    rewrite (bind_Return _ _ _ _ _ E3), (bind_Return _ _ _ _ _ E4).
    unfold ret. by rewrite emitted_typescript_contribution. }
  split; [by eapply extends_trans|].
  eapply Forall2_impl; [exact Hall4|]. intros f e [? Hbc]. split; [done|].
  destruct Hrest1 as (_ & Hbc1 & _). by rewrite <- Hbc1.
Qed.

Lemma emit_not_loaded (w : World) :
  _project (this w) = None → emit w = (Throw NotLoadedError, w).
Proof. intros Hb. unfold emit, bind, gets. by rewrite Hb. Qed.

End Emit.

Section Load.
Context {monaco : Monaco} {request : Request}.

Lemma configures_defaults_call f : configures (defaults_call f).
Proof.
  intros w r w'. unfold defaults_call.
  destruct (f (typescriptDefaults w)); intros [= <- <-]; done.
Qed.

Lemma configures_ret : configures (ret tt).
Proof. by intros w r w' [= <- <-]. Qed.

Lemma configures_forEach {A} (l : list A) (callback : A → Js World unit) :
  (∀ x, configures (callback x)) → configures (forEach l callback).
Proof.
  intros Hc. induction l as [|x l IH]; [apply configures_ret|].
  intros w r w'. cbn [forEach]. unfold bind.
  destruct (callback x w) as [[[]|e] w1] eqn:E1.
  - intros E. destruct (Hc x _ _ _ E1) as [H1 H2].
    destruct (IH w1 r w' E) as [H3 H4]. split; congruence.
  - intros [= <- <-]. by apply (Hc x _ _ _ E1).
Qed.

Lemma configures_project_bang (k : ProjectBundle → Js World unit) :
  (∀ b, configures (k b)) → configures (bind project_bang k).
Proof.
  intros Hk w r w'. cbv [bind project_bang gets ret throw].
  destruct (_project (this w)) as [b|].
  - apply Hk.
  - by intros [= <- <-].
Qed.

Lemma configures_bind (m1 m2 : Js World unit) :
  configures m1 → configures m2 → configures (m1 >> m2).
Proof.
  intros H1 H2 w r w'. unfold bind.
  destruct (m1 w) as [[[]|e] w1] eqn:E1.
  - intros E. destruct (H1 _ _ _ E1) as [H3 H4].
    destruct (H2 w1 r w' E) as [H5 H6]. split; congruence.
  - intros [= <- <-]. by apply (H1 _ _ _ E1).
Qed.

Lemma configures_environment :
  configures (_setTypeScriptEnvironment >> _setEnvironmentFiles >> _setProjectFiles).
Proof.
  repeat apply configures_bind.
  - apply configures_project_bang. intros b. apply configures_defaults_call.
  - apply configures_project_bang. intros b. apply configures_forEach.
    intros f. apply configures_defaults_call.
  - apply configures_project_bang. intros b. apply configures_forEach.
    intros f. destruct (_ || _); [apply configures_defaults_call|apply configures_ret].
Qed.

Lemma load_loaded filename (w : World) b :
  _project (this w) = Some b →
  load filename w = (Throw AlreadyLoadedError, w).
Proof. intros Hb. unfold load, bind, gets. by rewrite Hb. Qed.

(** [load] on an instance without a bundle, by the answer of the fetch. *)
Lemma load_not_loaded filename (w : World) :
  _project (this w) = None →
  load filename w =
    match request_text filename with
    | Throw e => (Throw e, w)
    | Return response =>
        match JSON_parse response with
        | Throw e => (Throw e, w)
        | Return bundle =>
            (_setTypeScriptEnvironment >> _setEnvironmentFiles >> _setProjectFiles)
              (set_this (set_project (Some bundle)) w)
        end
    end.
Proof.
  intros Hb. unfold load. unfold bind at 1, gets at 1. rewrite Hb.
  unfold _loadBundle, call, modify, bind.
  destruct (request_text filename) as [response|e]; [|done].
  destruct (JSON_parse response) as [bundle|e]; done.
Qed.

(** Whatever the outcome of [load], the store it leaves is one of three:
    the store it found, when the instance had a bundle or the fetch failed,
    or the store with the fetched bundle and a configured compiler context. *)
Lemma load_store filename (w : World) r w' :
  load filename w = (r, w') →
  models w' = models w ∧
  _fileMap (this w') = _fileMap (this w) ∧
  (_project (this w') = _project (this w) ∨
   _project (this w) = None ∧ ∃ response,
     request_text filename = Return response ∧
     Return <$> _project (this w') = Some (JSON_parse response)).
Proof.
  destruct (_project (this w)) as [b|] eqn:Hb.
  - rewrite (load_loaded filename w b Hb). intros [= <- <-]. rewrite Hb. auto.
  - rewrite (load_not_loaded filename w Hb).
    destruct (request_text filename) as [response|e]; [|intros [= <- <-]; auto].
    destruct (JSON_parse response) as [bundle|e] eqn:Ep; [|intros [= <- <-]; auto].
    intros E. destruct (configures_environment _ _ _ E) as [-> ->]. simpl.
    split; [done|]. split; [done|]. right. split; [done|].
    exists response. by rewrite Ep.
Qed.

Lemma load_Return_loaded filename (w : World) w' :
  load filename w = (Return tt, w') → is_Some (_project (this w')).
Proof.
  intros E. destruct (_project (this w)) as [b|] eqn:Hb.
  - rewrite (load_loaded filename w b Hb) in E. done.
  - rewrite (load_not_loaded filename w Hb) in E.
    destruct (request_text filename) as [response|e]; [|done].
    destruct (JSON_parse response) as [bundle|e]; [|done].
    destruct (configures_environment _ _ _ E) as [-> _]. simpl. eauto.
Qed.

Lemma wf_new (d : LanguageServiceDefaults) : wf (new_World d).
Proof.
  split; [|done]. unfold cached_live. simpl. intros i.
  unfold model_at, file_data. simpl. by rewrite lookup_empty.
Qed.

(** [load] keeps the table sound, whatever its outcome. *)
Lemma load_live filename (w : World) r w' :
  cached_live w → load filename w = (r, w') → cached_live w'.
Proof.
  intros Hwf E. destruct (load_store filename w r w' E) as (Hm & Hfm & Hp).
  assert (Hmodel : ∀ i, model_at i w' = model_at i w).
  { intros i. unfold model_at, file_data. by rewrite Hfm. }
  destruct Hp as [Hp|[Hp _]].
  - unfold cached_live in *. rewrite Hp. destruct (_project (this w)).
    + intros i h. rewrite Hmodel, Hm. apply Hwf.
    + intros i. by rewrite Hmodel.
  - unfold cached_live in *. rewrite Hp in Hwf. destruct (_project (this w')).
    + intros i h. rewrite Hmodel, Hwf. done.
    + intros i. by rewrite Hmodel.
Qed.

(** After [load] on an instance without a bundle, in a monaco without
    models, monaco accepts every model the class asks for when no two names
    of the bundle give the same URI. *)
Lemma load_wf filename (w : World) r w' b :
  cached_live w →
  models w = [] →
  load filename w = (r, w') →
  _project (this w') = Some b →
  (∀ f g, f ∈ files b → g ∈ files b →
     same_uri (Uri_file (name f)) (Uri_file (name g)) = true → name f = name g) →
  wf w'.
Proof.
  intros Hl Hnil E Hb Hinj. split; [by eapply load_live|].
  destruct (load_store filename w r w' E) as (Hm & _).
  unfold accepts. rewrite Hb. split; [done|].
  intros h m f Hh. by rewrite Hm, Hnil in Hh.
Qed.

Lemma isLoaded_spec (w : World) :
  isLoaded w = (Return (bool_decide (is_Some (_project (this w)))), w).
Proof. done. Qed.

End Load.

Section Buffers.
Context {monaco : Monaco}.

Lemma find_file_None filename b :
  filename ∉ name <$> files b → find_file filename b = None.
Proof.
  intros Hn. destruct (find_file filename b) as [[i f]|] eqn:E; [|done].
  destruct (find_file_Some _ _ _ _ E) as [Hi <-]. destruct Hn.
  apply list_elem_of_fmap. exists f. split; [done|]. by eapply list_elem_of_lookup_2.
Qed.

Lemma isFileDirty_unknown filename (w : World) b :
  _project (this w) = Some b →
  find_file filename b = None →
  isFileDirty filename w = (Return false, w).
Proof.
  intros Hb Hf. unfold isFileDirty.
  by rewrite (bind_Return _ _ _ _ _ (getFile_loaded filename w b Hb)), Hf.
Qed.

(** The buffer of a name of the project reads as [buffer_content] says. *)
Lemma buffer_value_spec filename (w : World) b i f :
  wf w →
  _project (this w) = Some b →
  find_file filename b = Some (i, f) →
  ∃ v w', buffer_value filename w = (Return v, w') ∧
          buffer_content w b filename = Some v ∧
          extends b w w'.
Proof.
  intros Hwf Hb Hf.
  destruct (getFileModel_extends filename w b i f Hwf Hb Hf)
    as (h & w' & m & E & Hext & _ & Hh & _ & Hbc).
  exists (value m), w'. split; [|done]. unfold buffer_value.
  rewrite (bind_Return _ _ _ _ _ E). by apply getValue_Some.
Qed.

Lemma isFileDirty_fst filename (w : World) b :
  _project (this w) = Some b →
  (isFileDirty filename w).1 = Return (dirty_name w b filename).
Proof.
  intros Hb. destruct (isFileDirty_spec filename w b Hb) as (w' & -> & _). done.
Qed.

Lemma buffer_value_fst (w : World) b k fk v :
  wf w →
  _project (this w) = Some b →
  files b !! k = Some fk →
  buffer_content w b (name fk) = Some v →
  (buffer_value (name fk) w).1 = Return v.
Proof.
  intros Hwf Hb Hk Hv. destruct (find_file_name b k fk Hk) as [[j fj] Hj].
  destruct (buffer_value_spec (name fk) w b j fj Hwf Hb Hj) as (v' & w' & -> & Hv' & _).
  simpl. congruence.
Qed.

Lemma setValue_uris h v (w : World) :
  uri <$> models (setValue h v w).2 = uri <$> models w.
Proof.
  simpl. rewrite (list_fmap_alter uri _ id) by by apply Forall_true.
  by apply list_alter_id.
Qed.

(** What [model.setValue(v)] does to the store, for a model the table holds. *)
Lemma setValue_spec h v (w : World) b i :
  wf w →
  _project (this w) = Some b →
  model_at i w = Some h →
  ∃ w', setValue h v w = (Return tt, w') ∧
        _project (this w') = Some b ∧
        wf w' ∧
        typescriptDefaults w' = typescriptDefaults w ∧
        (∀ j, file_data j w' = file_data j w) ∧
        (∀ n f, find_file n b = Some (i, f) → buffer_content w' b n = Some v).
Proof.
  intros Hwf Hb Hi. eexists. split; [reflexivity|]. simpl.
  split; [done|]. split.
  { apply (wf_transfer b b w); auto using same_shape_refl. apply setValue_uris. }
  split; [done|]. split; [done|].
  intros n f Hf. unfold buffer_content. rewrite Hf.
  replace (model_at i (set_models _ w)) with (model_at i w) by done.
  rewrite Hi. simpl.
  destruct (wf_handle w b i h Hwf Hb Hi) as (? & m & _ & Hm & _).
  by rewrite list_lookup_alter_eq, Hm.
Qed.

End Buffers.

(** ** The claims *)

Section Claims.
Context {monaco : Monaco} {request : Request} {worker : TypeScriptWorker}.

Lemma filter_bool_decide {A} (P : A → Prop) `{∀ x, Decision (P x)} (l : list A) :
  List.filter (λ x, bool_decide (P x)) l = filter P l.
Proof.
  induction l as [|x l IH]; [done|]. cbn [List.filter]. rewrite filter_cons, IH.
  destruct (decide (P x)).
  - by rewrite bool_decide_eq_true_2.
  - by rewrite bool_decide_eq_false_2.
Qed.

(** C6: on a loaded project [getFiles()] returns the names of the files of the
    bundle in bundle order, and [getFiles(kind, ...kinds)] returns the names
    of the files whose kind is one of those given, in bundle order, a
    sublist of all names; without a project each of them throws
    "Project not loaded.". *)
Theorem getFiles_bundle_order (w : World) (kind : ProjectFileType)
    (kinds : list ProjectFileType) :
  match _project (this w) with
  | Some b =>
      getFiles [] w = (Return (name <$> files b), w) ∧
      getFiles (kind :: kinds) w =
        (Return (name <$> filter (λ f, type f ∈ kind :: kinds) (files b)), w) ∧
      name <$> filter (λ f, type f ∈ kind :: kinds) (files b)
        `sublist_of` name <$> files b
  | None =>
      getFiles [] w = (Throw NotLoadedError, w) ∧
      getFiles (kind :: kinds) w = (Throw NotLoadedError, w)
  end.
Proof.
  destruct (_project (this w)) as [b|] eqn:Hb.
  - split; [|split].
    + unfold getFiles, bind, gets, ret. rewrite Hb. simpl.
      do 3 f_equal. induction (files b) as [|f l IH]; [done|]. simpl. by rewrite IH.
    + unfold getFiles, bind, gets, ret. rewrite Hb. simpl.
      unfold array_includes. by rewrite filter_bool_decide.
    + apply fmap_sublist, sublist_filter.
  - unfold getFiles, bind, gets, throw. by rewrite Hb.
Qed.

(** C7: after a [load] that succeeded, a second [load] throws
    "Project is already loaded." and leaves the store as the first left it. *)
Theorem second_load_fails (w w1 : World) (first second : string) :
  load first w = (Return tt, w1) →
  load second w1 = (Throw AlreadyLoadedError, w1).
Proof.
  intros E. destruct (load_Return_loaded first w w1 E) as [b Hb].
  by apply (load_loaded second w1 b).
Qed.

(** C2, as the code has it: when the fetch gave a bundle and the
    configuration of the environment then throws, [load] rejects with that
    error and the bundle stays stored: the instance and the models are what
    they were but for the bundle, [isLoaded()] returns true and a later
    [load] throws "Project is already loaded.". *)
Theorem load_failure_keeps_bundle (w w' : World) (filename response : string)
    (b : ProjectBundle) (e : Exception) :
  _project (this w) = None →
  request_text filename = Return response →
  JSON_parse response = Return b →
  load filename w = (Throw e, w') →
  this w' = set_project (Some b) (this w) ∧
  models w' = models w ∧
  isLoaded w' = (Return true, w') ∧
  ∀ again, load again w' = (Throw AlreadyLoadedError, w').
Proof.
  intros Hb Hr Hp E. rewrite (load_not_loaded filename w Hb), Hr, Hp in E.
  destruct (configures_environment _ _ _ E) as [Ht Hm]. simpl in Ht, Hm.
  split; [done|]. split; [done|].
  assert (Hb' : _project (this w') = Some b) by by rewrite Ht.
  split.
  - rewrite isLoaded_spec, Hb'. by rewrite bool_decide_eq_true_2.
  - intros again. by apply (load_loaded again w' b).
Qed.

(** C3, as the code has it: on a loaded project and a name that is not the
    name of one of its files, [isFileDirty(name)] returns false and
    [setFileDirty(name)] throws that the file is not part of the project;
    neither changes the store. *)
Theorem unknown_file_dirty (w : World) (b : ProjectBundle) (filename : string)
    (reset : option bool) :
  _project (this w) = Some b →
  filename ∉ name <$> files b →
  isFileDirty filename w = (Return false, w) ∧
  setFileDirty filename reset w = (Throw (UnknownFileError filename), w).
Proof.
  intros Hb Hn. apply find_file_None in Hn. split.
  - by apply (isFileDirty_unknown filename w b).
  - by apply (setFileDirty_unknown filename reset w b).
Qed.

(** C8, as the code has it: [get()] does not throw for want of a project:
    without one it returns [undefined] and leaves the store.  On a loaded
    project for which monaco accepts every model the class asks for, it
    returns the bundle it holds afterwards, in which every file whose name
    was dirty has as text the content of the buffer of its name, and every
    other file is as it was.  Where monaco refuses a model, [get()] throws:
    see [get_throws_on_shared_uri]. *)
Theorem get_never_fails (w : World) :
  wf w →
  match _project (this w) with
  | None => get w = (Return None, w)
  | Some b =>
      ∃ b' w',
        get w = (Return (Some b'), w') ∧
        _project (this w') = Some b' ∧
        ∀ k fk, files b !! k = Some fk →
          ∃ d v,
            (isFileDirty (name fk) w).1 = Return d ∧
            (buffer_value (name fk) w).1 = Return v ∧
            files b' !! k = Some (if d : bool then set_text v fk else fk)
  end.
Proof.
  intros Hwf. destruct (_project (this w)) as [b|] eqn:Hb.
  - destruct (get_loaded w b Hwf Hb) as (w' & b' & E & Hb' & _ & _ & _ & _ & _ & _ & Ht & _).
    exists b', w'. split; [done|]. split; [done|]. intros k fk Hk.
    destruct (Ht k fk Hk) as (v & Hv & Hk').
    exists (dirty_name w b (name fk)), v.
    split; [by apply isFileDirty_fst|]. split; [by eapply buffer_value_fst|done].
  - by apply get_not_loaded.
Qed.


End Claims.

Section RoundTrip.
Context {monaco : Monaco} {worker : TypeScriptWorker}.

(** C1, as the code has it: on a loaded project that monaco accepts and the
    name of one of its files, after [setFileDirty(name)], an edit that gives
    the buffer the content [v], and [get()], the bundle returned has the text
    [v] in every file of that name, the buffer still has the content [v], and
    [isFileDirty(name)] returns false: the flush resets the flag. *)
Theorem round_trip_flushes_and_resets (w : World) (b : ProjectBundle)
    (filename v : string) :
  wf w →
  _project (this w) = Some b →
  filename ∈ name <$> files b →
  ∃ b' w',
    round_trip filename v w = (Return (Some b', false, v), w') ∧
    ∀ f, f ∈ files b' → name f = filename → text f = v.
Proof.
  intros Hwf Hb Hn. destruct (find_file_elem filename b Hn) as [[i f] Hf].
  destruct (setFileDirty_wf filename None w b i f Hb Hf)
    as (w1 & E1 & Hb1 & Hm1 & _ & Hmod1 & Hdirty1 & Hwf1 & _).
  destruct (getFileModel_wf filename w1 b i f (Hwf1 Hwf) Hb1 Hf)
    as (h & w2 & m & E2 & Hb2 & Hwf2 & _ & Hmod2 & _ & _ & _ & _ & _ & _ & Hdirty2).
  destruct (setValue_spec h v w2 b i Hwf2 Hb2 Hmod2)
    as (w3 & E3 & Hb3 & Hwf3 & _ & Hfd3 & Hbc3).
  assert (Hd3 : dirty_name w3 b filename = true).
  { unfold dirty_name, dirty_at. rewrite Hf, Hfd3.
    fold (dirty_at i w2). rewrite Hdirty2, Hdirty1. by rewrite decide_True. }
  destruct (get_loaded w3 b Hwf3 Hb3)
    as (w4 & b' & E4 & Hb4 & Hwf4 & Hsh & Hbc4 & _ & _ & _ & Ht & Hclean).
  destruct (isFileDirty_wf filename w4 b' Hb4)
    as (w5 & E5 & Hb5 & _ & _ & _ & Hwf5 & Hbc5 & _).
  destruct (same_shape_find_file b b' filename i f Hsh Hf) as [f' Hf'].
  destruct (buffer_value_spec filename w5 b' i f' (Hwf5 Hwf4) Hb5 Hf')
    as (v' & w6 & E6 & Hv' & _).
  rewrite Hbc5, Hbc4, (Hbc3 filename f Hf) in Hv'. simplify_eq.
  destruct (find_file_Some _ _ _ _ Hf) as [Hi Hname].
  assert (Hd4 : dirty_name w4 b' filename = false).
  { rewrite <- Hname. by apply (Hclean i f). }
  rewrite Hd4 in E5.
  exists b', w6. split.
  - unfold round_trip.
    rewrite (bind_Return _ _ w tt w3).
    + by rewrite (bind_Return _ _ _ _ _ E4), (bind_Return _ _ _ _ _ E5),
        (bind_Return _ _ _ _ _ E6).
    + rewrite (bind_Return _ _ _ _ _ E1).
      by rewrite (bind_Return _ _ _ _ _ E2).
  - intros g Hg Hgn. apply list_elem_of_lookup in Hg as [k Hk].
    destruct (same_shape_lookup b b' k g Hsh Hk) as (fk & Hfk & Hnk & _).
    destruct (Ht k fk Hfk) as (vk & Hvk & Hk').
    rewrite Hnk, Hgn in Hvk, Hk'. rewrite Hd3 in Hk'.
    rewrite (Hbc3 filename f Hf) in Hvk. simplify_eq. done.
Qed.

(** The account of [emit] in the terms of the calls of the class. *)
Lemma emit_account (w : World) (b : ProjectBundle) (outs : list EmitOutput) :
  wf w →
  _project (this w) = Some b →
  worker_answers (models (typescriptFileUris b w).2)
                 ((λ f, Uri_file (name f)) <$> compiled_files b) outs →
  ∃ others w',
    emit w = (Return (List.concat (contribution <$> outs) ++ others), w') ∧
    Forall2 (λ f e,
      EmitFile.name e = replace "/./" "/" (Uri_fsPath (Uri_file (name f))) ∧
      (buffer_value (name f) w).1 = Return (EmitFile.text e))
      (other_files b) others.
Proof.
  intros Hwf Hb Hans.
  destruct (emit_spec w b outs Hwf Hb Hans) as (others & w' & E & _ & Hall).
  exists others, w'. split; [done|].
  assert (Hin : Forall (λ f, f ∈ files b) (other_files b)).
  { apply Forall_forall. intros f Hf. unfold other_files in Hf.
    apply list_elem_of_In, filter_In in Hf as [Hf _]. by apply list_elem_of_In. }
  clear E. revert Hin. generalize dependent (other_files b). intros l Hall.
  induction Hall as [|f e l es [Hname Hbc] Hall IH]; intros Hin; [constructor|].
  apply Forall_cons in Hin as [Hf Hin]. constructor; [|by apply IH].
  split; [done|]. apply list_elem_of_lookup in Hf as [k Hk].
  by apply (buffer_value_fst w b k f).
Qed.

(** C4, as the code has it: on a loaded project that monaco accepts and
    whose worker answers the requests for the compiled files, in bundle
    order, with [outs], [emit()] returns what each of [outs] adds, in that
    order, followed by one file for each file that is not compiled, in
    bundle order, whose text is the content of the buffer of its name and
    whose name is the path of the URI of that name with its first "/./"
    replaced by "/". *)
Theorem emit_order (w : World) (b : ProjectBundle) (outs : list EmitOutput) :
  wf w →
  _project (this w) = Some b →
  worker_answers (models (typescriptFileUris b w).2)
                 ((λ f, Uri_file (name f)) <$> compiled_files b) outs →
  ∃ others w',
    emit w = (Return (List.concat (contribution <$> outs) ++ others), w') ∧
    Forall2 (λ f e,
      EmitFile.name e = replace "/./" "/" (Uri_fsPath (Uri_file (name f))) ∧
      (buffer_value (name f) w).1 = Return (EmitFile.text e))
      (other_files b) others.
Proof. apply emit_account. Qed.


End RoundTrip.

Section Session.
Context {monaco : Monaco} {request : Request} {worker : TypeScriptWorker}.

Lemma getFiles_store types (w : World) : (getFiles types w).2 = w.
Proof. unfold getFiles, bind, gets. by destruct (_project (this w)). Qed.

Lemma includes_store filename (w : World) : (includes filename w).2 = w.
Proof.
  unfold includes, bind at 1, gets at 1.
  destruct (_project (this w)) as [b|] eqn:Hb; [|done].
  unfold bind. pose proof (getFiles_store [] w) as Hs.
  destruct (getFiles [] w) as [[names|e] w']; simpl in Hs; by subst.
Qed.

Lemma emit_output_store (uris : list Uri) (w : World) :
  (emit_output uris w).2 = w.
Proof.
  unfold emit_output, bind at 1, call.
  destruct (getTypeScriptWorker (models w) uris) as [client|e]; [|done].
  induction uris as [|u uris IH]; [done|].
  cbn [mapJs]. unfold bind at 1.
  destruct (getEmitOutput client (models w) (Uri_toString u)) as [o|e]; [|done].
  unfold bind. destruct (mapJs uris _ w) as [[os|e] w1]; simpl in *; by subst.
Qed.

Lemma extends_emit (w : World) b :
  wf w → _project (this w) = Some b → extends b w (emit w).2.
Proof.
  intros Hwf Hb. unfold emit, bind at 1, gets at 1. rewrite Hb.
  destruct (typescriptFileUris_spec b w Hwf Hb) as (w1 & E1 & Hext1).
  rewrite (bind_Return _ _ _ _ _ E1).
  assert (Hst := emit_output_store ((λ f, Uri_file (name f)) <$> compiled_files b) w1).
  unfold bind at 1.
  destruct (emit_output _ w1) as [[outs|e] w1'] eqn:E2; simpl in Hst; subst w1'; [|done].
  destruct (Hext1) as (Hb1 & Hwf1 & _).
  assert (Hall : Forall (λ f, f ∈ files b) (other_files b)).
  { apply Forall_forall. intros f Hf. unfold other_files in Hf.
    apply list_elem_of_In, filter_In in Hf as [Hf _]. by apply list_elem_of_In. }
  destruct (mapJs_getFileModel b (other_files b) w1 Hwf1 Hb1 Hall)
    as (hs & w' & E3 & Hext3 & Hall3).
  destruct (mapJs_emit_model b w1 w' (other_files b) hs Hall3) as (es & E4 & _).
  fold (other_files b).
  rewrite (bind_Return _ _ _ _ _ E3), (bind_Return _ _ _ _ _ E4). simpl.
  by eapply extends_trans.
Qed.

Lemma wf_setValue h v (w : World) : wf w → wf (setValue h v w).2.
Proof.
  intros Hwf. destruct (_project (this w)) as [b|] eqn:Hb.
  - apply (wf_transfer b b w); auto using same_shape_refl. apply setValue_uris.
  - destruct Hwf as [Hl _]. split.
    + unfold cached_live in *. simpl. by rewrite Hb in *.
    + unfold accepts. simpl. by rewrite Hb.
Qed.

(** Every call on a loaded project keeps the invariant of the store. *)
Lemma wf_after (c : Call) (w : World) b :
  wf w → _project (this w) = Some b → wf (after c w).
Proof.
  intros Hwf Hb.
  destruct c as [filename| |filename|filename|types|filename|filename|filename reset| | |h' v];
    cbn [after]; try (by apply wf_setValue);
    try (by rewrite getFiles_store); try (by rewrite includes_store); try done.
  - by rewrite (load_loaded filename w b Hb).
  - by destruct (get_loaded w b Hwf Hb) as (w' & b' & -> & _ & Hwf' & _).
  - by rewrite (getFile_loaded filename w b Hb).
  - destruct (find_file filename b) as [[j f]|] eqn:Hf.
    + by destruct (getFileModel_wf filename w b j f Hwf Hb Hf)
        as (h' & w' & m & -> & _ & Hwf' & _).
    + by rewrite (getFileModel_unknown filename w b Hb Hf).
  - destruct (isFileDirty_wf filename w b Hb) as (w' & -> & _ & _ & _ & _ & Hwf' & _).
    by apply Hwf'.
  - destruct (find_file filename b) as [[j f]|] eqn:Hf.
    + destruct (setFileDirty_wf filename reset w b j f Hb Hf)
        as (w' & -> & _ & _ & _ & _ & _ & Hwf' & _). by apply Hwf'.
    + by rewrite (setFileDirty_unknown filename reset w b Hb Hf).
  - by destruct (extends_emit w b Hwf Hb) as (_ & Hwf' & _).
Qed.

Lemma shape_after (c : Call) (w : World) (b : ProjectBundle) :
  wf w → _project (this w) = Some b →
  ∃ b', _project (this (after c w)) = Some b' ∧ same_shape b b'.
Proof.
  intros Hwf Hb.
  assert (Hsame : ∃ b', _project (this w) = Some b' ∧ same_shape b b')
    by (exists b; split; [done|apply same_shape_refl]).
  destruct c as [filename| |filename|filename|types|filename|filename|filename reset| | |h' v];
    cbn [after]; try done.
  - by rewrite (load_loaded filename w b Hb).
  - destruct (get_loaded w b Hwf Hb) as (w' & b' & -> & Hb' & _ & Hsh & _). eauto.
  - by rewrite (getFile_loaded filename w b Hb).
  - destruct (find_file filename b) as [[j f]|] eqn:Hf.
    + destruct (getFileModel_extends filename w b j f Hwf Hb Hf)
        as (h' & w' & m & -> & (Hb' & _) & _).
      exists b. split; [done|apply same_shape_refl].
    + by rewrite (getFileModel_unknown filename w b Hb Hf).
  - by rewrite getFiles_store.
  - by rewrite includes_store.
  - destruct (isFileDirty_wf filename w b Hb) as (w' & -> & Hb' & _).
    exists b. split; [done|apply same_shape_refl].
  - destruct (find_file filename b) as [[j f]|] eqn:Hf.
    + destruct (setFileDirty_wf filename reset w b j f Hb Hf) as (w' & -> & Hb' & _).
      exists b. split; [done|apply same_shape_refl].
    + by rewrite (setFileDirty_unknown filename reset w b Hb Hf).
  - destruct (extends_emit w b Hwf Hb) as (Hb' & _).
    exists b. split; [done|apply same_shape_refl].
Qed.

(** The invariant holds all along a session on a loaded project, which stays
    loaded with a bundle of the same shape. *)
Lemma wf_after_all (cs : list Call) :
  ∀ (w : World) b, wf w → _project (this w) = Some b →
  wf (after_all cs w) ∧
  ∃ b', _project (this (after_all cs w)) = Some b' ∧ same_shape b b'.
Proof.
  induction cs as [|c cs IH]; intros w b Hwf Hb.
  - split; [done|]. exists b. split; [done|apply same_shape_refl].
  - destruct (shape_after c w b Hwf Hb) as (b1 & Hb1 & Hsh1).
    destruct (IH (after c w) b1 (wf_after c w b Hwf Hb) Hb1) as (Hwf' & b' & Hb' & Hsh').
    split; [done|]. exists b'. split; [done|]. by eapply same_shape_trans.
Qed.





End Session.

Section Outcomes.
Context {monaco : Monaco} {request : Request} {worker : TypeScriptWorker}.

Lemma preserves_bind {A B} (I : World → Prop) (m : Js World A) (k : A → Js World B) :
  preserves I m → (∀ a, preserves I (k a)) → preserves I (bind m k).
Proof.
  intros Hm Hk w Hw. unfold bind. specialize (Hm w Hw).
  destruct (m w) as [[a|e] w1]; simpl in Hm; [by apply Hk|done].
Qed.

Lemma preserves_store {A} (I : World → Prop) (m : Js World A) :
  (∀ w, (m w).2 = w) → preserves I m.
Proof. intros H w Hw. by rewrite H. Qed.

Lemma preserves_forEach {A} (I : World → Prop) (l : list A) (callback : A → Js World unit) :
  (∀ x, preserves I (callback x)) → preserves I (forEach l callback).
Proof.
  intros H. induction l as [|x l IH]; cbn [forEach]; [by apply preserves_store|].
  apply preserves_bind; auto.
Qed.

Lemma preserves_filterJs {A} (I : World → Prop) (l : list A) (callback : A → Js World bool) :
  (∀ x, preserves I (callback x)) → preserves I (filterJs l callback).
Proof.
  intros H. induction l as [|x l IH]; cbn [filterJs]; [by apply preserves_store|].
  apply preserves_bind; [auto|]. intros keep.
  apply preserves_bind; [auto|]. intros rest. by apply preserves_store.
Qed.

Lemma preserves_mapJs {A B} (I : World → Prop) (l : list A) (callback : A → Js World B) :
  (∀ x, preserves I (callback x)) → preserves I (mapJs l callback).
Proof.
  intros H. induction l as [|x l IH]; cbn [mapJs]; [by apply preserves_store|].
  apply preserves_bind; [auto|]. intros y.
  apply preserves_bind; [auto|]. intros rest. by apply preserves_store.
Qed.

Lemma model_uri_store h (w : World) : (model_uri h w).2 = w.
Proof. unfold model_uri. by destruct (models w !! h). Qed.

Lemma getValue_store h (w : World) : (getValue h w).2 = w.
Proof. unfold getValue. by destruct (models w !! h). Qed.

Lemma getFile_store filename (w : World) : (getFile filename w).2 = w.
Proof. unfold getFile, bind, gets. by destruct (_project (this w)). Qed.

Lemma emit_model_store h (w : World) : (emit_model h w).2 = w.
Proof.
  unfold emit_model, bind. pose proof (model_uri_store h w) as H1.
  destruct (model_uri h w) as [[u|e] w1]; simpl in H1; subst w1; [|done].
  unfold getValue. by destruct (models w !! h).
Qed.

(** What the methods are made of: an invariant the four steps that write
    the store keep is kept by the flush, by [get] and by [emit], whether
    they return or throw. *)
Section Composite.
Variable I : World → Prop.
Hypothesis I_getFileModel : ∀ filename, preserves I (getFileModel filename).
Hypothesis I_isFileDirty : ∀ filename, preserves I (isFileDirty filename).
Hypothesis I_setFileDirty : ∀ filename reset, preserves I (setFileDirty filename reset).
Hypothesis I_write_text : ∀ i v,
  preserves I (modify (set_this (λ p, set_project (write_file_text i v <$> _project p) p))).

Lemma flush_file_preserves file : preserves I (flush_file file).
Proof using I_getFileModel I_setFileDirty I_write_text.
  unfold flush_file. apply preserves_bind; [apply I_getFileModel|]. intros h.
  apply preserves_bind; [apply preserves_store, getValue_store|]. intros v.
  apply preserves_bind; [apply I_write_text|]. intros _.
  apply I_setFileDirty.
Qed.

Lemma get_preserves : preserves I get.
Proof using I_getFileModel I_isFileDirty I_setFileDirty I_write_text.
  unfold get. apply preserves_bind; [|by intros _; apply preserves_store].
  intros w Hw. unfold _updateBundle, bind at 1, gets at 1.
  destruct (_project (this w)) as [b|]; [|done].
  apply preserves_bind; [| |done].
  - apply preserves_filterJs. intros x. apply I_isFileDirty.
  - intros l. apply preserves_forEach. intros x. apply flush_file_preserves.
Qed.

Lemma emit_preserves : preserves I emit.
Proof using I_getFileModel.
  intros w Hw. unfold emit, bind at 1, gets at 1.
  destruct (_project (this w)) as [b|]; [|done].
  apply preserves_bind; [| |done].
  - unfold typescriptFileUris. apply preserves_mapJs. intros f.
    apply preserves_bind; [apply I_getFileModel|].
    intros h. apply preserves_store, model_uri_store.
  - intros uris. apply preserves_bind; [apply preserves_store, emit_output_store|].
    intros output. apply preserves_bind.
    + apply preserves_mapJs. intros f. apply I_getFileModel.
    + intros hs. apply preserves_bind; [|by intros; apply preserves_store].
      apply preserves_mapJs. intros h. apply preserves_store, emit_model_store.
Qed.

End Composite.

Lemma outcome_intro (P Q P' Q' : Prop) :
  (Q → P) → (P → (P → P') ∧ (Q → Q')) → (P → P') ∧ (Q → Q').
Proof. tauto. Qed.

Lemma distinct_frame (w w' : World) :
  (∀ j, model_at j w' = model_at j w) → distinct_models w → distinct_models w'.
Proof. intros Hm Hd i j h. rewrite !Hm. apply Hd. Qed.

(** A step that keeps the names of the files, the URIs of the models and
    the model of every file keeps the store tracked, and isolated. *)
Lemma tracked_transfer b0 b b' (w w' : World) :
  _project (this w) = Some b →
  _project (this w') = Some b' →
  same_shape b b' →
  uri <$> models w' = uri <$> models w →
  (∀ j, model_at j w' = model_at j w) →
  (tracked b0 w → tracked b0 w') ∧ (isolated b0 w → isolated b0 w').
Proof.
  intros Hb Hb' Hsh Hu Hmod.
  assert (H : tracked b0 w → tracked b0 w').
  { intros (Hl & b1 & Hb1 & Hsh1).
    split; [by apply (cached_live_transfer b b' w w')|].
    exists b'. split; [done|]. rewrite Hb in Hb1. simplify_eq. by eapply same_shape_trans. }
  split; [done|]. intros [Ht Hd]. split; [auto|]. by apply (distinct_frame w w').
Qed.

(** [getFileModel] keeps the store tracked, and isolated, whether it finds
    the model, makes it, or monaco refuses it. *)
Lemma getFileModel_outcome b0 filename (w : World) :
  (tracked b0 w → tracked b0 (getFileModel filename w).2) ∧
  (isolated b0 w → isolated b0 (getFileModel filename w).2).
Proof.
  assert (H : tracked b0 w →
              tracked b0 (getFileModel filename w).2 ∧
              (distinct_models w → distinct_models (getFileModel filename w).2)).
  2: { split; [by intros Hw; apply H|]. intros [Hw Hd]. split; by apply H. }
  intros Hw. pose proof Hw as (Hl & b & Hb & Hsh).
  destruct (find_file filename b) as [[i f]|] eqn:Hf;
    [|by rewrite (getFileModel_unknown filename w b Hb Hf)].
  destruct (model_at i w) as [h0|] eqn:Eh0.
  - destruct (getFileModel_spec filename w b i f Hb Hf)
      as (h & w' & -> & _ & Hb' & _ & Hfd & Hcase); [by rewrite Eh0|].
    rewrite Eh0 in Hcase. destruct Hcase as [-> Hm]. simpl.
    assert (Hmod : ∀ j, model_at j w' = model_at j w).
    { intros j. unfold model_at in *. rewrite Hfd.
      destruct (decide (j = i)) as [->|]; [|done]. by rewrite Eh0. }
    assert (Hu : uri <$> models w' = uri <$> models w) by by rewrite Hm.
    split; [|by apply (distinct_frame w w')].
    by apply (proj1 (tracked_transfer b0 b b w w' Hb Hb' (same_shape_refl b) Hu Hmod)).
  - destruct (model_exists (Uri_file (name f)) (models w)) eqn:Ex.
    + destruct (getFileModel_refused filename w b i f Hb Hf Eh0 Ex)
        as (w' & -> & Hb' & Hm & _ & Hfd). simpl.
      assert (Hmod : ∀ j, model_at j w' = model_at j w).
      { intros j. unfold model_at. by rewrite Hfd. }
      assert (Hu : uri <$> models w' = uri <$> models w) by by rewrite Hm.
      split; [|by apply (distinct_frame w w')].
      by apply (proj1 (tracked_transfer b0 b b w w' Hb Hb' (same_shape_refl b) Hu Hmod)).
    + destruct (getFileModel_spec filename w b i f Hb Hf)
        as (h & w' & -> & _ & Hb' & _ & Hfd & Hcase); [done|].
      rewrite Eh0 in Hcase. destruct Hcase as [-> Hm]. simpl.
      assert (Hmodel : ∀ j, model_at j w' =
                if decide (j = i) then Some (List.length (models w)) else model_at j w).
      { intros j. unfold model_at. rewrite Hfd. by destruct (decide (j = i)). }
      destruct (find_file_Some _ _ _ _ Hf) as [Hi Hname].
      split; [split|].
      * unfold cached_live. rewrite Hb'. intros j h Hj. rewrite Hmodel in Hj.
        destruct (decide (j = i)) as [->|Hne].
        -- injection Hj as <-. eexists f, _. split; [done|].
           split; [rewrite Hm; by apply list_lookup_middle|done].
        -- destruct (live_handle w b j h Hl Hb Hj) as (f' & m' & ? & Hh & ?).
           exists f', m'. split; [done|]. split; [|done].
           rewrite Hm. by apply lookup_app_l_Some.
      * eauto.
      * intros Hd j1 j2 h. rewrite !Hmodel.
        destruct (decide (j1 = i)) as [->|H1], (decide (j2 = i)) as [->|H2]; try done.
        -- intros [= <-] Hj. destruct (live_handle w b j2 _ Hl Hb Hj) as (? & m & _ & Hh & _).
           apply lookup_lt_Some in Hh. lia.
        -- intros Hj [= <-]. destruct (live_handle w b j1 _ Hl Hb Hj) as (? & m & _ & Hh & _).
           apply lookup_lt_Some in Hh. lia.
        -- apply Hd.
Qed.

Lemma isFileDirty_outcome b0 filename (w : World) :
  (tracked b0 w → tracked b0 (isFileDirty filename w).2) ∧
  (isolated b0 w → isolated b0 (isFileDirty filename w).2).
Proof.
  apply outcome_intro; [by intros [? _]|].
  intros (_ & b & Hb & _).
  destruct (isFileDirty_spec filename w b Hb) as (w' & -> & Hb' & Hm & _ & Hfd). simpl.
  apply (tracked_transfer b0 b b w w'); auto using same_shape_refl; [by rewrite Hm|].
  intros j. unfold model_at. by rewrite Hfd.
Qed.

Lemma setFileDirty_outcome b0 filename reset (w : World) :
  (tracked b0 w → tracked b0 (setFileDirty filename reset w).2) ∧
  (isolated b0 w → isolated b0 (setFileDirty filename reset w).2).
Proof.
  apply outcome_intro; [by intros [? _]|].
  intros (_ & b & Hb & _).
  destruct (find_file filename b) as [[i f]|] eqn:Hf;
    [|by rewrite (setFileDirty_unknown filename reset w b Hb Hf)].
  destruct (setFileDirty_wf filename reset w b i f Hb Hf)
    as (w' & -> & Hb' & Hm & _ & Hmod & _). simpl.
  apply (tracked_transfer b0 b b w w'); auto using same_shape_refl. by rewrite Hm.
Qed.

Lemma write_text_outcome b0 i v (w : World) :
  let w' := set_this (λ p, set_project (write_file_text i v <$> _project p) p) w in
  (tracked b0 w → tracked b0 w') ∧ (isolated b0 w → isolated b0 w').
Proof.
  intros w'. apply outcome_intro; [by intros [? _]|].
  intros (_ & b & Hb & _).
  apply (tracked_transfer b0 b (write_file_text i v b) w); auto.
  - subst w'. simpl. by rewrite Hb.
  - apply same_shape_write.
Qed.

Lemma setValue_outcome b0 h v (w : World) :
  (tracked b0 w → tracked b0 (setValue h v w).2) ∧
  (isolated b0 w → isolated b0 (setValue h v w).2).
Proof.
  apply outcome_intro; [by intros [? _]|].
  intros (_ & b & Hb & _).
  apply (tracked_transfer b0 b b w); auto using same_shape_refl. apply setValue_uris.
Qed.

(** Every call on a loaded project keeps the store tracked, and isolated,
    whether it returns or throws. *)
Lemma after_outcome b0 (c : Call) (w : World) :
  (tracked b0 w → tracked b0 (after c w)) ∧ (isolated b0 w → isolated b0 (after c w)).
Proof.
  apply outcome_intro; [by intros [? _]|].
  intros (_ & b & Hb & _).
  destruct c as [filename| |filename|filename|types|filename|filename|filename reset| | |h' v];
    cbn [after].
  - by rewrite (load_loaded filename w b Hb).
  - split; apply get_preserves; intros; intros w1;
      first [apply getFileModel_outcome | apply isFileDirty_outcome
            | apply setFileDirty_outcome | apply (write_text_outcome b0 i v w1)].
  - by rewrite getFile_store.
  - apply getFileModel_outcome.
  - by rewrite getFiles_store.
  - by rewrite includes_store.
  - apply isFileDirty_outcome.
  - apply setFileDirty_outcome.
  - done.
  - split; apply emit_preserves; intros; intros w1; apply getFileModel_outcome.
  - apply setValue_outcome.
Qed.

Lemma tracked_after_all b0 (cs : list Call) :
  ∀ w : World, tracked b0 w → tracked b0 (after_all cs w).
Proof.
  induction cs as [|c cs IH]; intros w Hw; [done|].
  apply IH. by apply (proj1 (after_outcome b0 c w)).
Qed.

(** A call on an instance without a bundle touches the table only by
    [load], which leaves the models of the files alone. *)
Lemma unloaded_after (c : Call) (w : World) :
  _project (this w) = None →
  cached_live w → distinct_models w →
  cached_live (after c w) ∧ distinct_models (after c w).
Proof.
  intros Hb Hl Hd.
  assert (E : ∀ filename, getFile filename w = (Throw NotLoadedError, w))
    by (intros; by apply getFile_not_loaded).
  destruct c as [filename| |filename|filename|types|filename|filename|filename reset| | |h' v];
    cbn [after].
  - split; [eapply load_live; [done|apply surjective_pairing]|].
    destruct (load_store filename w _ _ (surjective_pairing _)) as (_ & Hfm & _).
    apply (distinct_frame w); [|done]. intros j. unfold model_at, file_data. by rewrite Hfm.
  - by rewrite get_not_loaded.
  - by rewrite getFile_store.
  - unfold getFileModel. by rewrite (bind_Throw _ _ _ _ _ (E filename)).
  - by rewrite getFiles_store.
  - by rewrite includes_store.
  - unfold isFileDirty. by rewrite (bind_Throw _ _ _ _ _ (E filename)).
  - unfold setFileDirty. by rewrite (bind_Throw _ _ _ _ _ (E filename)).
  - done.
  - by rewrite emit_not_loaded.
  - split; [|done]. unfold cached_live in *. simpl. by rewrite Hb in *.
Qed.

(** All along a session the table stays sound and no two file objects share
    a model, whatever the calls return or throw. *)
Lemma session_isolated (cs : list Call) :
  ∀ w : World, cached_live w → distinct_models w →
  cached_live (after_all cs w) ∧ distinct_models (after_all cs w).
Proof.
  induction cs as [|c cs IH]; intros w Hl Hd; [done|].
  cbn [after_all foldl]. fold (after_all cs (after c w)).
  destruct (_project (this w)) as [b|] eqn:Hb.
  - assert (Hw : isolated b w).
    { split; [|done]. split; [done|]. exists b. split; [done|apply same_shape_refl]. }
    apply (after_outcome b c w) in Hw as [[Hl1 _] Hd1]. by apply IH.
  - destruct (unloaded_after c w Hb Hl Hd) as [Hl1 Hd1]. by apply IH.
Qed.

Lemma new_distinct (d : LanguageServiceDefaults) : distinct_models (new_World d).
Proof.
  intros i j h Hi. unfold model_at, file_data in Hi. simpl in Hi.
  by rewrite lookup_empty in Hi.
Qed.

End Outcomes.

(** ** The claims on the sample project *)

Lemma Sample_loaded_project : _project (this Sample.loaded) = Some Sample.bundle.
Proof. vm_compute. reflexivity. Qed.

Lemma Sample_names_distinct (f g : ProjectFile) :
  f ∈ files Sample.bundle → g ∈ files Sample.bundle →
  same_uri (Uri_file (Monaco := Sample.monaco) (name f)) (Uri_file (name g)) = true →
  name f = name g.
Proof.
  intros Hf Hg.
  assert (Hall : Forall (λ f, Forall (λ g,
            same_uri (Uri_file (Monaco := Sample.monaco) (name f)) (Uri_file (name g)) = true →
            name f = name g) (files Sample.bundle)) (files Sample.bundle)).
  { repeat constructor; vm_compute; intros; discriminate. }
  rewrite Forall_forall in Hall. specialize (Hall f Hf).
  rewrite Forall_forall in Hall. by apply Hall.
Qed.

Lemma Sample_loaded_wf : wf Sample.loaded.
Proof.
  apply (load_wf (request := Sample.request) "project.json" Sample.new
           (load (request := Sample.request) "project.json" Sample.new).1 _ Sample.bundle).
  - apply wf_new.
  - reflexivity.
  - apply surjective_pairing.
  - exact Sample_loaded_project.
  - exact Sample_names_distinct.
Qed.

Lemma Sample_edited_session :
  Sample.edited =
  after_all (request := Sample.request) (worker := Sample.worker)
    [Call_setFileDirty "./index.html" None; Call_getFileModel "./index.html";
     Call_setValue 0 "<p/>"] Sample.loaded.
Proof. vm_compute. reflexivity. Qed.

Lemma Sample_edited_wf : wf Sample.edited.
Proof.
  rewrite Sample_edited_session.
  by destruct (wf_after_all (request := Sample.request) (worker := Sample.worker)
                 [Call_setFileDirty "./index.html" None; Call_getFileModel "./index.html";
                  Call_setValue 0 "<p/>"]
                 Sample.loaded Sample.bundle Sample_loaded_wf Sample_loaded_project).
Qed.

Lemma Sample_edited_project : _project (this Sample.edited) = Some Sample.bundle.
Proof. vm_compute. reflexivity. Qed.

Lemma Sample_worker_answers :
  worker_answers (worker := Sample.worker)
    (models (typescriptFileUris Sample.bundle Sample.loaded).2)
    ((λ f, Uri_file (name f)) <$> compiled_files Sample.bundle) Sample.outs.
Proof.
  exists tt. split; [reflexivity|].
  repeat constructor; vm_compute; reflexivity.
Qed.

Lemma getFiles_bundle_order_example :
  getFiles [] Sample.loaded =
    (Return ["src/main.ts"; "./docs/./readme.md"; "src/broken.ts"; "./index.html"],
     Sample.loaded) ∧
  getFiles [HTML; Markdown] Sample.loaded =
    (Return ["./docs/./readme.md"; "./index.html"], Sample.loaded).
Proof. split; vm_compute; reflexivity. Qed.

Lemma second_load_fails_witness :
  load (request := Sample.request) "project.json" Sample.new =
    (Return tt, Sample.loaded) ∧
  load (request := Sample.request) "other.json" Sample.loaded =
    (Throw AlreadyLoadedError, Sample.loaded).
Proof.
  split; [vm_compute; reflexivity|].
  apply (second_load_fails Sample.new Sample.loaded "project.json" "other.json").
  vm_compute. reflexivity.
Defined.

(** C2 as stated fails: with an [addExtraLib] that throws, [load] rejects and
    [isLoaded()] then returns true; the store is not the one before. *)
Lemma load_failure_not_rolled_back :
  (load (monaco := Sample.broken_monaco) (request := Sample.request)
        "project.json" Sample.broken_new).1 = Throw (Error "addExtraLib failed") ∧
  (isLoaded (load (monaco := Sample.broken_monaco) (request := Sample.request)
                  "project.json" Sample.broken_new).2).1 = Return true ∧
  (load (monaco := Sample.broken_monaco) (request := Sample.request)
        "project.json" Sample.broken_new).2 ≠ Sample.broken_new.
Proof.
  split; [vm_compute; reflexivity|]. split; [vm_compute; reflexivity|].
  intros H. apply (f_equal (λ w, (isLoaded w).1)) in H. vm_compute in H. discriminate.
Qed.

Lemma load_failure_keeps_bundle_witness :
  _project (this Sample.broken_new) = None ∧
  request_text (Request := Sample.request) "project.json" = Return "bundle" ∧
  JSON_parse (Request := Sample.request) "bundle" = Return Sample.bundle ∧
  load (monaco := Sample.broken_monaco) (request := Sample.request)
       "project.json" Sample.broken_new =
    (Throw (Error "addExtraLib failed"),
     (load (monaco := Sample.broken_monaco) (request := Sample.request)
           "project.json" Sample.broken_new).2) ∧
  isLoaded (load (monaco := Sample.broken_monaco) (request := Sample.request)
                 "project.json" Sample.broken_new).2 =
    (Return true,
     (load (monaco := Sample.broken_monaco) (request := Sample.request)
           "project.json" Sample.broken_new).2).
Proof.
  assert (E : load (monaco := Sample.broken_monaco) (request := Sample.request)
                "project.json" Sample.broken_new =
              (Throw (Error "addExtraLib failed"),
               (load (monaco := Sample.broken_monaco) (request := Sample.request)
                     "project.json" Sample.broken_new).2))
    by (vm_compute; reflexivity).
  split; [reflexivity|]. split; [reflexivity|]. split; [reflexivity|].
  split; [exact E|].
  apply (load_failure_keeps_bundle (monaco := Sample.broken_monaco)
           (request := Sample.request) Sample.broken_new _ "project.json" "bundle"
           Sample.bundle (Error "addExtraLib failed")
           eq_refl eq_refl eq_refl E).
Defined.

(** C3 as stated fails: [isFileDirty] of a name that is not in the project
    returns false, it does not throw. *)
Lemma isFileDirty_unknown_returns :
  isFileDirty "missing.ts" Sample.loaded = (Return false, Sample.loaded) ∧
  (isFileDirty "missing.ts" Sample.loaded).1 ≠ Throw (UnknownFileError "missing.ts").
Proof. split; [vm_compute; reflexivity|]. vm_compute. discriminate. Qed.

Lemma unknown_file_dirty_witness :
  _project (this Sample.loaded) = Some Sample.bundle ∧
  ("missing.ts" ∉ name <$> files Sample.bundle) ∧
  isFileDirty "missing.ts" Sample.loaded = (Return false, Sample.loaded) ∧
  setFileDirty "missing.ts" None Sample.loaded =
    (Throw (UnknownFileError "missing.ts"), Sample.loaded).
Proof.
  assert (Hn : "missing.ts" ∉ name <$> files Sample.bundle).
  { apply (bool_decide_unpack _). vm_compute. exact I. }
  split; [exact Sample_loaded_project|]. split; [exact Hn|].
  apply (unknown_file_dirty Sample.loaded Sample.bundle "missing.ts" None
           Sample_loaded_project Hn).
Defined.

Lemma index_html_in_bundle : "./index.html" ∈ name <$> files Sample.bundle.
Proof. apply (bool_decide_unpack _). vm_compute. exact I. Qed.


(** C8 as stated fails: on the project whose two files [notes.md] and
    [/notes.md] give one URI, after [load] and [setFileDirty] of both names,
    [get()] throws the error of monaco: the flush makes the model of the
    first file, and monaco refuses the model of the second.  The first file
    has been flushed and its flag reset by then; the second is still
    dirty. *)
Lemma get_throws_on_shared_uri :
  load (request := Sample.clash_request) "clash.json" Sample.new =
    (Return tt, Sample.clash_loaded) ∧
  setFileDirty "notes.md" None Sample.clash_loaded =
    (Return tt, (setFileDirty "notes.md" None Sample.clash_loaded).2) ∧
  setFileDirty "/notes.md" None (setFileDirty "notes.md" None Sample.clash_loaded).2 =
    (Return tt, Sample.clash_dirty) ∧
  (get Sample.clash_dirty).1 = Throw ModelExistsError ∧
  (isFileDirty "notes.md" (get Sample.clash_dirty).2).1 = Return false ∧
  (isFileDirty "/notes.md" (get Sample.clash_dirty).2).1 = Return true.
Proof. repeat split; vm_compute; reflexivity. Qed.

Lemma get_never_fails_witness :
  wf Sample.edited ∧
  (isFileDirty "./index.html" Sample.edited).1 = Return true ∧
  ∃ b' w',
    get Sample.edited = (Return (Some b'), w') ∧
    _project (this w') = Some b' ∧
    files b' !! 3%nat = Some {| name := "./index.html"; text := "<p/>"; type := HTML |}.
Proof.
  split; [exact Sample_edited_wf|]. split; [vm_compute; reflexivity|].
  pose proof (get_never_fails Sample.edited Sample_edited_wf) as H.
  rewrite Sample_edited_project in H.
  destruct H as (b' & w' & E & Hb' & Hfiles). exists b', w'.
  split; [exact E|]. split; [exact Hb'|].
  destruct (Hfiles 3%nat {| name := "./index.html"; text := "<html/>"; type := HTML |} eq_refl)
    as (d & v & Hd & Hv & Hk).
  vm_compute in Hd. vm_compute in Hv. injection Hd as <-. injection Hv as <-. exact Hk.
Defined.


(** C1 as stated fails: after the round trip [isFileDirty] returns false. *)
Lemma round_trip_resets_dirty :
  match (round_trip "./index.html" "<p/>" Sample.loaded).1 with
  | Return (_, dirty, current) => dirty = false ∧ current = "<p/>"
  | Throw _ => False
  end.
Proof. vm_compute. by split. Qed.

Lemma round_trip_flushes_and_resets_witness :
  wf Sample.loaded ∧
  _project (this Sample.loaded) = Some Sample.bundle ∧
  "./index.html" ∈ name <$> files Sample.bundle ∧
  ∃ b' w',
    round_trip "./index.html" "<p/>" Sample.loaded = (Return (Some b', false, "<p/>"), w') ∧
    ∀ f, f ∈ files b' → name f = "./index.html" → text f = "<p/>".
Proof.
  split; [exact Sample_loaded_wf|]. split; [exact Sample_loaded_project|].
  split; [exact index_html_in_bundle|].
  apply (round_trip_flushes_and_resets Sample.loaded Sample.bundle "./index.html" "<p/>"
           Sample_loaded_wf Sample_loaded_project index_html_in_bundle).
Defined.

(** C4 as stated fails: the emitted name of [./docs/./readme.md] still has a
    "/./" in it, the second one of its path. *)
Lemma emit_keeps_later_dot_segment :
  (emit (worker := Sample.worker) Sample.loaded).1 =
    Return [ {| EmitFile.name := "/src/main.ts.js"; EmitFile.text := "let x=1;" |};
             {| EmitFile.name := "/docs/./readme.md"; EmitFile.text := "hello" |};
             {| EmitFile.name := "/index.html"; EmitFile.text := "<html/>" |} ] ∧
  Uri_fsPath (Uri_file (Monaco := Sample.monaco) "./docs/./readme.md") =
    "/./docs/./readme.md" ∧
  occurs "/./" "/docs/./readme.md" = true.
Proof. repeat split; vm_compute; reflexivity. Qed.

Lemma emit_order_witness :
  wf Sample.loaded ∧
  _project (this Sample.loaded) = Some Sample.bundle ∧
  worker_answers (worker := Sample.worker)
    (models (typescriptFileUris Sample.bundle Sample.loaded).2)
    ((λ f, Uri_file (name f)) <$> compiled_files Sample.bundle) Sample.outs ∧
  ∃ others w',
    emit (worker := Sample.worker) Sample.loaded =
      (Return (List.concat (contribution <$> Sample.outs) ++ others), w') ∧
    List.length others = 2.
Proof.
  split; [exact Sample_loaded_wf|]. split; [exact Sample_loaded_project|].
  split; [exact Sample_worker_answers|].
  destruct (emit_order (worker := Sample.worker) Sample.loaded Sample.bundle Sample.outs
              Sample_loaded_wf Sample_loaded_project Sample_worker_answers)
    as (others & w' & E & Hall).
  exists others, w'. split; [exact E|].
  apply Forall2_length in Hall. rewrite <- Hall. reflexivity.
Defined.


(** * Further properties of the class *)

Section Lookup.
Context {monaco : Monaco} {worker : TypeScriptWorker}.

(** X1: on a loaded project [getFile(name)] does not throw and leaves the
    store; it returns the first file of the bundle with that name, and
    [undefined] exactly when no file has that name. *)
Theorem getFile_first_match (w : World) (b : ProjectBundle) (filename : string) :
  _project (this w) = Some b →
  ∃ r, getFile filename w = (Return r, w) ∧
       match r with
       | Some (i, f) =>
           files b !! i = Some f ∧ name f = filename ∧
           ∀ j g, files b !! j = Some g → name g = filename → (i ≤ j)%nat
       | None => filename ∉ name <$> files b
       end.
Proof.
  intros Hb. exists (find_file filename b). split; [by apply getFile_loaded|].
  unfold find_file.
  destruct (list_find (λ f, name f = filename) (files b)) as [[i f]|] eqn:E.
  - apply list_find_Some in E as (Hi & Hn & Hfirst).
    split; [done|]. split; [done|]. intros j g Hj Hg.
    destruct (decide (i ≤ j)%nat) as [|Hlt]; [done|].
    destruct (Hfirst j g Hj); [lia|done].
  - apply list_find_None in E. rewrite Forall_forall in E.
    intros (f & -> & Hf)%list_elem_of_fmap. by apply (E f).
Qed.

(** X2: [includes(name)] never throws and leaves the store; it returns true
    exactly when [getFile(name)] returns a file, so false without a project
    and false for a name that is not in the project. *)
Theorem includes_iff_getFile (w : World) (filename : string) :
  ∃ r, includes filename w = (Return r, w) ∧
       (r = true ↔ ∃ x, getFile filename w = (Return (Some x), w)).
Proof.
  unfold includes, bind at 1, gets at 1.
  destruct (_project (this w)) as [b|] eqn:Hb.
  - unfold getFiles, bind, gets, ret. rewrite Hb. simpl.
    eexists. split; [reflexivity|].
    rewrite (getFile_loaded filename w b Hb).
    replace (List.filter (λ _ : ProjectFile, true) (files b)) with (files b)
      by (induction (files b) as [|f l IH]; [done|]; simpl; by rewrite <- IH).
    unfold array_includes. rewrite bool_decide_eq_true. split.
    + intros Hin. destruct (find_file_elem filename b Hin) as [x Hx]. exists x. by rewrite Hx.
    + intros [[i f] Hx]. assert (Hf : find_file filename b = Some (i, f)) by congruence.
      destruct (find_file_Some _ _ _ _ Hf) as [Hi <-].
      apply list_elem_of_fmap. exists f. split; [done|]. by eapply list_elem_of_lookup_2.
  - exists false. split; [done|]. split; [done|].
    intros [x Hx]. by rewrite (getFile_not_loaded filename w Hb) in Hx.
Qed.

(** X3: on an instance without a project, [getFile], [getFileModel],
    [isFileDirty], [setFileDirty] and [emit] throw "Project not loaded.",
    [includes] and [isLoaded] return false, and none of them changes the
    store. *)
Theorem not_loaded_guards (w : World) (filename : string) (reset : option bool) :
  _project (this w) = None →
  getFile filename w = (Throw NotLoadedError, w) ∧
  getFileModel filename w = (Throw NotLoadedError, w) ∧
  isFileDirty filename w = (Throw NotLoadedError, w) ∧
  setFileDirty filename reset w = (Throw NotLoadedError, w) ∧
  emit w = (Throw NotLoadedError, w) ∧
  includes filename w = (Return false, w) ∧
  isLoaded w = (Return false, w).
Proof.
  intros Hb. pose proof (getFile_not_loaded filename w Hb) as E.
  split; [done|].
  split; [unfold getFileModel; by rewrite (bind_Throw _ _ _ _ _ E)|].
  split; [unfold isFileDirty; by rewrite (bind_Throw _ _ _ _ _ E)|].
  split; [unfold setFileDirty; by rewrite (bind_Throw _ _ _ _ _ E)|].
  split; [by apply emit_not_loaded|].
  split; [unfold includes, bind, gets; by rewrite Hb|].
  rewrite isLoaded_spec, Hb. rewrite bool_decide_eq_false_2; [done|].
  by intros [? ?].
Qed.

(** X4: on a loaded project [getFileModel(name)] of a name that is not in
    the project throws that the file is not part of the project; it makes no
    model and leaves the store. *)
Theorem getFileModel_unknown_name (w : World) (b : ProjectBundle) (filename : string) :
  _project (this w) = Some b →
  filename ∉ name <$> files b →
  getFileModel filename w =
    (Throw (Error ("File " +:+ dquote +:+ filename +:+ dquote +:+
                   " is not part of the project.")), w).
Proof.
  intros Hb Hn. apply find_file_None in Hn.
  by apply (getFileModel_unknown filename w b).
Qed.

(** X5: on a loaded project, the first [getFileModel(name)] for a file
    whose model the table does not hold asks monaco for a model under the
    file URI of the name.  When monaco holds no model under that URI, the
    call makes one new model: its value is the stored text of the first file
    of that name, its language the one of the kind of that file, its URI the
    file URI of the name; the models that were there, the bundle and the
    dirty flags stay, and the buffer of the name reads as the stored text.
    When monaco holds a model under that URI, the call throws the error of
    monaco, and the models, the table, the bundle and the dirty flags stay. *)
Theorem getFileModel_creates_model (w : World) (b : ProjectBundle) (filename : string)
    (i : nat) (f : ProjectFile) :
  _project (this w) = Some b →
  find_file filename b = Some (i, f) →
  model_at i w = None →
  (model_exists (Uri_file filename) (models w) = false →
   ∃ w',
     getFileModel filename w = (Return (List.length (models w)), w') ∧
     models w' = models w ++
       [ {| uri := Uri_file filename;
            language := getLanguageFromType (type f);
            value := text f |} ] ∧
     model_at i w' = Some (List.length (models w)) ∧
     _project (this w') = Some b ∧
     (∀ n, (isFileDirty n w').1 = (isFileDirty n w).1) ∧
     (buffer_value filename w).1 = Return (text f)) ∧
  (model_exists (Uri_file filename) (models w) = true →
   ∃ w',
     getFileModel filename w = (Throw ModelExistsError, w') ∧
     models w' = models w ∧
     (∀ j, model_at j w' = model_at j w) ∧
     _project (this w') = Some b ∧
     (∀ n, (isFileDirty n w').1 = (isFileDirty n w).1) ∧
     (buffer_value filename w).1 = Throw ModelExistsError).
Proof.
  intros Hb Hf Hnone.
  destruct (find_file_Some _ _ _ _ Hf) as [_ Hname]. rewrite <- Hname. split.
  - intros Hex.
    destruct (getFileModel_spec (name f) w b i f Hb) as (h & w' & E & _ & Hb' & _ & Hfd & Hcase);
      [by rewrite Hname|done|].
    rewrite Hnone in Hcase. destruct Hcase as [-> Hm].
    exists w'. split; [done|]. split; [done|]. split.
    { unfold model_at. rewrite Hfd. by rewrite decide_True. }
    split; [done|]. split.
    + intros n. rewrite (isFileDirty_fst n w' b Hb'), (isFileDirty_fst n w b Hb).
      unfold dirty_name, dirty_at. destruct (find_file n b) as [[j g]|]; [|done].
      rewrite Hfd. destruct (decide (j = i)) as [->|]; done.
    + unfold buffer_value. rewrite (bind_Return _ _ _ _ _ E).
      unfold getValue. rewrite Hm, list_lookup_middle by done. done.
  - intros Hex.
    destruct (getFileModel_refused (name f) w b i f Hb) as (w' & E & Hb' & Hm & _ & Hfd);
      [by rewrite Hname|done|done|].
    exists w'. split; [done|]. split; [done|]. split.
    { intros j. unfold model_at. by rewrite Hfd. }
    split; [done|]. split.
    + intros n. rewrite (isFileDirty_fst n w' b Hb'), (isFileDirty_fst n w b Hb).
      unfold dirty_name, dirty_at. destruct (find_file n b) as [[j g]|]; [|done].
      by rewrite Hfd.
    + unfold buffer_value. by rewrite (bind_Throw _ _ _ _ _ E).
Qed.

(** The kinds and their languages: [getLanguageFromType] never takes its
    default branch on a kind of
    the enumeration, and it gives two kinds the same language only when they
    are the same kind or both among Definition, TypeScript and Lib. *)
Theorem getLanguageFromType_distinct (t1 t2 : ProjectFileType) :
  getLanguageFromType t1 ≠ "unknown" ∧
  (getLanguageFromType t1 = getLanguageFromType t2 →
   t1 = t2 ∨ (t1 ∈ [Definition_; TypeScript; Lib] ∧ t2 ∈ [Definition_; TypeScript; Lib])).
Proof.
  split; [by destruct t1|].
  destruct t1, t2; simpl; intros E; try discriminate E; try (by left);
    right; split; set_solver.
Qed.

(** X6: on a loaded project and a name of the project, [setFileDirty(name,
    reset)] returns, and [isFileDirty(name)] then returns true when [reset]
    is omitted or false and false when it is true; the flag of every other
    name, the bundle and the models stay. *)
Theorem setFileDirty_then_isFileDirty (w : World) (b : ProjectBundle)
    (filename : string) (reset : option bool) :
  _project (this w) = Some b →
  filename ∈ name <$> files b →
  ∃ w',
    setFileDirty filename reset w = (Return tt, w') ∧
    (isFileDirty filename w').1 = Return (negb (default false reset)) ∧
    (∀ n, n ≠ filename → (isFileDirty n w').1 = (isFileDirty n w).1) ∧
    _project (this w') = Some b ∧
    models w' = models w.
Proof.
  intros Hb Hn. destruct (find_file_elem filename b Hn) as [[i f] Hf].
  destruct (setFileDirty_wf filename reset w b i f Hb Hf)
    as (w' & E & Hb' & Hm & _ & _ & Hdirty & _).
  exists w'. split; [done|]. split.
  { rewrite (isFileDirty_fst filename w' b Hb'). unfold dirty_name.
    rewrite Hf, Hdirty. by rewrite decide_True. }
  split; [|done].
  intros n Hne. rewrite (isFileDirty_fst n w' b Hb'), (isFileDirty_fst n w b Hb).
  unfold dirty_name. destruct (find_file n b) as [[j g]|] eqn:Hg; [|done].
  rewrite Hdirty. rewrite decide_False; [done|]. intros ->.
  destruct (find_file_Some _ _ _ _ Hf) as [Hi Hfn].
  destruct (find_file_Some _ _ _ _ Hg) as [Hj Hgn]. congruence.
Qed.

End Lookup.

Section Lifecycle.
Context {monaco : Monaco} {request : Request} {worker : TypeScriptWorker}.

(** [get] on a project without a dirty name returns the bundle it holds; it
    asks for no model. *)
Lemma get_clean (w : World) (b : ProjectBundle) :
  _project (this w) = Some b →
  (∀ k fk, files b !! k = Some fk → dirty_name w b (name fk) = false) →
  ∃ w', get w = (Return (Some b), w') ∧ _project (this w') = Some b ∧
        models w' = models w ∧
        ∀ j, file_data j w' = file_data j w.
Proof.
  intros Hb Hclean.
  destruct (filter_dirty_spec b (imap pair (files b)) w Hb)
    as (w0 & E0 & Hb0 & Hm0 & _ & Hfd0).
  assert (Hnil : List.filter (λ file : nat * ProjectFile, dirty_name w b (name file.2))
                   (imap pair (files b)) = []).
  { destruct (List.filter _ _) as [|x l] eqn:El; [done|].
    assert (Hx : x ∈ List.filter (λ file : nat * ProjectFile, dirty_name w b (name file.2))
                   (imap pair (files b))) by (rewrite El; apply list_elem_of_here).
    apply elem_of_filter_imap in Hx as [Hx Hd]. by rewrite (Hclean _ _ Hx) in Hd. }
  rewrite Hnil in E0. exists w0. split; [|done].
  unfold get, _updateBundle.
  rewrite (bind_Return _ (λ _, gets _) w tt w0); [unfold gets; by rewrite Hb0|].
  unfold bind at 1, gets at 1. rewrite Hb.
  by rewrite (bind_Return _ _ _ _ _ E0).
Qed.

(** X7: a new instance that loads a bundle holds it with no file dirty:
    [isFileDirty] returns false for every name, and [get()] returns the
    bundle as it was parsed. *)
Theorem load_then_get (w w1 : World) (filename response : string) (b : ProjectBundle) :
  this w = new_Project →
  models w = [] →
  request_text filename = Return response →
  JSON_parse response = Return b →
  load filename w = (Return tt, w1) →
  (∀ n, (isFileDirty n w1).1 = Return false) ∧
  ∃ w2, get w1 = (Return (Some b), w2).
Proof.
  intros Hthis Hmodels Hr Hp E.
  destruct (load_store filename w (Return tt) w1 E) as (_ & Hfm & Hproj).
  assert (Hb1 : _project (this w1) = Some b).
  { destruct Hproj as [Hproj|(_ & r & Hr' & Hproj)].
    - destruct (load_Return_loaded filename w w1 E) as [b1 Hb1].
      rewrite Hproj, Hthis in Hb1. done.
    - rewrite Hr in Hr'. simplify_eq. rewrite Hp in Hproj.
      destruct (_project (this w1)); simplify_eq/=. done. }
  assert (Hclean : ∀ n, dirty_name w1 b n = false).
  { intros n. unfold dirty_name, dirty_at, file_data.
    destruct (find_file n b) as [[i f]|]; [|done].
    rewrite Hfm, Hthis. simpl. by rewrite lookup_empty. }
  split.
  - intros n. by rewrite (isFileDirty_fst n w1 b Hb1), Hclean.
  - destruct (get_clean w1 b Hb1) as (w2 & E2 & _); [by intros; apply Hclean|].
    by exists w2.
Qed.

(** A [getFileModel] that returned has left the bundle and the dirty flags
    alone. *)
Lemma getFileModel_returned filename (w w' : World) b i f h :
  _project (this w) = Some b →
  find_file filename b = Some (i, f) →
  getFileModel filename w = (Return h, w') →
  _project (this w') = Some b ∧ ∀ j, dirty_at j w' = dirty_at j w.
Proof.
  intros Hb Hf E.
  assert (Hspec : (model_at i w = None →
                   model_exists (Uri_file (name f)) (models w) = false) →
                  _project (this w') = Some b ∧ ∀ j, dirty_at j w' = dirty_at j w).
  { intros Hacc.
    destruct (getFileModel_spec filename w b i f Hb Hf Hacc)
      as (h' & w1 & E' & _ & Hb' & _ & Hfd & _).
    rewrite E in E'. simplify_eq. split; [done|].
    intros j. unfold dirty_at. rewrite Hfd. by destruct (decide (j = i)) as [->|]. }
  destruct (model_at i w) as [h0|] eqn:Eh0; [by apply Hspec|].
  destruct (model_exists (Uri_file (name f)) (models w)) eqn:Ex; [|by apply Hspec].
  destruct (getFileModel_refused filename w b i f Hb Hf Eh0 Ex) as (w1 & E' & _).
  rewrite E in E'. done.
Qed.

(** A round of the flush that returned has reset the flag of the name and
    written one text. *)
Lemma flush_file_returned (w w' : World) b i f j fj :
  _project (this w) = Some b →
  find_file (name f) b = Some (j, fj) →
  flush_file (i, f) w = (Return tt, w') →
  ∃ v, _project (this w') = Some (write_file_text i v b) ∧
       ∀ k, dirty_at k w' = if decide (k = j) then false else dirty_at k w.
Proof.
  intros Hb Hj E. unfold flush_file in E. cbn [fst snd] in E. unfold bind at 1 in E.
  destruct (getFileModel (name f) w) as [[h|e] w1] eqn:E1; [|done].
  destruct (getFileModel_returned (name f) w w1 b j fj h Hb Hj E1) as [Hb1 Hd1].
  unfold bind at 1 in E. pose proof (getValue_store h w1) as Hs.
  destruct (getValue h w1) as [[v|e] w1'] eqn:E2; simpl in Hs; subst w1'; [|done].
  unfold bind at 1, modify at 1 in E.
  set (w2 := set_this (λ p, set_project (write_file_text i v <$> _project p) p) w1) in E.
  assert (Hb2 : _project (this w2) = Some (write_file_text i v b))
    by (subst w2; simpl; by rewrite Hb1).
  assert (Hj2 : find_file (name f) (write_file_text i v b) =
                Some (j, if decide (j = i) then set_text v fj else fj))
    by by rewrite find_file_write, Hj.
  destruct (setFileDirty_wf (name f) (Some true) w2 _ j _ Hb2 Hj2)
    as (w3 & E3 & Hb3 & _ & _ & _ & Hdirty3 & _).
  rewrite E3 in E. injection E as <-. exists v. split; [done|].
  intros k. rewrite Hdirty3. destruct (decide (k = j)); [done|].
  replace (dirty_at k w2) with (dirty_at k w1) by done. apply Hd1.
Qed.

(** A flush that returned has left no flag set that it found reset, and none
    of a name it went through. *)
Lemma forEach_flush_returned (l : list (nat * ProjectFile)) :
  ∀ (w w' : World) b,
  _project (this w) = Some b →
  Forall (λ x, is_Some (find_file (name x.2) b)) l →
  forEach l flush_file w = (Return tt, w') →
  ∃ b', _project (this w') = Some b' ∧ same_shape b b' ∧
        ∀ k, dirty_at k w' = true →
             dirty_at k w = true ∧
             Some k ∉ (λ x : nat * ProjectFile, fst <$> find_file (name x.2) b) <$> l.
Proof.
  induction l as [|[i f] l IH]; intros w w' b Hb Hall E.
  - injection E as <-. exists b. split; [done|]. split; [apply same_shape_refl|].
    intros k Hk. split; [done|]. apply not_elem_of_nil.
  - apply Forall_cons in Hall as [[[j fj] Hj] Hall]. simpl in Hj.
    cbn [forEach] in E. unfold bind at 1 in E.
    destruct (flush_file (i, f) w) as [[[]|e] w1] eqn:E1; [|done].
    destruct (flush_file_returned w w1 b i f j fj Hb Hj E1) as (v & Hb1 & Hd1).
    assert (Hidx : ∀ n, fst <$> find_file n (write_file_text i v b) = fst <$> find_file n b).
    { intros n. rewrite find_file_write. by destruct (find_file n b) as [[? ?]|]. }
    assert (Hall1 : Forall (λ x, is_Some (find_file (name x.2) (write_file_text i v b))) l).
    { eapply Forall_impl; [exact Hall|]. intros x [y Hy].
      specialize (Hidx (name x.2)). rewrite Hy in Hidx.
      destruct (find_file (name x.2) (write_file_text i v b)); [eauto|done]. }
    destruct (IH w1 w' _ Hb1 Hall1 E) as (b' & Hb' & Hsh' & Hd').
    exists b'. split; [done|].
    split; [eapply same_shape_trans; [apply same_shape_write|exact Hsh']|].
    intros k Hk. destruct (Hd' k Hk) as [Hk1 Hnin]. rewrite Hd1 in Hk1.
    destruct (decide (k = j)) as [->|Hne]; [done|]. split; [done|].
    rewrite fmap_cons, not_elem_of_cons. simpl. rewrite Hj. simpl. split; [congruence|].
    intros Hin. apply Hnin. apply list_elem_of_fmap in Hin as (x & Hx & Hxl).
    apply list_elem_of_fmap. exists x. split; [|done]. by rewrite Hidx.
Qed.

(** A [get] that returned a bundle has left the instance with that bundle
    and no name dirty. *)
Lemma get_returned (w w1 : World) (b1 : ProjectBundle) :
  get w = (Return (Some b1), w1) →
  _project (this w1) = Some b1 ∧
  ∀ k fk, files b1 !! k = Some fk → dirty_name w1 b1 (name fk) = false.
Proof.
  intros E. destruct (_project (this w)) as [b|] eqn:Hb;
    [|by rewrite (get_not_loaded w Hb) in E].
  destruct (filter_dirty_spec b (imap pair (files b)) w Hb)
    as (w0 & E0 & Hb0 & _ & _ & Hfd0).
  set (l := List.filter (λ file : nat * ProjectFile, dirty_name w b (name file.2))
                        (imap pair (files b))) in *.
  assert (Hall : Forall (λ x, is_Some (find_file (name x.2) b)) l).
  { apply Forall_forall. intros x [Hx _]%elem_of_filter_imap. by eapply find_file_name. }
  assert (Eu : _updateBundle w = forEach l flush_file w0).
  { unfold _updateBundle, bind at 1, gets at 1. rewrite Hb.
    by rewrite (bind_Return _ _ _ _ _ E0). }
  unfold get, bind in E. rewrite Eu in E.
  destruct (forEach l flush_file w0) as [[[]|e] w'] eqn:E'; [|done].
  unfold gets in E. injection E as Hp <-.
  destruct (forEach_flush_returned l w0 w' b Hb0 Hall E') as (b' & Hb' & Hsh & Hdirty).
  rewrite Hb' in Hp. injection Hp as ->. split; [done|].
  intros k fk Hk. unfold dirty_name.
  destruct (same_shape_lookup b b1 k fk Hsh Hk) as (f & Hf & Hn & _).
  destruct (find_file_name b k f Hf) as [[j fj] Hj].
  destruct (same_shape_find_file b b1 (name f) j fj Hsh Hj) as [fj' Hj'].
  rewrite <- Hn, Hj'.
  destruct (dirty_at j w') eqn:Ed; [|done]. destruct (Hdirty j Ed) as [Hd0 Hnin].
  destruct Hnin. apply list_elem_of_fmap. exists (k, f). simpl. rewrite Hj.
  split; [done|]. apply elem_of_filter_imap. split; [done|]. simpl.
  unfold dirty_name. rewrite Hj. unfold dirty_at in *. by rewrite <- Hfd0.
Qed.

(** X8: [get()] twice: when the first call returned a bundle, the second
    call returns that bundle, with no text changed, whatever was dirty
    before the first. *)
Theorem get_twice (w w1 : World) (b1 : ProjectBundle) :
  get w = (Return (Some b1), w1) →
  ∃ w2, get w1 = (Return (Some b1), w2).
Proof.
  intros E. destruct (get_returned w w1 b1 E) as [Hb1 Hclean].
  destruct (get_clean w1 b1 Hb1 Hclean) as (w2 & E2 & _). by exists w2.
Qed.

(** X9: on a loaded project that monaco accepts, [emit()], whether it
    returns or the worker makes it throw, leaves the bundle, the compiler
    context, the dirty flags and the content of every buffer as they were,
    and every model that was there keeps its place and its value. *)
Theorem emit_reads_only (w w' : World) (b : ProjectBundle)
    (r : Completion (list EmitFile.t)) :
  wf w →
  _project (this w) = Some b →
  emit w = (r, w') →
  _project (this w') = Some b ∧
  typescriptDefaults w' = typescriptDefaults w ∧
  (∀ n, (isFileDirty n w').1 = (isFileDirty n w).1) ∧
  (∀ n, n ∈ name <$> files b → (buffer_value n w').1 = (buffer_value n w).1) ∧
  (∀ h m, models w !! h = Some m → models w' !! h = Some m).
Proof.
  intros Hwf Hb E. pose proof (extends_emit w b Hwf Hb) as Hext.
  rewrite E in Hext. simpl in Hext.
  destruct (Hext) as (Hb' & Hwf' & Hd & Hbc & _ & _ & Hdirty).
  split; [done|]. split; [done|]. split; [|split].
  - intros n. rewrite (isFileDirty_fst n w' b Hb'), (isFileDirty_fst n w b Hb).
    unfold dirty_name. destruct (find_file n b) as [[i f]|]; [|done]. by rewrite Hdirty.
  - intros n Hn. destruct (find_file_elem n b Hn) as [[i f] Hf].
    destruct (buffer_value_spec n w b i f Hwf Hb Hf) as (v & w1 & -> & Hv & _).
    destruct (buffer_value_spec n w' b i f Hwf' Hb' Hf) as (v' & w2 & -> & Hv' & _).
    rewrite Hbc in Hv'. simpl. congruence.
  - intros h m Hh. by eapply extends_lookup.
Qed.

Lemma mapJs_request_Throw (client : WorkerClient) (uris : list Uri) (w : World) :
  Exists (λ u, ∃ e, getEmitOutput client (models w) (Uri_toString u) = Throw e) uris →
  ∃ e, mapJs uris
         (λ file w0, call (getEmitOutput client (models w0) (Uri_toString file)) w0) w =
       (Throw e, w).
Proof.
  induction uris as [|u uris IH]; intros Hex; [by apply Exists_nil in Hex|].
  cbn [mapJs]. unfold bind at 1, call at 1.
  destruct (getEmitOutput client (models w) (Uri_toString u)) as [o|e] eqn:Eu; [|eauto].
  apply Exists_cons in Hex as [[e He]|Hex]; [congruence|].
  destruct (IH Hex) as [e He]. exists e. unfold bind. by rewrite He.
Qed.

(** X10: on a loaded project that monaco accepts, when the worker session
    rejects, [emit()] rejects with the error of the session; when the session is given and one
    of the requests for a compiled file rejects, [emit()] rejects too.  In
    both cases no file is returned, and the store is the one left by the
    models of the compiled files: no model is made for the other files. *)
Theorem emit_worker_failure (w : World) (b : ProjectBundle) :
  wf w →
  _project (this w) = Some b →
  (∀ e,
     getTypeScriptWorker (models (typescriptFileUris b w).2)
       ((λ f, Uri_file (name f)) <$> compiled_files b) = Throw e →
     emit w = (Throw e, (typescriptFileUris b w).2)) ∧
  (∀ client,
     getTypeScriptWorker (models (typescriptFileUris b w).2)
       ((λ f, Uri_file (name f)) <$> compiled_files b) = Return client →
     Exists (λ f, ∃ e, getEmitOutput client (models (typescriptFileUris b w).2)
                         (Uri_toString (Uri_file (name f))) = Throw e)
            (compiled_files b) →
     ∃ e, emit w = (Throw e, (typescriptFileUris b w).2)).
Proof.
  intros Hwf Hb.
  destruct (typescriptFileUris_spec b w Hwf Hb) as (w1 & E1 & _).
  rewrite E1. simpl. split.
  - intros e He. unfold emit, bind at 1, gets at 1. rewrite Hb.
    rewrite (bind_Return _ _ _ _ _ E1).
    unfold bind at 1, emit_output, bind at 1, call at 1. by rewrite He.
  - intros client Hc Hex.
    destruct (mapJs_request_Throw client ((λ f, Uri_file (name f)) <$> compiled_files b) w1)
      as [e He].
    { apply Exists_fmap. eapply Exists_impl; [exact Hex|]. by intros f [e He]; exists e. }
    exists e. unfold emit, bind at 1, gets at 1. rewrite Hb.
    rewrite (bind_Return _ _ _ _ _ E1).
    unfold bind at 1, emit_output, bind at 1, call at 1. rewrite Hc. by rewrite He.
Qed.

(** X13: when the fetch of the bundle or the parse of its text throws,
    [load] rejects with that error and leaves the store: the instance is not
    loaded and [load] can be called again. *)
Theorem load_fetch_failure (w : World) (filename : string) (e : Exception) :
  _project (this w) = None →
  request_text filename = Throw e ∨
    (∃ response, request_text filename = Return response ∧
                 JSON_parse response = Throw e) →
  load filename w = (Throw e, w) ∧ isLoaded w = (Return false, w).
Proof.
  intros Hb Hfail. split.
  - rewrite (load_not_loaded filename w Hb).
    destruct Hfail as [->|(response & -> & ->)]; done.
  - rewrite isLoaded_spec, Hb. rewrite bool_decide_eq_false_2; [done|]. by intros [? ?].
Qed.

(** X14: all along a session that starts with a new instance, whatever
    the calls of the class and the edits of models, every model the table
    holds for a file object is a model of monaco whose URI is the file URI
    of the name of that file, and the table holds no model while there is no
    project. *)
Theorem session_keeps_models_live (d : LanguageServiceDefaults) (cs : list Call) :
  let w := after_all cs (new_World d) in
  match _project (this w) with
  | Some b =>
      ∀ i h, model (file_data i w) = Some h →
        ∃ f m, files b !! i = Some f ∧ models w !! h = Some m ∧
               uri m = Uri_file (name f)
  | None => ∀ i, model (file_data i w) = None
  end.
Proof.
  destruct (wf_new d) as [Hl _].
  by destruct (session_isolated cs (new_World d) Hl (new_distinct d)) as [H _].
Qed.


(** X15: there is no way back from loaded: after any calls of the class and
    edits of models on a loaded project, whether the calls return or throw,
    the instance still holds a bundle with the same file names and kinds in
    the same order, the same environment files and the same compiler
    configuration, and [isLoaded()] returns true. *)
Theorem stays_loaded (w : World) (b : ProjectBundle) (cs : list Call) :
  cached_live w →
  _project (this w) = Some b →
  ∃ b',
    _project (this (after_all cs w)) = Some b' ∧
    name <$> files b' = name <$> files b ∧
    type <$> files b' = type <$> files b ∧
    environmentFiles b' = environmentFiles b ∧
    tsconfig b' = tsconfig b ∧
    (isLoaded (after_all cs w)).1 = Return true.
Proof.
  intros Hl Hb.
  assert (Hw : tracked b w).
  { split; [done|]. exists b. split; [done|apply same_shape_refl]. }
  destruct (tracked_after_all b cs w Hw) as (_ & b' & Hb' & (Hn & Ht & He & Hc)).
  exists b'. repeat (split; [done|]).
  rewrite isLoaded_spec. cbn [fst].
  rewrite bool_decide_eq_true_2; [done|]. rewrite Hb'. eauto.
Qed.

End Lifecycle.

Section Configurator.
Context {monaco : Monaco} {request : Request}.

(** X11: on a loaded project [_setTypeScriptEnvironment] makes one call,
    [setCompilerOptions(options)], and nothing else.  In [options] the four
    forced options have the forced values, each of the nine copied options
    has the value the bundle gives it ([undefined] when the bundle has no
    such option or no compiler options at all), and no other option of the
    bundle is passed on. *)
Theorem compiler_options_forced (w : World) (b : ProjectBundle) :
  _project (this w) = Some b →
  ∃ options,
    _setTypeScriptEnvironment w = defaults_call (setCompilerOptions options) w ∧
    options !! "allowNonTsExtensions" = Some (JsBool true) ∧
    options !! "target" = Some ScriptTarget_ES5 ∧
    options !! "module" = Some ModuleKind_UMD ∧
    options !! "moduleResolution" = Some ModuleResolutionKind_NodeJs ∧
    (∀ k, k ∈ copied_options →
       options !! k =
         Some (default undefined (default ∅ (compilerOptions (tsconfig b)) !! k))) ∧
    (∀ k, k ∉ copied_options → k ∉ forced_options → options !! k = None).
Proof.
  intros Hb. eexists. split.
  { unfold _setTypeScriptEnvironment, bind at 1, project_bang, bind, gets, ret.
    rewrite Hb. reflexivity. }
  set (co := default ∅ (compilerOptions (tsconfig b))).
  unfold assign.
  split; [by vm_compute|]. split; [by vm_compute|].
  split; [by vm_compute|]. split; [by vm_compute|]. split.
  - intros k Hk. unfold copied_options in Hk.
    repeat (apply elem_of_cons in Hk as [->|Hk]; [by vm_compute|]).
    by apply elem_of_nil in Hk.
  - intros k Hc Hf. rewrite !lookup_union_None. split; [|split; [|done]].
    + apply not_elem_of_list_to_map_1. exact Hf.
    + apply not_elem_of_list_to_map_1. rewrite <- list_fmap_compose.
      unfold compose. simpl. exact Hc.
Qed.

Lemma forEach_addExtraLib (l : list ProjectFile) (lib : ProjectFile → string * string)
    (w : World) :
  forEach l (λ f, defaults_call (addExtraLib (lib f).1 (lib f).2)) w =
  ((addExtraLibs (lib <$> l) (typescriptDefaults w)).1,
   set_typescriptDefaults (addExtraLibs (lib <$> l) (typescriptDefaults w)).2 w).
Proof.
  revert w. induction l as [|f l IH]; intros w.
  - simpl. unfold ret. by destruct w.
  - cbn [forEach fmap list_fmap addExtraLibs]. unfold bind, defaults_call at 1.
    destruct (addExtraLib (lib f).1 (lib f).2 (typescriptDefaults w)) as [d'|e].
    + by rewrite IH.
    + simpl. by destruct w.
Qed.

Lemma addExtraLibs_app (l1 l2 : list (string * string)) (d : LanguageServiceDefaults) :
  addExtraLibs (l1 ++ l2) d =
  match addExtraLibs l1 d with
  | (Return _, d') => addExtraLibs l2 d'
  | (Throw e, d') => (Throw e, d')
  end.
Proof.
  revert d. induction l1 as [|lib l1 IH]; intros d; [done|]. simpl.
  destruct (addExtraLib lib.1 lib.2 d); [apply IH|done].
Qed.

(** X12: on a loaded project [_setEnvironmentFiles] followed by
    [_setProjectFiles] is a sequence of [addExtraLib] calls and nothing else:
    one for each environment file, in order, a Lib file under its bare name
    and any other under "file:///" and its name, then one for each project
    file that is TypeScript or Definition, in bundle order, under "file:///"
    and its name; the other project files are not registered.  The first
    call that throws ends the sequence with its error, and the libraries
    registered before it stay registered. *)
Theorem extra_libs_in_order (w : World) (b : ProjectBundle) :
  _project (this w) = Some b →
  (_setEnvironmentFiles >> _setProjectFiles) w =
  let libs := (environment_lib <$> environmentFiles b) ++
              (project_lib <$> compiled_files b) in
  ((addExtraLibs libs (typescriptDefaults w)).1,
   set_typescriptDefaults (addExtraLibs libs (typescriptDefaults w)).2 w).
Proof.
  intros Hb.
  assert (E1 : _setEnvironmentFiles w =
    ((addExtraLibs (environment_lib <$> environmentFiles b) (typescriptDefaults w)).1,
     set_typescriptDefaults
       (addExtraLibs (environment_lib <$> environmentFiles b) (typescriptDefaults w)).2 w)).
  { unfold _setEnvironmentFiles, bind at 1, project_bang, bind, gets, ret.
    rewrite Hb. apply (forEach_addExtraLib _ environment_lib). }
  assert (E2 : ∀ w0 : World, _project (this w0) = Some b →
    _setProjectFiles w0 =
    ((addExtraLibs (project_lib <$> compiled_files b) (typescriptDefaults w0)).1,
     set_typescriptDefaults
       (addExtraLibs (project_lib <$> compiled_files b) (typescriptDefaults w0)).2 w0)).
  { intros w0 Hb0. unfold _setProjectFiles, bind at 1, project_bang, bind, gets, ret.
    rewrite Hb0. rewrite <- (forEach_addExtraLib _ project_lib).
    unfold compiled_files. clear. revert w0.
    induction (files b) as [|f l IH]; intros w0; [done|].
    cbn [forEach List.filter]. unfold isTypeScriptFile at 1.
    rewrite (orb_comm (bool_decide (type f = Definition_))).
    destruct (bool_decide (type f = TypeScript) || bool_decide (type f = Definition_)).
    - cbn [forEach]. unfold bind.
      destruct (defaults_call _ w0) as [[[]|e] w1]; [apply IH|done].
    - unfold bind, ret. apply IH. }
  cbv zeta. unfold bind. rewrite E1, addExtraLibs_app.
  destruct (addExtraLibs (environment_lib <$> environmentFiles b) (typescriptDefaults w))
    as [[[]|e] d']; [|done].
  cbn [fst snd]. rewrite E2 by done. simpl. done.
Qed.

End Configurator.

Section Edits.
Context {monaco : Monaco}.

(** X16: an edit of a buffer that is not followed by [setFileDirty] is not
    seen by [get()]: on a loaded project that monaco accepts and a name that
    is not dirty, after the editing surface gives the buffer of the name the
    content [v], the name is still not dirty, [get()] returns a bundle in
    which the files of that name are as they were, and the buffer still has
    the content [v]. *)
Theorem unflagged_edit_not_flushed (w : World) (b : ProjectBundle) (filename v : string) :
  wf w →
  _project (this w) = Some b →
  filename ∈ name <$> files b →
  (isFileDirty filename w).1 = Return false →
  ∃ w1 b' w2,
    edit filename v w = (Return tt, w1) ∧
    (isFileDirty filename w1).1 = Return false ∧
    get w1 = (Return (Some b'), w2) ∧
    (∀ k fk, files b !! k = Some fk → name fk = filename → files b' !! k = Some fk) ∧
    (buffer_value filename w2).1 = Return v.
Proof.
  intros Hwf Hb Hn Hclean. rewrite (isFileDirty_fst filename w b Hb) in Hclean.
  assert (Hd : dirty_name w b filename = false) by congruence. clear Hclean.
  destruct (find_file_elem filename b Hn) as [[i f] Hf].
  destruct (getFileModel_wf filename w b i f Hwf Hb Hf)
    as (h & w0 & m & E0 & Hb0 & Hwf0 & _ & Hmod0 & _ & _ & _ & _ & _ & _ & Hdirty0).
  destruct (setValue_spec h v w0 b i Hwf0 Hb0 Hmod0)
    as (w1 & E1 & Hb1 & Hwf1 & _ & Hfd1 & Hbc1).
  assert (Hd1 : dirty_name w1 b filename = false).
  { unfold dirty_name in *. rewrite Hf in *.
    transitivity (dirty_at i w0); [unfold dirty_at; by rewrite Hfd1|].
    by rewrite Hdirty0. }
  destruct (get_loaded w1 b Hwf1 Hb1)
    as (w2 & b' & E2 & Hb2 & Hwf2 & Hsh & Hbc2 & _ & _ & _ & Ht & _).
  exists w1, b', w2. split.
  { unfold edit. by rewrite (bind_Return _ _ _ _ _ E0). }
  split; [by rewrite (isFileDirty_fst filename w1 b Hb1), Hd1|].
  split; [done|]. split.
  - intros k fk Hk Hname. destruct (Ht k fk Hk) as (vk & _ & Hk').
    by rewrite Hname, Hd1 in Hk'.
  - destruct (same_shape_find_file b b' filename i f Hsh Hf) as [f' Hf'].
    destruct (buffer_value_spec filename w2 b' i f' Hwf2 Hb2 Hf') as (v' & w3 & -> & Hv' & _).
    rewrite Hbc2, (Hbc1 filename f Hf) in Hv'. simpl. by injection Hv' as ->.
Qed.

End Edits.

Section Strings.

Lemma string_app_cons (c : ascii) (s t : string) :
  String c s +:+ t = String c (s +:+ t).
Proof. reflexivity. Qed.

Lemma string_app_nil (t : string) : EmptyString +:+ t = t.
Proof. reflexivity. Qed.

Lemma string_app_assoc (s1 s2 s3 : string) :
  (s1 +:+ s2) +:+ s3 = s1 +:+ (s2 +:+ s3).
Proof.
  induction s1 as [|c s1 IH]; [done|]. by rewrite !string_app_cons, IH.
Qed.

Lemma string_length_app (s1 s2 : string) :
  String.length (s1 +:+ s2) = (String.length s1 + String.length s2)%nat.
Proof.
  induction s1 as [|c s1 IH]; [done|]. rewrite string_app_cons. simpl. by rewrite IH.
Qed.

Lemma strip_prefix_app (p s : string) : strip_prefix p (p +:+ s) = Some s.
Proof.
  induction p as [|a p IH]; [by destruct s|].
  rewrite string_app_cons. simpl. by rewrite Ascii.eqb_refl.
Qed.

Lemma replace_prefix (p r s : string) : replace p r (p +:+ s) = r +:+ s.
Proof.
  destruct (p +:+ s) as [|c t] eqn:E; cbn [replace]; rewrite <- E, strip_prefix_app; done.
Qed.

Lemma replace_absent (p r s : string) : occurs p s = false → replace p r s = s.
Proof.
  induction s as [|c s IH]; simpl.
  - by destruct (strip_prefix p EmptyString).
  - destruct (strip_prefix p (String c s)); [done|]. intros H. by rewrite IH.
Qed.

(** X17: [conform] keeps the text of an output file; it takes a leading
    "file://" off its name, and leaves a name in which "file://" does not
    occur as it is. *)
Theorem conform_strips_scheme (o : OutputFile.t) :
  EmitFile.text (conform o) = OutputFile.text o ∧
  (∀ path, OutputFile.name o = "file://" +:+ path → EmitFile.name (conform o) = path) ∧
  (occurs "file://" (OutputFile.name o) = false →
   EmitFile.name (conform o) = OutputFile.name o).
Proof.
  split; [done|]. split.
  - intros path Hn. unfold conform. simpl. rewrite Hn.
    by rewrite replace_prefix.
  - intros Hn. unfold conform. simpl. by apply replace_absent.
Qed.

End Strings.

Section WebpackProperties.
Import Webpack.
Context {node : Node}.

(** The ids that are relative: [isRelative] holds of every id that starts
    with a dot; it fails
    on the empty id, on an id that starts with a slash or an at sign, and on
    an id that starts with a letter, a digit or an underscore. *)
Theorem isRelative_cases :
  (∀ rest, isRelative (String "." rest) = true) ∧
  isRelative EmptyString = false ∧
  (∀ rest, isRelative (String "/" rest) = false) ∧
  (∀ rest, isRelative (String "@" rest) = false) ∧
  (∀ c rest, is_word c = true → isRelative (String c rest) = false).
Proof.
  repeat split; try done.
  intros c rest Hc. unfold isRelative. simpl. rewrite Hc. simpl.
  by rewrite !andb_false_r.
Qed.

Lemma replace_at_end_suffix (p r stem : string) :
  p ≠ EmptyString →
  replace_at_end p r (stem +:+ p) = stem +:+ r.
Proof.
  intros Hp. induction stem as [|c stem IH].
  - rewrite !string_app_nil. destruct p; [done|].
    cbn [replace_at_end]. by rewrite String.eqb_refl.
  - rewrite !string_app_cons. cbn [replace_at_end].
    destruct (String.eqb (String c (stem +:+ p)) p) eqn:E.
    + apply String.eqb_eq in E. apply (f_equal String.length) in E.
      cbn [String.length] in E. rewrite string_length_app in E. lia.
    + by rewrite IH.
Qed.

Lemma replace_at_end_cases (p r s : string) :
  replace_at_end p r s = s ∨ ∃ stem, s = stem +:+ p.
Proof.
  induction s as [|c s IH].
  - cbn [replace_at_end]. destruct (String.eqb EmptyString p) eqn:E; [|by left].
    apply String.eqb_eq in E. right. exists EmptyString. by subst.
  - cbn [replace_at_end]. destruct (String.eqb (String c s) p) eqn:E.
    + apply String.eqb_eq in E. right. exists EmptyString. by subst.
    + destruct IH as [->|[stem ->]]; [by left|]. right. by exists (String c stem).
Qed.

(** X18: the module replacement rewrites a request in one case only: the
    request is not absolute, it ends in ".m.css", and the resolved file with
    ".js" added exists; the request then gets ".js" added.  In every other
    case, and always for the context, the resolve data stay as they are. *)
Theorem replace_css_module_cases (result : ResolveData) :
  (isAbsolute (request result) = true → replace_css_module result = result) ∧
  (existsSync (js_file result) = false → replace_css_module result = result) ∧
  ((∀ stem, request result ≠ stem +:+ ".m.css") → replace_css_module result = result) ∧
  (∀ stem,
     isAbsolute (request result) = false →
     existsSync (js_file result) = true →
     request result = stem +:+ ".m.css" →
     replace_css_module result =
       {| request := request result +:+ ".js"; context := context result |}).
Proof.
  unfold replace_css_module. fold (js_file result). split; [|split; [|split]].
  - by intros ->.
  - intros ->. by destruct (isAbsolute (request result)).
  - intros Hno. destruct (isAbsolute (request result)); [done|].
    destruct (existsSync (js_file result)); [|done].
    destruct (replace_at_end_cases ".m.css" ".m.css.js" (request result)) as [->|[stem Hs]].
    + by destruct result.
    + by destruct (Hno stem).
  - intros stem -> -> Hs. rewrite Hs.
    rewrite (replace_at_end_suffix ".m.css" ".m.css.js" stem) by done.
    f_equal. by rewrite string_app_assoc.
Qed.

End WebpackProperties.

Section Isolation.
Context {monaco : Monaco} {request : Request} {worker : TypeScriptWorker}.

(** X19: all along a session that starts with a new instance, no two file
    objects share a model; so, on a loaded project that monaco accepts, an
    edit of the buffer of one name leaves the content of the buffer of every
    other name of the project as it was. *)
Theorem buffers_isolated (d : LanguageServiceDefaults) (cs : list Call)
    (b : ProjectBundle) (filename other v : string) :
  let w := after_all cs (new_World d) in
  _project (this w) = Some b →
  filename ∈ name <$> files b →
  other ∈ name <$> files b →
  other ≠ filename →
  (∀ i j h, model (file_data i w) = Some h → model (file_data j w) = Some h → i = j) ∧
  (accepts w →
   ∃ w1, edit filename v w = (Return tt, w1) ∧
         (buffer_value filename w1).1 = Return v ∧
         (buffer_value other w1).1 = (buffer_value other w).1).
Proof.
  intros w Hb Hn Ho Hne. destruct (wf_new d) as [Hl0 _].
  destruct (session_isolated cs (new_World d) Hl0 (new_distinct d)) as [Hl Hd].
  fold w in Hl, Hd.
  split; [exact Hd|]. intros Hacc.
  assert (Hwf : wf w) by by split.
  destruct (find_file_elem filename b Hn) as [[i f] Hf].
  destruct (find_file_elem other b Ho) as [[j g] Hg].
  assert (Hij : j ≠ i).
  { intros ->. destruct (find_file_Some _ _ _ _ Hf) as [? ?].
    destruct (find_file_Some _ _ _ _ Hg) as [? ?]. congruence. }
  assert (Hw : isolated b w).
  { split; [|done]. split; [done|]. exists b. split; [done|apply same_shape_refl]. }
  apply (getFileModel_outcome b filename w) in Hw as [_ Hd0].
  destruct (getFileModel_wf filename w b i f Hwf Hb Hf)
    as (h & w0 & m & E0 & Hb0 & Hwf0 & _ & Hmod0 & Hh0 & _ & _ & Hbc0 & _).
  rewrite E0 in Hd0. simpl in Hd0.
  destruct (setValue_spec h v w0 b i Hwf0 Hb0 Hmod0)
    as (w1 & E1 & Hb1 & Hwf1 & _ & Hfd1 & Hbc1).
  exists w1. split; [unfold edit; by rewrite (bind_Return _ _ _ _ _ E0)|].
  destruct (buffer_value_spec filename w1 b i f Hwf1 Hb1 Hf) as (v1 & w2 & E2 & Hv1 & _).
  destruct (buffer_value_spec other w1 b j g Hwf1 Hb1 Hg) as (v2 & w3 & E3 & Hv2 & _).
  destruct (buffer_value_spec other w b j g Hwf Hb Hg) as (v3 & w4 & E4 & Hv3 & _).
  rewrite E2, E3, E4. simpl. split.
  - rewrite (Hbc1 filename f Hf) in Hv1. by injection Hv1 as ->.
  - rewrite <- Hbc0 in Hv3. unfold buffer_content in Hv2, Hv3. rewrite Hg in Hv2, Hv3.
    assert (Hmj : model_at j w1 = model_at j w0) by (unfold model_at; by rewrite Hfd1).
    rewrite Hmj in Hv2. destruct (model_at j w0) as [hj|] eqn:Ej; [|congruence].
    assert (Hhj : hj ≠ h).
    { intros ->. apply Hij. by apply (Hd0 j i h). }
    injection E1 as <-. simpl in Hv2.
    rewrite list_lookup_alter_ne in Hv2 by done. congruence.
Qed.

End Isolation.

(** ** The further properties on the sample project *)

Lemma getFile_first_match_witness :
  _project (this Sample.loaded) = Some Sample.bundle ∧
  getFile "./index.html" Sample.loaded =
    (Return (Some (3, {| name := "./index.html"; text := "<html/>"; type := HTML |})),
     Sample.loaded).
Proof.
  split; [exact Sample_loaded_project|].
  destruct (getFile_first_match Sample.loaded Sample.bundle "./index.html"
              Sample_loaded_project) as (r & E & _).
  rewrite E. vm_compute in E. injection E as <-. reflexivity.
Defined.

Lemma not_loaded_guards_witness :
  _project (this Sample.new) = None ∧
  isFileDirty "./index.html" Sample.new = (Throw NotLoadedError, Sample.new) ∧
  emit (worker := Sample.worker) Sample.new = (Throw NotLoadedError, Sample.new).
Proof.
  split; [reflexivity|].
  destruct (not_loaded_guards (worker := Sample.worker) Sample.new "./index.html" None
              eq_refl) as (_ & _ & E1 & _ & E2 & _).
  by split.
Defined.

Lemma missing_not_in_bundle : "missing.ts" ∉ name <$> files Sample.bundle.
Proof. apply (bool_decide_unpack _). vm_compute. exact I. Qed.

Lemma getFileModel_unknown_name_witness :
  _project (this Sample.loaded) = Some Sample.bundle ∧
  ("missing.ts" ∉ name <$> files Sample.bundle) ∧
  getFileModel "missing.ts" Sample.loaded =
    (Throw (Error ("File " +:+ dquote +:+ "missing.ts" +:+ dquote +:+
                   " is not part of the project.")), Sample.loaded).
Proof.
  split; [exact Sample_loaded_project|]. split; [exact missing_not_in_bundle|].
  apply (getFileModel_unknown_name Sample.loaded Sample.bundle "missing.ts"
           Sample_loaded_project missing_not_in_bundle).
Defined.

Lemma getFileModel_creates_model_witness :
  (_project (this Sample.loaded) = Some Sample.bundle ∧
   find_file "./index.html" Sample.bundle =
     Some (3, {| name := "./index.html"; text := "<html/>"; type := HTML |}) ∧
   model_at 3 Sample.loaded = None ∧
   model_exists (Uri_file "./index.html") (models Sample.loaded) = false ∧
   ∃ w', getFileModel "./index.html" Sample.loaded = (Return 0, w') ∧
         models w' = [ @mkIModel Sample.monaco "/./index.html" "html" "<html/>" ]) ∧
  (let w := (getFileModel "notes.md" Sample.clash_loaded).2 in
   _project (this w) = Some Sample.clash_bundle ∧
   find_file "/notes.md" Sample.clash_bundle =
     Some (1, {| name := "/notes.md"; text := "two"; type := Markdown |}) ∧
   model_at 1 w = None ∧
   model_exists (Uri_file "/notes.md") (models w) = true ∧
   ∃ w', getFileModel "/notes.md" w = (Throw ModelExistsError, w') ∧
         models w' = [ @mkIModel Sample.monaco "/notes.md" "markdown" "one" ]).
Proof.
  split.
  - split; [exact Sample_loaded_project|]. split; [reflexivity|]. split; [reflexivity|].
    split; [reflexivity|].
    destruct (getFileModel_creates_model Sample.loaded Sample.bundle "./index.html" 3
                {| name := "./index.html"; text := "<html/>"; type := HTML |}
                Sample_loaded_project eq_refl eq_refl) as [Hcreate _].
    destruct (Hcreate eq_refl) as (w' & E & Hm & _).
    exists w'. split; [exact E|exact Hm].
  - split; [vm_compute; reflexivity|]. split; [reflexivity|]. split; [vm_compute; reflexivity|].
    split; [vm_compute; reflexivity|].
    destruct (getFileModel_creates_model
                (getFileModel "notes.md" Sample.clash_loaded).2 Sample.clash_bundle
                "/notes.md" 1 {| name := "/notes.md"; text := "two"; type := Markdown |})
      as [_ Hrefuse]; [vm_compute; reflexivity|reflexivity|vm_compute; reflexivity|].
    destruct Hrefuse as (w' & E & Hm & _); [vm_compute; reflexivity|].
    exists w'. split; [exact E|]. rewrite Hm. vm_compute. reflexivity.
Defined.

Lemma setFileDirty_then_isFileDirty_witness :
  _project (this Sample.loaded) = Some Sample.bundle ∧
  "./index.html" ∈ name <$> files Sample.bundle ∧
  ∃ w', setFileDirty "./index.html" None Sample.loaded = (Return tt, w') ∧
        (isFileDirty "./index.html" w').1 = Return true.
Proof.
  split; [exact Sample_loaded_project|]. split; [exact index_html_in_bundle|].
  destruct (setFileDirty_then_isFileDirty Sample.loaded Sample.bundle "./index.html" None
              Sample_loaded_project index_html_in_bundle) as (w' & E & Hd & _).
  exists w'. split; [exact E|exact Hd].
Defined.

Lemma Sample_load : load (request := Sample.request) "project.json" Sample.new =
                    (Return tt, Sample.loaded).
Proof. vm_compute. reflexivity. Qed.

Lemma load_then_get_witness :
  this Sample.new = new_Project ∧
  models Sample.new = [] ∧
  request_text (Request := Sample.request) "project.json" = Return "bundle" ∧
  JSON_parse (Request := Sample.request) "bundle" = Return Sample.bundle ∧
  load (request := Sample.request) "project.json" Sample.new = (Return tt, Sample.loaded) ∧
  (isFileDirty "src/main.ts" Sample.loaded).1 = Return false ∧
  ∃ w2, get Sample.loaded = (Return (Some Sample.bundle), w2).
Proof.
  split; [reflexivity|]. split; [reflexivity|]. split; [reflexivity|].
  split; [reflexivity|]. split; [exact Sample_load|].
  destruct (load_then_get (request := Sample.request) Sample.new Sample.loaded
              "project.json" "bundle" Sample.bundle eq_refl eq_refl eq_refl eq_refl
              Sample_load) as [Hd Hg].
  split; [apply Hd|exact Hg].
Defined.

Lemma Sample_get : get Sample.loaded = (Return (Some Sample.bundle), (get Sample.loaded).2).
Proof. vm_compute. reflexivity. Qed.

Lemma get_twice_witness :
  get Sample.loaded = (Return (Some Sample.bundle), (get Sample.loaded).2) ∧
  ∃ w2, get (get Sample.loaded).2 = (Return (Some Sample.bundle), w2).
Proof.
  split; [exact Sample_get|].
  apply (get_twice Sample.loaded (get Sample.loaded).2 Sample.bundle Sample_get).
Defined.

Lemma emit_reads_only_witness :
  wf Sample.loaded ∧
  _project (this Sample.loaded) = Some Sample.bundle ∧
  _project (this (emit (worker := Sample.worker) Sample.loaded).2) = Some Sample.bundle ∧
  (isFileDirty "./index.html" (emit (worker := Sample.worker) Sample.loaded).2).1 =
    (isFileDirty "./index.html" Sample.loaded).1.
Proof.
  split; [exact Sample_loaded_wf|]. split; [exact Sample_loaded_project|].
  destruct (emit_reads_only (worker := Sample.worker) Sample.loaded
              (emit (worker := Sample.worker) Sample.loaded).2 Sample.bundle
              (emit (worker := Sample.worker) Sample.loaded).1
              Sample_loaded_wf Sample_loaded_project (surjective_pairing _))
    as (Hb & _ & Hd & _).
  split; [exact Hb|apply Hd].
Defined.

Lemma emit_worker_failure_witness :
  wf Sample.loaded ∧
  _project (this Sample.loaded) = Some Sample.bundle ∧
  emit (worker := Sample.failing_worker) Sample.loaded =
    (Throw (Error "Worker failed"), (typescriptFileUris Sample.bundle Sample.loaded).2).
Proof.
  split; [exact Sample_loaded_wf|]. split; [exact Sample_loaded_project|].
  destruct (emit_worker_failure (worker := Sample.failing_worker) Sample.loaded Sample.bundle
              Sample_loaded_wf Sample_loaded_project) as [H _].
  apply H. reflexivity.
Defined.

Lemma load_fetch_failure_witness :
  _project (this Sample.new) = None ∧
  request_text (Request := Sample.offline_request) "project.json" =
    Throw (Error "Network error") ∧
  load (request := Sample.offline_request) "project.json" Sample.new =
    (Throw (Error "Network error"), Sample.new) ∧
  isLoaded Sample.new = (Return false, Sample.new).
Proof.
  split; [reflexivity|]. split; [reflexivity|].
  apply (load_fetch_failure (request := Sample.offline_request) Sample.new "project.json"
           (Error "Network error") eq_refl (or_introl eq_refl)).
Defined.

Lemma stays_loaded_witness :
  cached_live Sample.loaded ∧
  _project (this Sample.loaded) = Some Sample.bundle ∧
  (isLoaded (after_all (request := Sample.request) (worker := Sample.worker)
               [Call_setFileDirty "./index.html" None; Call_get; Call_emit;
                Call_load "other.json"] Sample.loaded)).1 = Return true.
Proof.
  split; [exact (proj1 Sample_loaded_wf)|]. split; [exact Sample_loaded_project|].
  destruct (stays_loaded (request := Sample.request) (worker := Sample.worker)
              Sample.loaded Sample.bundle
              [Call_setFileDirty "./index.html" None; Call_get; Call_emit;
               Call_load "other.json"]
              (proj1 Sample_loaded_wf) Sample_loaded_project) as (b' & _ & _ & _ & _ & _ & H).
  exact H.
Defined.

Lemma compiler_options_forced_witness :
  _project (this Sample.loaded) = Some Sample.bundle ∧
  ∃ options,
    _setTypeScriptEnvironment Sample.loaded =
      defaults_call (setCompilerOptions options) Sample.loaded ∧
    options !! "target" = Some (JsNumber 1) ∧
    options !! "noImplicitAny" = Some (JsBool true) ∧
    options !! "lib" = Some undefined ∧
    options !! "outDir" = None.
Proof.
  split; [exact Sample_loaded_project|].
  destruct (compiler_options_forced Sample.loaded Sample.bundle Sample_loaded_project)
    as (options & E & _ & Ht & _ & _ & Hc & Hn).
  exists options. split; [exact E|]. split; [exact Ht|].
  split; [apply (Hc "noImplicitAny"); apply (bool_decide_unpack _); vm_compute; exact I|].
  split; [apply (Hc "lib"); apply (bool_decide_unpack _); vm_compute; exact I|].
  apply Hn; apply (bool_decide_unpack _); vm_compute; exact I.
Defined.

Lemma extra_libs_in_order_witness :
  _project (this Sample.loaded) = Some Sample.bundle ∧
  typescriptDefaults
    ((_setEnvironmentFiles >> _setProjectFiles)
       (set_typescriptDefaults (typescriptDefaults Sample.new) Sample.loaded)).2 =
  (None, [ ("declare var window: any;", "lib.d.ts");
           ("let x=1;", "file:///src/main.ts");
           ("let = ;", "file:///src/broken.ts") ]).
Proof.
  split; [exact Sample_loaded_project|].
  rewrite (extra_libs_in_order (set_typescriptDefaults (typescriptDefaults Sample.new) Sample.loaded)
             Sample.bundle Sample_loaded_project).
  vm_compute. reflexivity.
Defined.

Lemma unflagged_edit_not_flushed_witness :
  wf Sample.loaded ∧
  _project (this Sample.loaded) = Some Sample.bundle ∧
  "./index.html" ∈ name <$> files Sample.bundle ∧
  (isFileDirty "./index.html" Sample.loaded).1 = Return false ∧
  ∃ w1 b' w2,
    edit "./index.html" "<p/>" Sample.loaded = (Return tt, w1) ∧
    get w1 = (Return (Some b'), w2) ∧
    files b' !! 3 = Some {| name := "./index.html"; text := "<html/>"; type := HTML |} ∧
    (buffer_value "./index.html" w2).1 = Return "<p/>".
Proof.
  split; [exact Sample_loaded_wf|]. split; [exact Sample_loaded_project|].
  split; [exact index_html_in_bundle|]. split; [reflexivity|].
  destruct (unflagged_edit_not_flushed Sample.loaded Sample.bundle "./index.html" "<p/>"
              Sample_loaded_wf Sample_loaded_project index_html_in_bundle eq_refl)
    as (w1 & b' & w2 & E1 & _ & E2 & Hk & Hv).
  exists w1, b', w2. split; [exact E1|]. split; [exact E2|].
  split; [apply (Hk 3); reflexivity|exact Hv].
Defined.

Lemma replace_css_module_cases_witness :
  Webpack.replace_css_module (node := Webpack.sample_node)
    {| Webpack.request := "./button.m.css"; Webpack.context := "/app/src/widgets" |} =
    {| Webpack.request := "./button.m.css.js"; Webpack.context := "/app/src/widgets" |}.
Proof.
  destruct (replace_css_module_cases (node := Webpack.sample_node)
              {| Webpack.request := "./button.m.css"; Webpack.context := "/app/src/widgets" |})
    as (_ & _ & _ & H).
  apply (H "./button"); reflexivity.
Defined.

Lemma buffers_isolated_witness :
  _project (this (after_all (request := Sample.request) (worker := Sample.worker)
                    [Call_load "project.json"] Sample.new)) =
    Some Sample.bundle ∧
  "./index.html" ∈ name <$> files Sample.bundle ∧
  "src/main.ts" ∈ name <$> files Sample.bundle ∧
  "src/main.ts" ≠ "./index.html" ∧
  accepts (after_all (request := Sample.request) (worker := Sample.worker)
             [Call_load "project.json"] Sample.new) ∧
  ∃ w1,
    edit "./index.html" "<p/>"
      (after_all (request := Sample.request) (worker := Sample.worker)
         [Call_load "project.json"] Sample.new) = (Return tt, w1) ∧
    (buffer_value "./index.html" w1).1 = Return "<p/>" ∧
    (buffer_value "src/main.ts" w1).1 = Return "let x=1;".
Proof.
  assert (Hm : "src/main.ts" ∈ name <$> files Sample.bundle)
    by (apply (bool_decide_unpack _); vm_compute; exact I).
  split; [exact Sample_loaded_project|]. split; [exact index_html_in_bundle|].
  split; [exact Hm|]. split; [discriminate|].
  split; [exact (proj2 Sample_loaded_wf)|].
  destruct (buffers_isolated (request := Sample.request) (worker := Sample.worker)
              (typescriptDefaults Sample.new) [Call_load "project.json"] Sample.bundle
              "./index.html" "src/main.ts" "<p/>"
              Sample_loaded_project index_html_in_bundle Hm ltac:(discriminate))
    as (_ & Hedit).
  destruct (Hedit (proj2 Sample_loaded_wf)) as (w1 & E & Hv & Ho).
  exists w1. split; [exact E|]. split; [exact Hv|]. rewrite Ho. reflexivity.
Defined.
